(** * Trading Risk Assistant: the decision engine of [bot/risk_logic.py]

    A shallow embedding of the risk engine (configuration lookup, hard-stop
    gate, score calculator, risk tiers, lot sizing and the [evaluate]
    pipeline) together with the properties the specification states about it.

    Conventions of the embedding.
    - Python objects are values of [value]: the scalars [None], [bool],
      numbers and [str], and the containers [list] and [dict] that
      [yaml.safe_load] produces.  Answers, statistics and trade details are
      scalars; the configuration is an arbitrary value.
    - Python [int] and [float] are both embedded as exact rationals ([Q]):
      the arithmetic of the source is read over the rationals, so rounding
      of binary floating point (and [nan]/[inf]) is outside the model.
      [bool] counts as the numbers 0 and 1, as in Python.
    - [round(x, 2)] and [str.upper] are builtins of the runtime, like the
      texts that an f-string substitutes: the statements hold for every
      runtime whose rounding gives a nearest hundredth, whichever way a tie
      falls; the concrete runs use one that upper-cases the ASCII letters
      and rounds a tie to the even hundredth.
    - A [dict] is an association list with string keys, looked up from the
      front; insertion keeps the position of an existing key.
    - Exceptions are explicit: a method that can raise returns a [result]. *)

From Stdlib Require Import ZArith QArith Qround String Ascii List Bool Lia Lqa.
Import ListNotations.

Set Warnings "-register-all".
Local Open Scope string_scope.
Local Open Scope Q_scope.

(** ** Python values and exceptions *)

Inductive scalar : Type :=
| SNone
| SBool (b : bool)
| SNum (q : Q)
| SStr (s : string).

Inductive value : Type :=
| VAtom (a : scalar)
| VList (l : list value)
| VDict (d : list (string * value)).

Abbreviation VNone := (VAtom SNone).
Abbreviation VBool b := (VAtom (SBool b)).
Abbreviation VNum q := (VAtom (SNum q)).
Abbreviation VStr s := (VAtom (SStr s)).

Inductive exn : Type :=
| TypeError
| AttributeError
| ZeroDivisionError
| KeyError (key : string)
| FileNotFoundError (path : string)
| YAMLError.

Inductive result (A : Type) : Type :=
| Ok (a : A)
| Raise (e : exn).

Arguments Ok {A} a.
Arguments Raise {A} e.

Definition bind {A B : Type} (r : result A) (k : A -> result B) : result B :=
  match r with
  | Ok a => k a
  | Raise e => Raise e
  end.

Notation "x <- r ;; k" := (bind r (fun x => k))
  (at level 61, r at next level, right associativity).
Notation "' pat <- r ;; k" := (bind r (fun x => match x with pat => k end))
  (at level 61, pat pattern, r at next level, right associativity).

(** ** Dictionaries *)

Definition dict (A : Type) : Type := list (string * A).

Fixpoint dict_lookup {A : Type} (d : dict A) (k : string) : option A :=
  match d with
  | [] => None
  | (k', v) :: rest => if String.eqb k' k then Some v else dict_lookup rest k
  end.

(** [d.get(k, default)] *)
Definition dict_get {A : Type} (d : dict A) (k : string) (default : A) : A :=
  match dict_lookup d k with
  | Some v => v
  | None => default
  end.

(** [k in d] *)
Definition dict_mem {A : Type} (d : dict A) (k : string) : bool :=
  match dict_lookup d k with
  | Some _ => true
  | None => false
  end.

(** [d[k]] *)
Definition dict_item {A : Type} (d : dict A) (k : string) : result A :=
  match dict_lookup d k with
  | Some v => Ok v
  | None => Raise (KeyError k)
  end.

(** [d[k] = v] *)
Fixpoint dict_set {A : Type} (d : dict A) (k : string) (v : A) : dict A :=
  match d with
  | [] => [(k, v)]
  | (k', v') :: rest =>
      if String.eqb k' k then (k', v) :: rest else (k', v') :: dict_set rest k v
  end.

(** [l.append(x)] *)
Definition append {A : Type} (l : list A) (x : A) : list A := (l ++ [x])%list.

(** ** Operators of the language, as the source uses them *)

Definition scalar_num (a : scalar) : option Q :=
  match a with
  | SNum q => Some q
  | SBool b => Some (if b then 1 else 0)
  | SNone | SStr _ => None
  end.

Definition as_num (v : value) : option Q :=
  match v with
  | VAtom a => scalar_num a
  | VList _ | VDict _ => None
  end.

(** A numeric operand of an arithmetic operator; anything else is a
    [TypeError].  (Where Python would repeat a [str] or [list] multiplied
    by an [int], the source at once adds the product to a [float] or divides
    by it, which raises the same [TypeError].) *)
Definition to_num (v : value) : result Q :=
  match as_num v with
  | Some q => Ok q
  | None => Raise TypeError
  end.

Definition Qltb (x y : Q) : bool := negb (Qle_bool y x).

(** [a < b] with a scalar on the left: numbers with numbers, strings with
    strings; every other pairing, and every container, is a [TypeError]. *)
Definition py_lt (a : scalar) (b : value) : result bool :=
  match a, b with
  | SStr s, VStr t => Ok (String.ltb s t)
  | _, _ =>
      match scalar_num a, as_num b with
      | Some x, Some y => Ok (Qltb x y)
      | _, _ => Raise TypeError
      end
  end.

(** [a >= b] with a scalar on the left. *)
Definition py_ge (a : scalar) (b : value) : result bool :=
  match a, b with
  | SStr s, VStr t => Ok (String.leb t s)
  | _, _ =>
      match scalar_num a, as_num b with
      | Some x, Some y => Ok (Qle_bool y x)
      | _, _ => Raise TypeError
      end
  end.

(** Truth value of an object in a condition. *)
Definition scalar_truthy (a : scalar) : bool :=
  match a with
  | SNone => false
  | SBool b => b
  | SNum q => negb (Qeq_bool q 0)
  | SStr s => negb (String.eqb s "")
  end.

Definition truthy (v : value) : bool :=
  match v with
  | VAtom a => scalar_truthy a
  | VList l => match l with [] => false | _ => true end
  | VDict d => match d with [] => false | _ => true end
  end.

(** [v == 'literal'] *)
Definition eq_str (v : value) (s : string) : bool :=
  match v with
  | VStr t => String.eqb t s
  | _ => false
  end.

(** [v.get(k, default)]: only a [dict] has the method. *)
Definition py_get (v : value) (k : string) (default : value) : result value :=
  match v with
  | VDict d => Ok (dict_get d k default)
  | _ => Raise AttributeError
  end.

(** [v[k]] with a string key: a [dict] is looked up, nothing else can be
    subscripted by a string. *)
Definition py_item (v : value) (k : string) : result value :=
  match v with
  | VDict d => dict_item d k
  | _ => Raise TypeError
  end.

Fixpoint chars (s : string) : list value :=
  match s with
  | EmptyString => []
  | String c rest => VStr (String c EmptyString) :: chars rest
  end.

(** The items a [for] loop visits: the elements of a list, the keys of a
    dict, the characters of a string. *)
Definition py_iter (v : value) : result (list value) :=
  match v with
  | VList l => Ok l
  | VDict d => Ok (map (fun kv => VStr (fst kv)) d)
  | VStr s => Ok (chars s)
  | _ => Raise TypeError
  end.

(** [key in answers] / [answers[key]] for a key taken from the configuration:
    containers cannot be hashed, and a key that is not a string is in no
    dictionary of answers. *)
Definition answers_mem (answers : dict scalar) (key : value) : result bool :=
  match key with
  | VStr k => Ok (dict_mem answers k)
  | VAtom _ => Ok false
  | VList _ | VDict _ => Raise TypeError
  end.

Definition answers_item (answers : dict scalar) (key : value) : result scalar :=
  match key with
  | VStr k => dict_item answers k
  | VAtom _ => Raise (KeyError "")
  | VList _ | VDict _ => Raise TypeError
  end.

(** The builtins the engine relies on and the repository does not define:
    the text an f-string substitutes for an object, the text
    [datetime.now().isoformat()] gives at the n-th reading of the clock,
    [str.upper], and [round(x, 2)].  Of the rounding, which Python does on
    the binary number it holds, only what is true of it whichever way a tie
    falls is relied on: the result is a whole number of hundredths, one that
    is nearest to the argument, and it does not decrease when the argument
    grows. *)
Class Runtime : Type := {
  format_value : value -> string;
  isoformat_now : nat -> string;
  str_upper : string -> string;
  py_round2 : Q -> Q;
  py_round2_nearest :
    forall x : Q,
      exists cents : Z,
        py_round2 x = Qred (inject_Z cents / 100) /\
        x * 100 - (1 # 2) <= inject_Z cents /\
        inject_Z cents <= x * 100 + (1 # 2);
  py_round2_monotone : forall x y : Q, x <= y -> py_round2 x <= py_round2 y
}.

(** [pair.upper()] *)
Definition py_upper `{Runtime} (a : scalar) : result string :=
  match a with
  | SStr s => Ok (str_upper s)
  | _ => Raise AttributeError
  end.

(** [min(a, b)] and [max(a, b)] on numbers: the first argument unless the
    second is strictly smaller (greater). *)
Definition py_min (a b : Q) : Q := if Qltb b a then b else a.
Definition py_max (a b : Q) : Q := if Qltb a b then b else a.

(** [a - b] *)
Definition py_sub (a b : value) : result Q :=
  x <- to_num a ;; y <- to_num b ;; Ok (x - y).

(** Statements of a [for] loop over [items], threading the loop's variables;
    an exception in the body leaves the loop. *)
Fixpoint for_each {A S : Type} (items : list A) (body : S -> A -> result S)
    (s : S) : result S :=
  match items with
  | [] => Ok s
  | x :: rest => s' <- body s x ;; for_each rest body s'
  end.

(** [a / b] on numbers. *)
Definition py_div (x y : Q) : result Q :=
  if Qeq_bool y 0 then Raise ZeroDivisionError else Ok (x / y).

(** ** Data classes *)

Record Answer : Type := {
  question_id : value;
  question_text : value;
  answer : scalar;
  category : string;
  weight : value;
  normalized_score : Q
}.

Record HardStopResult : Type := {
  passed : bool;
  failed_checks : list string;
  reason : option string
}.

Record RiskDecision : Type := {
  should_trade : bool;
  risk_percent : Q;
  final_score : Q;
  category_scores : dict Q;
  answers : list Answer;
  hard_stop_result : HardStopResult;
  lot_size : option Q;
  timestamp : string
}.

(** ** ConfigLoader *)

Module ConfigLoader.

Record t : Type := { config_path : string; config : value }.

(** The storage the loader reads: for a path, nothing when no file is
    there, otherwise what opening it and [yaml.safe_load] give. *)
Definition storage : Type := string -> option (result value).

Definition _load_config (fs : storage) (config_path : string) : result value :=
  match fs config_path with
  | None => Raise (FileNotFoundError config_path)
  | Some loaded => loaded
  end.

Definition init (fs : storage) (config_path : string) : result t :=
  config <- _load_config fs config_path ;;
  Ok {| config_path := config_path; config := config |}.

Definition default_path : string := "config.yaml".

(** The loop of [get], from the object [node] reached so far. *)
Fixpoint get_from (node : value) (keys : list string) (default : value)
    : value :=
  match keys with
  | [] => node
  | key :: rest =>
      match node with
      | VDict d =>
          match dict_get d key VNone with
          | VNone => default
          | found => get_from found rest default
          end
      | _ => default
      end
  end.

(** [get(key1, ..., keyn, default=default)] *)
Definition get (self : t) (keys : list string) (default : value) : value :=
  get_from (config self) keys default.

End ConfigLoader.

(** ** HardStopEvaluator *)

Module HardStopEvaluator.

Record t : Type := { config : ConfigLoader.t }.

Definition init (config : ConfigLoader.t) : t := {| config := config |}.

Definition evaluate `{Runtime} (self : t) (answers stats : dict scalar)
    : result HardStopResult :=
  let failed_checks : list string := [] in
  (* 1. consecutive losses *)
  let max_losses :=
    ConfigLoader.get (config self) ["hard_stops"; "max_consecutive_losses"] VNone in
  hit <- py_ge (dict_get stats "consecutive_losses" (SNum 0)) max_losses ;;
  failed_checks <-
    (if hit : bool then
       losses <- dict_item stats "consecutive_losses" ;;
       Ok (append failed_checks
             ("Pérdidas consecutivas (" ++ format_value (VAtom losses)
                 ++ ") >= " ++ format_value max_losses)%string)
     else Ok failed_checks) ;;
  (* 2. daily loss *)
  let max_daily_loss :=
    ConfigLoader.get (config self) ["hard_stops"; "max_daily_loss_percent"] VNone in
  hit <- py_ge (dict_get stats "daily_loss_percent" (SNum 0)) max_daily_loss ;;
  failed_checks <-
    (if hit : bool then
       loss <- dict_item stats "daily_loss_percent" ;;
       Ok (append failed_checks
             ("Pérdida diaria (" ++ format_value (VAtom loss)
                 ++ "%) >= " ++ format_value max_daily_loss ++ "%")%string)
     else Ok failed_checks) ;;
  (* 3. hours of sleep *)
  let min_sleep :=
    ConfigLoader.get (config self) ["hard_stops"; "min_sleep_hours"] VNone in
  let sleep_hours := dict_get answers "sleep_quality" (SNum 0) in
  hit <- py_lt sleep_hours min_sleep ;;
  let failed_checks :=
    if hit : bool then
      append failed_checks
             ("Horas de sueño (" ++ format_value (VAtom sleep_hours)
            ++ ") < " ++ format_value min_sleep)%string
    else failed_checks in
  (* 4. psychology score *)
  let min_psych_score :=
    ConfigLoader.get (config self) ["hard_stops"; "psychology_min_score"] VNone in
  let mental_state := dict_get answers "mental_state" (SNum 0) in
  hit <- py_lt mental_state min_psych_score ;;
  let failed_checks :=
    if hit : bool then
      append failed_checks
             ("Estado mental (" ++ format_value (VAtom mental_state)
            ++ ") < " ++ format_value min_psych_score)%string
    else failed_checks in
  (* 5. clear bias *)
  let require_bias :=
    ConfigLoader.get (config self) ["hard_stops"; "require_clear_bias"] VNone in
  let failed_checks :=
    if truthy require_bias
       && negb (scalar_truthy (dict_get answers "clear_bias" (SBool false)))
    then append failed_checks "No tienes un bias claro del mercado"
    else failed_checks in
  let passed := Nat.eqb (length failed_checks) 0 in
  let reason :=
    if passed then None
    else Some ("Hard stops fallados: " ++ String.concat "; " failed_checks)%string in
  Ok {| passed := passed; failed_checks := failed_checks; reason := reason |}.

End HardStopEvaluator.

(** ** ScoreCalculator *)

Module ScoreCalculator.

Record t : Type := { config : ConfigLoader.t }.

Definition init (config : ConfigLoader.t) : t := {| config := config |}.

Definition normalize_answer (self : t) (question : value) (answer : scalar)
    : result Q :=
  q_type <- py_get question "type" (VStr "boolean") ;;
  if eq_str q_type "boolean" then
    let base_score := if scalar_truthy answer then 100 else 0 in
    reverse <- py_get question "reverse_score" (VBool false) ;;
    Ok (if truthy reverse then 100 - base_score else base_score)
  else if eq_str q_type "scale" then
    min_val <- py_get question "min" (VNum 1) ;;
    max_val <- py_get question "max" (VNum 5) ;;
    offset <- py_sub (VAtom answer) min_val ;;
    width <- py_sub max_val min_val ;;
    ratio <- py_div offset width ;;
    let normalized := ratio * 100 in
    Ok (py_max 0 (py_min 100 normalized))
  else if eq_str q_type "number" then
    q_id <- py_item question "id" ;;
    if eq_str q_id "sleep_quality" then
      ge8 <- py_ge answer (VNum 8) ;;
      if ge8 : bool then Ok 100
      else
        ge6 <- py_ge answer (VNum 6) ;;
        if ge6 : bool then Ok 70
        else
          ge5 <- py_ge answer (VNum 5) ;;
          if ge5 : bool then Ok 50 else Ok 0
    else Ok 0
  else Ok 0.

(** The variables of the loop of [calculate_category_score]. *)
Record category_acc : Type := {
  category_answers : list Answer;
  total_weighted_score : Q;
  total_weight : Q
}.

(** One pass through the body of the loop of [calculate_category_score]. *)
Definition category_body (self : t) (category : string)
    (answers : dict scalar) (acc : category_acc) (question : value)
    : result category_acc :=
  q_id <- py_item question "id" ;;
  present <- answers_mem answers q_id ;;
  if negb present then Ok acc
  else
    answer_value <- answers_item answers q_id ;;
    normalized <- normalize_answer self question answer_value ;;
    weight <- py_get question "weight" (VNum 1) ;;
    question_text <- py_item question "question" ;;
    let answer_obj :=
      {| question_id := q_id;
         question_text := question_text;
         answer := answer_value;
         category := category;
         weight := weight;
         normalized_score := normalized |} in
    w <- to_num weight ;;
    Ok {| category_answers := append (category_answers acc) answer_obj;
          total_weighted_score := total_weighted_score acc + normalized * w;
          total_weight := total_weight acc + w |}.

Definition calculate_category_score (self : t) (category : string)
    (answers : dict scalar) : result (Q * list Answer) :=
  let questions :=
    ConfigLoader.get (config self) ["questions"; category] (VList []) in
  questions <- py_iter questions ;;
  acc <- for_each questions (category_body self category answers)
           {| category_answers := [];
              total_weighted_score := 0;
              total_weight := 0 |} ;;
  category_score <-
    (if Qltb 0 (total_weight acc)
     then py_div (total_weighted_score acc) (total_weight acc)
     else Ok 0) ;;
  Ok (category_score, category_answers acc).

(** The variables of the loop of [calculate_final_score]. *)
Record final_acc : Type := {
  category_scores : dict Q;
  all_answers : list Answer;
  final_weighted_score : Q;
  final_weight : Q
}.

Definition categories : list string :=
  ["psychology"; "market_conditions"; "technical_confluence"].

(** One pass through the body of the loop of [calculate_final_score]. *)
Definition final_body (self : t) (weights : value) (answers : dict scalar)
    (acc : final_acc) (category : string) : result final_acc :=
  '(cat_score, cat_answers) <- calculate_category_score self category answers ;;
  cat_weight <- py_get weights category (VNum 0) ;;
  w <- to_num cat_weight ;;
  Ok {| category_scores := dict_set (category_scores acc) category cat_score;
        all_answers := (all_answers acc ++ cat_answers)%list;
        final_weighted_score := final_weighted_score acc + cat_score * w;
        final_weight := final_weight acc + w |}.

Definition calculate_final_score (self : t) (answers : dict scalar)
    : result (Q * dict Q * list Answer) :=
  let weights :=
    ConfigLoader.get (config self) ["scoring"; "weights"] (VDict []) in
  acc <- for_each categories (final_body self weights answers)
           {| category_scores := [];
              all_answers := [];
              final_weighted_score := 0;
              final_weight := 0 |} ;;
  final_score <-
    (if Qltb 0 (final_weight acc)
     then py_div (final_weighted_score acc) (final_weight acc)
     else Ok 0) ;;
  Ok (final_score, category_scores acc, all_answers acc).

End ScoreCalculator.

(** ** RiskDecisionMaker *)

Module RiskDecisionMaker.

Record t : Type := { config : ConfigLoader.t }.

Definition init (config : ConfigLoader.t) : t := {| config := config |}.

Definition decide_risk (self : t) (final_score : Q) : result (bool * Q) :=
  let thresholds :=
    ConfigLoader.get (config self) ["scoring"; "thresholds"] (VDict []) in
  no_trade <- py_get thresholds "no_trade" (VNum 50) ;;
  risk_2 <- py_get thresholds "risk_2_percent" (VNum 70) ;;
  below <- py_lt (SNum final_score) no_trade ;;
  if below : bool then Ok (false, 0)
  else
    below <- py_lt (SNum final_score) risk_2 ;;
    if below : bool then Ok (true, 2) else Ok (true, 3).

Definition calculate_lot_size `{Runtime} (self : t) (risk_percent : Q)
    (balance sl_pips pair : scalar) : result Q :=
  let pip_values :=
    ConfigLoader.get (config self) ["lot_calculation"; "pip_values"] (VDict []) in
  instrument <- py_upper pair ;;
  pip_value <- py_get pip_values instrument (VNum 10) ;;
  balance <- to_num (VAtom balance) ;;
  let risk_amount := balance * (risk_percent / 100) in
  sl_pips <- to_num (VAtom sl_pips) ;;
  pip_value <- to_num pip_value ;;
  lot_size <- py_div risk_amount (sl_pips * pip_value) ;;
  let min_lot :=
    ConfigLoader.get (config self) ["lot_calculation"; "min_lot_size"] (VNum (1 # 100)) in
  let max_lot :=
    ConfigLoader.get (config self) ["lot_calculation"; "max_lot_size"] (VNum 10) in
  max_lot <- to_num max_lot ;;
  min_lot <- to_num min_lot ;;
  let lot_size := py_max min_lot (py_min max_lot lot_size) in
  let lot_size := py_round2 lot_size in
  Ok lot_size.

End RiskDecisionMaker.

(** ** Running the pipeline

    [RiskAssistant.evaluate] is the one method that touches the world
    outside its arguments: building a [RiskDecision] reads the clock.  The
    world also keeps the list of the component methods entered so far, so
    that "is never invoked" can be stated. *)

Inductive call : Type :=
| HardStopEvaluator_evaluate
| ScoreCalculator_calculate_final_score
| RiskDecisionMaker_decide_risk
| RiskDecisionMaker_calculate_lot_size.

Record world : Type := {
  clock : nat;
  calls : list call
}.

Definition M (A : Type) : Type := world -> result A * world.

Definition mret {A : Type} (a : A) : M A := fun w => (Ok a, w).

Definition mbind {A B : Type} (m : M A) (k : A -> M B) : M B :=
  fun w =>
    match m w with
    | (Ok a, w') => k a w'
    | (Raise e, w') => (Raise e, w')
    end.

Notation "x <~ m ;; k" := (mbind m (fun x => k))
  (at level 61, m at next level, right associativity).
Notation "' pat <~ m ;; k" := (mbind m (fun x => match x with pat => k end))
  (at level 61, pat pattern, m at next level, right associativity).

(** Entering the method [c] of a component, whose body yields [r]. *)
Definition invoke {A : Type} (c : call) (r : result A) : M A :=
  fun w => (r, {| clock := clock w; calls := append (calls w) c |}).

(** [datetime.now().isoformat()] *)
Definition now_isoformat `{Runtime} : M string :=
  fun w => (Ok (isoformat_now (clock w)),
            {| clock := S (clock w); calls := calls w |}).

(** The constructor of the data class [RiskDecision]; the time stamp is
    filled in by its default factory. *)
Definition new_RiskDecision `{Runtime} (should_trade : bool)
    (risk_percent final_score : Q) (category_scores : dict Q)
    (answers : list Answer) (hard_stop_result : HardStopResult)
    (lot_size : option Q) : M RiskDecision :=
  timestamp <~ now_isoformat ;;
  mret {| should_trade := should_trade;
          risk_percent := risk_percent;
          final_score := final_score;
          category_scores := category_scores;
          answers := answers;
          hard_stop_result := hard_stop_result;
          lot_size := lot_size;
          timestamp := timestamp |}.

(** ** Text of a decision

    Two more builtins that the text of a decision relies on: a number
    formatted with one decimal ([format(x, '.1f')]) and [str.title]. *)

Class Formatting : Type := {
  format_fixed1 : Q -> string;
  str_title : string -> string
}.

(** The line feed. *)
Definition nl : string := String "010"%char EmptyString.

(** [s * n] *)
Fixpoint str_repeat (s : string) (n : nat) : string :=
  match n with
  | O => EmptyString
  | S m => (s ++ str_repeat s m)%string
  end.

(** [s.replace('_', ' ')] *)
Fixpoint underscores_to_spaces (s : string) : string :=
  match s with
  | EmptyString => EmptyString
  | String c rest =>
      String (if Ascii.eqb c "_"%char then " "%char else c)
        (underscores_to_spaces rest)
  end.

(** ** RiskAssistant *)

Module RiskAssistant.

Record t : Type := {
  config : ConfigLoader.t;
  hard_stop_evaluator : HardStopEvaluator.t;
  score_calculator : ScoreCalculator.t;
  decision_maker : RiskDecisionMaker.t
}.

Definition init (fs : ConfigLoader.storage) (config_path : string) : result t :=
  config <- ConfigLoader.init fs config_path ;;
  Ok {| config := config;
        hard_stop_evaluator := HardStopEvaluator.init config;
        score_calculator := ScoreCalculator.init config;
        decision_maker := RiskDecisionMaker.init config |}.

(** [balance], [sl_pips] and [pair] are optional: [SNone] when not given. *)
Definition evaluate `{Runtime} (self : t) (answers stats : dict scalar)
    (balance sl_pips pair : scalar) : M RiskDecision :=
  (* 1. hard stops *)
  hard_stop_result <~
    invoke HardStopEvaluator_evaluate
      (HardStopEvaluator.evaluate (hard_stop_evaluator self) answers stats) ;;
  if negb (passed hard_stop_result) then
    new_RiskDecision false 0 0 [] [] hard_stop_result None
  else
    (* 2. score *)
    '(final_score, category_scores, all_answers) <~
      invoke ScoreCalculator_calculate_final_score
        (ScoreCalculator.calculate_final_score (score_calculator self) answers) ;;
    (* 3. risk *)
    '(should_trade, risk_percent) <~
      invoke RiskDecisionMaker_decide_risk
        (RiskDecisionMaker.decide_risk (decision_maker self) final_score) ;;
    (* 4. lot size, when needed *)
    lot_size <~
      (if should_trade && scalar_truthy balance && scalar_truthy sl_pips
          && scalar_truthy pair
       then
         size <~ invoke RiskDecisionMaker_calculate_lot_size
                   (RiskDecisionMaker.calculate_lot_size (decision_maker self)
                      risk_percent balance sl_pips pair) ;;
         mret (Some size)
       else mret None) ;;
    new_RiskDecision should_trade risk_percent final_score category_scores
      all_answers hard_stop_result lot_size.

(** [get_questions] *)
Definition get_questions (self : t) : dict value :=
  [("psychology",
     ConfigLoader.get (config self) ["questions"; "psychology"] (VList []));
   ("market_conditions",
     ConfigLoader.get (config self) ["questions"; "market_conditions"] (VList []));
   ("technical_confluence",
     ConfigLoader.get (config self) ["questions"; "technical_confluence"] (VList []))].

(** The lines that [format_decision] collects in [output]. *)
Definition format_lines `{Runtime} `{Formatting} (self : t)
    (decision : RiskDecision) : list string :=
  let output : list string := [] in
  let output := append output (str_repeat "=" 60) in
  let output := append output "🎯 DECISIÓN DE TRADING" in
  let output := append output (str_repeat "=" 60) in
  if negb (passed (hard_stop_result decision)) then
    let output := append output (nl ++ "❌ NO PUEDES TRADEAR HOY")%string in
    let output :=
      append output
        (nl ++ "🛑 Razón: "
           ++ match reason (hard_stop_result decision) with
              | Some text => text
              | None => format_value VNone
              end)%string in
    output
  else
    let output :=
      append output
        (nl ++ "📊 Score Final: " ++ format_fixed1 (final_score decision)
           ++ "/100")%string in
    let output := append output (nl ++ "📈 Scores por Categoría:")%string in
    let output :=
      fold_left
        (fun output entry =>
           append output
             ("  • " ++ str_title (underscores_to_spaces (fst entry)) ++ ": "
                ++ format_fixed1 (snd entry) ++ "/100")%string)
        (category_scores decision) output in
    let output := append output (nl ++ str_repeat "=" 60)%string in
    let output :=
      if should_trade decision then
        let output :=
          append output
            ("✅ PUEDES TRADEAR con " ++ format_value (VNum (risk_percent decision))
               ++ "% de riesgo")%string in
        match lot_size decision with
        | Some size =>
            if negb (Qeq_bool size 0) then
              append output
                ("💰 Tamaño de lote recomendado: " ++ format_value (VNum size)
                   ++ " lotes")%string
            else output
        | None => output
        end
      else
        let output := append output "❌ NO OPERES HOY" in
        append output
          "   El score es demasiado bajo. Espera mejores condiciones." in
    append output (str_repeat "=" 60).

Definition format_decision `{Runtime} `{Formatting} (self : t)
    (decision : RiskDecision) : string :=
  String.concat nl (format_lines self decision).

End RiskAssistant.

(** ** The command line of [bot/main.py]

    The terminal is a list of lines still to be read and the list of the
    texts printed so far.  Reading past the last line is the [EOFError] of
    [input]; [str.strip], [str.lower] and [float] are builtins.  Numbers
    are exact, as everywhere here: the floats [inf] and [nan], which
    [float] also reads and which lie between no two numbers, are not among
    the values of [parse_float].  The journal the command line also holds
    is not part of this development. *)

Class Terminal : Type := {
  str_strip : string -> string;
  str_lower : string -> string;
  (** [float(s)]: no number when it raises [ValueError] *)
  parse_float : string -> option Q
}.

Record console : Type := {
  stdin : list string;
  stdout : list string
}.

Inductive interrupt : Type :=
| Exception (e : exn)
| EOFError
(** a question identifier that is hashable but not a string: such a key
    has no place in a dictionary of answers as modelled here *)
| OutsideModel.

Inductive outcome (A : Type) : Type :=
| Returned (a : A)
| Interrupted (i : interrupt).

Arguments Returned {A} a.
Arguments Interrupted {A} i.

Definition IO (A : Type) : Type := console -> outcome A * console.

Definition io_ret {A : Type} (a : A) : IO A := fun c => (Returned a, c).

Definition io_bind {A B : Type} (m : IO A) (k : A -> IO B) : IO B :=
  fun c =>
    match m c with
    | (Returned a, c') => k a c'
    | (Interrupted i, c') => (Interrupted i, c')
    end.

Notation "x <<- m ;; k" := (io_bind m (fun x => k))
  (at level 61, m at next level, right associativity).

(** A step that can raise, inside the command line. *)
Definition io_lift {A : Type} (r : result A) : IO A :=
  fun c =>
    match r with
    | Ok a => (Returned a, c)
    | Raise e => (Interrupted (Exception e), c)
    end.

(** [print(text)] *)
Definition print (text : string) : IO unit :=
  fun c => (Returned tt, {| stdin := stdin c; stdout := append (stdout c) text |}).

(** [for x in items: body], threading the loop's variables. *)
Fixpoint io_for_each {A S : Type} (items : list A) (body : S -> A -> IO S)
    (s : S) : IO S :=
  match items with
  | [] => io_ret s
  | x :: rest => s' <<- body s x ;; io_for_each rest body s'
  end.

(** [x in [s1, ..., sn]] for strings *)
Definition str_in (x : string) (l : list string) : bool :=
  existsb (String.eqb x) l.

(** The text an f-string substitutes for an object: a string stands for
    itself. *)
Definition text_of `{Runtime} (v : value) : string :=
  match v with
  | VStr s => s
  | _ => format_value v
  end.

(** [a <= b] with a scalar on the left. *)
Definition py_le (a : scalar) (b : value) : result bool :=
  match a, b with
  | SStr s, VStr t => Ok (String.leb s t)
  | _, _ =>
      match scalar_num a, as_num b with
      | Some x, Some y => Ok (Qle_bool x y)
      | _, _ => Raise TypeError
      end
  end.

(** [int(x)] of a number: towards zero. *)
Definition py_int (x : Q) : Z :=
  if Qle_bool 0 x then Qfloor x else Qceiling x.

Module TradingCLI.

Record t : Type := {
  assistant : RiskAssistant.t;
  answers : dict scalar;
  stats : dict scalar
}.

Definition init (fs : ConfigLoader.storage) : result t :=
  assistant <- RiskAssistant.init fs ConfigLoader.default_path ;;
  Ok {| assistant := assistant;
        answers := [];
        stats := [("consecutive_losses", SNum 0); ("daily_loss_percent", SNum 0)] |}.

(** The loop of [ask_yes_no], on the lines still to be read. *)
Fixpoint ask_yes_no_loop `{Runtime} `{Terminal} (question : value)
    (lines printed : list string) : outcome bool * console :=
  let printed := append printed (text_of question ++ " (s/n): ")%string in
  match lines with
  | [] => (Interrupted EOFError, {| stdin := []; stdout := printed |})
  | line :: rest =>
      let answer := str_lower (str_strip line) in
      if str_in answer ["s"; "si"; "sí"; "y"; "yes"] then
        (Returned true, {| stdin := rest; stdout := printed |})
      else if str_in answer ["n"; "no"] then
        (Returned false, {| stdin := rest; stdout := printed |})
      else
        ask_yes_no_loop question rest
          (append printed "❌ Por favor responde 's' o 'n'")
  end.

Definition ask_yes_no `{Runtime} `{Terminal} (question : value) : IO bool :=
  fun c => ask_yes_no_loop question (stdin c) (stdout c).

(** The loop of [ask_number], on the lines still to be read. *)
Fixpoint ask_number_loop `{Runtime} `{Terminal} (question min_val max_val : value)
    (lines printed : list string) : outcome Q * console :=
  let printed :=
    append printed
      (text_of question ++ " [" ++ text_of min_val ++ "-" ++ text_of max_val
         ++ "]: ")%string in
  match lines with
  | [] => (Interrupted EOFError, {| stdin := []; stdout := printed |})
  | line :: rest =>
      match parse_float (str_strip line) with
      | Some answer =>
          match py_ge (SNum answer) min_val with
          | Raise e =>
              (Interrupted (Exception e), {| stdin := rest; stdout := printed |})
          | Ok false =>
              ask_number_loop question min_val max_val rest
                (append printed
                   ("❌ El valor debe estar entre " ++ text_of min_val ++ " y "
                      ++ text_of max_val)%string)
          | Ok true =>
              match py_le (SNum answer) max_val with
              | Raise e =>
                  (Interrupted (Exception e),
                   {| stdin := rest; stdout := printed |})
              | Ok false =>
                  ask_number_loop question min_val max_val rest
                    (append printed
                       ("❌ El valor debe estar entre " ++ text_of min_val
                          ++ " y " ++ text_of max_val)%string)
              | Ok true =>
                  (Returned answer, {| stdin := rest; stdout := printed |})
              end
          end
      | None =>
          ask_number_loop question min_val max_val rest
            (append printed "❌ Por favor ingresa un número válido")
      end
  end.

Definition ask_number `{Runtime} `{Terminal} (question min_val max_val : value)
    : IO Q :=
  fun c => ask_number_loop question min_val max_val (stdin c) (stdout c).

Definition ask_scale `{Runtime} `{Terminal} (question min_val max_val : value)
    : IO Z :=
  answer <<- ask_number question min_val max_val ;;
  io_ret (py_int answer).

Definition collect_stats `{Runtime} `{Terminal} (self : t) : IO t :=
  _ <<- print (nl ++ "📊 ESTADÍSTICAS ACTUALES" ++ nl)%string ;;
  losses <<- ask_number (VStr "¿Cuántas pérdidas consecutivas llevas?")
               (VNum 0) (VNum 10) ;;
  let stats :=
    dict_set (stats self) "consecutive_losses" (SNum (inject_Z (py_int losses))) in
  daily <<- ask_number (VStr "¿Cuánto % de pérdida llevas hoy?")
              (VNum 0) (VNum 100) ;;
  let stats := dict_set stats "daily_loss_percent" (SNum daily) in
  io_ret {| assistant := assistant self; answers := answers self; stats := stats |}.

(** [self.answers[key] = answer] for a key taken from the configuration. *)
Definition store_answer (answers : dict scalar) (key : value) (answer : scalar)
    : IO (dict scalar) :=
  match key with
  | VStr k => io_ret (dict_set answers k answer)
  | VAtom _ => fun c => (Interrupted OutsideModel, c)
  | VList _ | VDict _ => io_lift (Raise TypeError)
  end.

(** [self.answers[q['id']] = self.ask_scale(q['question'], q['min'], q['max'])] *)
Definition answer_scale `{Runtime} `{Terminal} (answers : dict scalar)
    (q : value) : IO (dict scalar) :=
  question <<- io_lift (py_item q "question") ;;
  min_val <<- io_lift (py_item q "min") ;;
  max_val <<- io_lift (py_item q "max") ;;
  answer <<- ask_scale question min_val max_val ;;
  key <<- io_lift (py_item q "id") ;;
  store_answer answers key (SNum (inject_Z answer)).

(** [self.answers[q['id']] = self.ask_number(q['question'], q['min'], q['max'])] *)
Definition answer_number `{Runtime} `{Terminal} (answers : dict scalar)
    (q : value) : IO (dict scalar) :=
  question <<- io_lift (py_item q "question") ;;
  min_val <<- io_lift (py_item q "min") ;;
  max_val <<- io_lift (py_item q "max") ;;
  answer <<- ask_number question min_val max_val ;;
  key <<- io_lift (py_item q "id") ;;
  store_answer answers key (SNum answer).

(** [self.answers[q['id']] = self.ask_yes_no(q['question'])] *)
Definition answer_yes_no `{Runtime} `{Terminal} (answers : dict scalar)
    (q : value) : IO (dict scalar) :=
  question <<- io_lift (py_item q "question") ;;
  answer <<- ask_yes_no question ;;
  key <<- io_lift (py_item q "id") ;;
  store_answer answers key (SBool answer).

(** The body of the loop over the psychology questions. *)
Definition psychology_body `{Runtime} `{Terminal} (answers : dict scalar)
    (q : value) : IO (dict scalar) :=
  kind <<- io_lift (py_item q "type") ;;
  if eq_str kind "scale" then answer_scale answers q
  else
    kind <<- io_lift (py_item q "type") ;;
    if eq_str kind "number" then answer_number answers q
    else answer_yes_no answers q.

(** The body of the loops over the market and the technical questions. *)
Definition other_body `{Runtime} `{Terminal} (answers : dict scalar)
    (q : value) : IO (dict scalar) :=
  kind <<- io_lift (py_item q "type") ;;
  if eq_str kind "scale" then answer_scale answers q
  else
    kind <<- io_lift (py_item q "type") ;;
    if eq_str kind "boolean" then answer_yes_no answers q
    else io_ret answers.

(** [questions[category]] of the dictionary that [get_questions] returns. *)
Definition questions_of (questions : dict value) (category : string)
    : IO (list value) :=
  listed <<- io_lift (dict_item questions category) ;;
  io_lift (py_iter listed).

Definition collect_answers `{Runtime} `{Terminal} (self : t) : IO t :=
  let questions := RiskAssistant.get_questions (assistant self) in
  (* 1. psychology *)
  _ <<- print (nl ++ "🧠 EVALUACIÓN PSICOLÓGICA" ++ nl)%string ;;
  listed <<- questions_of questions "psychology" ;;
  answers <<- io_for_each listed psychology_body (answers self) ;;
  (* 2. market conditions *)
  _ <<- print (nl ++ "📈 CONDICIONES DE MERCADO" ++ nl)%string ;;
  listed <<- questions_of questions "market_conditions" ;;
  answers <<- io_for_each listed other_body answers ;;
  (* 3. technical confluence *)
  _ <<- print (nl ++ "🔍 CONFLUENCIAS TÉCNICAS" ++ nl)%string ;;
  listed <<- questions_of questions "technical_confluence" ;;
  answers <<- io_for_each listed other_body answers ;;
  io_ret {| assistant := assistant self; answers := answers; stats := stats self |}.

(** [input(prompt)] *)
Definition input (prompt : string) : IO string :=
  fun c =>
    let printed := append (stdout c) prompt in
    match stdin c with
    | [] => (Interrupted EOFError, {| stdin := []; stdout := printed |})
    | line :: rest => (Returned line, {| stdin := rest; stdout := printed |})
    end.

Definition collect_trade_details `{Runtime} `{Terminal} (self : t)
    : IO (dict scalar) :=
  _ <<- print (nl ++ "💼 DETALLES DEL TRADE" ++ nl)%string ;;
  balance <<- ask_number (VStr "Balance de tu cuenta (USD)")
                (VNum 1) (VNum 1000000) ;;
  sl_pips <<- ask_number (VStr "Stop Loss en pips") (VNum 1) (VNum 500) ;;
  line <<- input "Par de divisas (ej: EURUSD): " ;;
  let pair := str_upper (str_strip line) in
  io_ret [("balance", SNum balance); ("sl_pips", SNum sl_pips);
          ("pair", SStr pair)].

(** The evaluation that [run] repeats with the trade details:
    [self.assistant.evaluate(self.answers, self.stats,
    balance=trade_details['balance'], sl_pips=trade_details['sl_pips'],
    pair=trade_details['pair'])]. *)
Definition evaluate_with_details `{Runtime} (self : t)
    (trade_details : dict scalar) : M RiskDecision :=
  fun w =>
    match (balance <- dict_item trade_details "balance" ;;
           sl_pips <- dict_item trade_details "sl_pips" ;;
           currency <- dict_item trade_details "pair" ;;
           Ok (balance, sl_pips, currency)) with
    | Ok (balance, sl_pips, currency) =>
        RiskAssistant.evaluate (assistant self) (answers self) (stats self)
          balance sl_pips currency w
    | Raise e => (Raise e, w)
    end.

End TradingCLI.

(** ** The coach of [brain/brain.py]

    The coach reads the journal, whose code is not among the sources: all
    that is used of it here is that [get_entries] returns a list of
    entries, the objects read back from the journal file.  The analyses
    below are the four of the coach that depend on nothing else. *)

Class JournalManager : Type := {
  (** [get_entries(limit=n)] and [get_entries(limit=n, traded_only=True)] *)
  get_entries : nat -> option bool -> list value
}.

(** [v == n] for a number [n] *)
Definition eq_num (v : value) (n : Q) : bool :=
  match as_num v with
  | Some x => Qeq_bool x n
  | None => false
  end.

(** [sum(values)] *)
Definition py_sum (values : list value) : result Q :=
  for_each values (fun total v => x <- to_num v ;; Ok (total + x)) 0.

(** [d.items()]: only a [dict] has the method. *)
Definition py_items (v : value) : result (list (string * value)) :=
  match v with
  | VDict d => Ok d
  | _ => Raise AttributeError
  end.

(** [l[-n:]] *)
Definition last_n {A : Type} (n : nat) (l : list A) : list A :=
  skipn (length l - n) l.

Module TradingCoach.

Record t : Type := {
  journal : JournalManager;
  config : ConfigLoader.t
}.

Definition low_state : string :=
  "🧠 He notado que tu estado mental ha estado bajo últimamente. "
  ++ "Considera tomar un descanso o hablar con alguien.".

Definition irregular_state : string :=
  "⚠️ Tu psicología ha estado irregular. Tal vez necesitas "
  ++ "establecer una rutina más consistente antes de tradear.".

Definition analyze_psychology_pattern (self : t) : result (option string) :=
  let entries := @get_entries (journal self) 7 None in
  if (length entries <? 3)%nat then Ok None
  else
    psych_scores <-
      for_each entries
        (fun psych_scores entry =>
           answers <- py_get entry "answers" (VDict []) ;;
           items <- py_items answers ;;
           for_each items
             (fun psych_scores answer =>
                if str_in (fst answer) ["mental_state"; "emotional_control"]
                then Ok (append psych_scores (snd answer))
                else Ok psych_scores)
             psych_scores)
        [] ;;
    match psych_scores with
    | [] => Ok None
    | _ :: _ =>
        total <- py_sum psych_scores ;;
        avg_psych <- py_div total (inject_Z (Z.of_nat (length psych_scores))) ;;
        if Qltb avg_psych 3 then Ok (Some low_state)
        else if Qltb avg_psych (7 # 2) then Ok (Some irregular_state)
        else Ok None
    end.

Definition risk_warning : string :=
  "⚠️ Estás tomando 3% de riesgo en la mayoría de tus trades. "
  ++ "Asegúrate de que realmente tienes las confluencias necesarias.".

Definition conservative_hint : string :=
  "💡 Has sido muy conservador últimamente. ¿Estás siendo demasiado "
  ++ "estricto con tus criterios? A veces menos es más, pero también "
  ++ "necesitas tomar trades cuando las condiciones son buenas.".

Definition analyze_risk_taking_pattern (self : t) : result (option string) :=
  let entries := @get_entries (journal self) 10 (Some true) in
  if (length entries <? 5)%nat then Ok None
  else
    risk_3_count <-
      for_each entries
        (fun count e =>
           decision <- py_get e "decision" (VDict []) ;;
           risk <- py_get decision "risk_percent" VNone ;;
           Ok (if eq_num risk 3 then S count else count))
        O ;;
    ratio <- py_div (inject_Z (Z.of_nat risk_3_count))
               (inject_Z (Z.of_nat (length entries))) ;;
    let risk_percentage := ratio * 100 in
    if Qltb 80 risk_percentage then Ok (Some risk_warning)
    else if Qltb risk_percentage 20 then Ok (Some conservative_hint)
    else Ok None.

Definition scores_falling : string :=
  "📉 Tus scores han estado bajando. ¿Algo está afectando tu análisis? "
  ++ "Tal vez necesites revisar tu metodología o tomar un descanso.".

Definition scores_improving : string :=
  "📈 ¡Tus scores están mejorando! Sigue así, parece que estás "
  ++ "refinando tu proceso de análisis.".

Definition analyze_score_trend (self : t) : result (option string) :=
  let entries := @get_entries (journal self) 10 None in
  if (length entries <? 5)%nat then Ok None
  else
    scores <-
      for_each entries
        (fun scores e =>
           decision <- py_get e "decision" (VDict []) ;;
           score <- py_get decision "final_score" (VNum 0) ;;
           Ok (append scores score))
        [] ;;
    recent_sum <- py_sum (last_n 3 scores) ;;
    let recent_avg := recent_sum / 3 in
    old_sum <- py_sum (firstn 3 scores) ;;
    let old_avg := old_sum / 3 in
    if Qltb recent_avg (old_avg - 10) then Ok (Some scores_falling)
    else if Qltb (old_avg + 10) recent_avg then Ok (Some scores_improving)
    else Ok None.

Definition hard_stops_frequent : string :=
  "🛑 Estás fallando los hard stops con frecuencia. Esto es bueno - "
  ++ "el sistema te está protegiendo. Pero considera trabajar en las "
  ++ "áreas que más te están deteniendo.".

Definition analyze_hard_stop_triggers (self : t) : result (option string) :=
  let entries := @get_entries (journal self) 10 None in
  if (length entries <? 5)%nat then Ok None
  else
    failed_entries <-
      for_each entries
        (fun failed_entries e =>
           decision <- py_get e "decision" (VDict []) ;;
           passed <- py_get decision "hard_stops_passed" (VBool true) ;;
           Ok (if negb (truthy passed) then append failed_entries e
               else failed_entries))
        [] ;;
    if Qltb (inject_Z (Z.of_nat (length entries)) * (3 # 10))
            (inject_Z (Z.of_nat (length failed_entries)))
    then Ok (Some hard_stops_frequent)
    else Ok None.

End TradingCoach.

(** ** The builtins of the concrete runs

    Upper-casing of the ASCII letters, and rounding of the exact number to
    hundredths with a tie going to the even one. *)

Definition upper_ascii (c : ascii) : ascii :=
  let n := nat_of_ascii c in
  if (andb (Nat.leb 97 n) (Nat.leb n 122)) then ascii_of_nat (n - 32) else c.

Fixpoint upper_ascii_letters (s : string) : string :=
  match s with
  | EmptyString => EmptyString
  | String c rest => String (upper_ascii c) (upper_ascii_letters rest)
  end.

(** The nearest integer, the even one at a tie. *)
Definition round_half_even (x : Q) : Z :=
  let f := Qfloor x in
  match Qcompare (x - inject_Z f) (1 # 2) with
  | Lt => f
  | Gt => (f + 1)%Z
  | Eq => if Z.even f then f else (f + 1)%Z
  end.

Definition round2_half_even (x : Q) : Q :=
  Qred (inject_Z (round_half_even (x * 100)) / 100).

Lemma round_half_even_near (x : Q) :
  (Qfloor x <= round_half_even x <= Qfloor x + 1)%Z.
Proof.
  unfold round_half_even.
  destruct (Qcompare (x - inject_Z (Qfloor x)) (1 # 2));
    try destruct (Z.even (Qfloor x)); lia.
Qed.

Lemma round_half_even_monotone (x y : Q) :
  x <= y -> (round_half_even x <= round_half_even y)%Z.
Proof.
  intros Hle.
  assert (Hfloor : (Qfloor x <= Qfloor y)%Z) by now apply Qfloor_resp_le.
  destruct (Z.eq_dec (Qfloor x) (Qfloor y)) as [Heq | Hneq].
  - unfold round_half_even. rewrite Heq.
    destruct (Qcompare (x - inject_Z (Qfloor y)) (1 # 2)) eqn:Cx;
      destruct (Qcompare (y - inject_Z (Qfloor y)) (1 # 2)) eqn:Cy;
      try destruct (Z.even (Qfloor y)); try lia; exfalso;
      first [apply Qeq_alt in Cx | apply Qlt_alt in Cx | apply Qgt_alt in Cx];
      first [apply Qeq_alt in Cy | apply Qlt_alt in Cy | apply Qgt_alt in Cy];
      lra.
  - pose proof (round_half_even_near x). pose proof (round_half_even_near y).
    lia.
Qed.

Lemma round_half_even_close (x : Q) :
  x - (1 # 2) <= inject_Z (round_half_even x) /\
  inject_Z (round_half_even x) <= x + (1 # 2).
Proof.
  pose proof (Qfloor_le x) as Hlow. pose proof (Qlt_floor x) as Hhigh.
  rewrite inject_Z_plus in Hhigh. change (inject_Z 1) with 1 in Hhigh.
  unfold round_half_even.
  destruct (Qcompare (x - inject_Z (Qfloor x)) (1 # 2)) eqn:C;
    [apply Qeq_alt in C | apply Qlt_alt in C | apply Qgt_alt in C].
  - destruct (Z.even (Qfloor x)).
    + split; lra.
    + rewrite inject_Z_plus. change (inject_Z 1) with 1. split; lra.
  - split; lra.
  - rewrite inject_Z_plus. change (inject_Z 1) with 1. split; lra.
Qed.

Lemma round2_half_even_nearest (x : Q) :
  exists cents : Z,
    round2_half_even x = Qred (inject_Z cents / 100) /\
    x * 100 - (1 # 2) <= inject_Z cents /\
    inject_Z cents <= x * 100 + (1 # 2).
Proof.
  exists (round_half_even (x * 100)). split; [reflexivity | ].
  apply round_half_even_close.
Qed.

Lemma round2_half_even_monotone (x y : Q) :
  x <= y -> round2_half_even x <= round2_half_even y.
Proof.
  intros Hle. unfold round2_half_even. rewrite !Qred_correct.
  assert (Hz : (round_half_even (x * 100) <= round_half_even (y * 100))%Z)
    by (apply round_half_even_monotone; lra).
  rewrite Zle_Qle in Hz.
  unfold Qdiv. apply Qmult_le_compat_r; [exact Hz | discriminate].
Qed.

(** ** A configuration of the documented shape, for concrete runs *)

Module Sample.

Definition question (id text type : string) (extra : dict value) : value :=
  VDict ([("id", VStr id); ("question", VStr text); ("type", VStr type)] ++ extra)%list.

Definition psychology : value :=
  VList [question "sleep_quality" "Hours of sleep" "number"
           [("min", VNum 0); ("max", VNum 12); ("weight", VNum 2)];
         question "mental_state" "Mental state" "scale"
           [("min", VNum 1); ("max", VNum 5); ("weight", VNum 3)];
         question "revenge" "Want to win it back" "boolean"
           [("reverse_score", VBool true); ("weight", VNum 1)]].

Definition market_conditions : value :=
  VList [question "clear_bias" "Clear bias" "boolean" [("weight", VNum 2)];
         question "volatility" "Volatility" "scale"
           [("min", VNum 1); ("max", VNum 5)]].

Definition technical_confluence : value :=
  VList [question "structure" "Structure" "boolean" [];
         question "confluences" "Confluences" "scale"
           [("min", VNum 0); ("max", VNum 4); ("weight", VNum 2)]].

Definition document_with (max_consecutive_losses : Q) : value :=
  VDict
    [("hard_stops",
       VDict [("max_consecutive_losses", VNum max_consecutive_losses);
              ("max_daily_loss_percent", VNum 5);
              ("min_sleep_hours", VNum 5);
              ("psychology_min_score", VNum 3);
              ("require_clear_bias", VBool true)]);
     ("questions",
       VDict [("psychology", psychology);
              ("market_conditions", market_conditions);
              ("technical_confluence", technical_confluence)]);
     ("scoring",
       VDict [("weights",
                VDict [("psychology", VNum 40);
                       ("market_conditions", VNum 30);
                       ("technical_confluence", VNum 30)]);
              ("thresholds",
                VDict [("no_trade", VNum 50); ("risk_2_percent", VNum 70)])]);
     ("lot_calculation",
       VDict [("pip_values", VDict [("EURUSD", VNum 10); ("USDJPY", VNum 9)]);
              ("min_lot_size", VNum (1 # 100));
              ("max_lot_size", VNum 10)])].

Definition document : value := document_with 3.

(** The same document with no consecutive loss tolerated. *)
Definition zero_tolerance : value := document_with 0.

Definition storage : ConfigLoader.storage :=
  fun path => if String.eqb path "config.yaml" then Some (Ok document) else None.

Definition config : ConfigLoader.t :=
  {| ConfigLoader.config_path := "config.yaml"; ConfigLoader.config := document |}.

Definition assistant : RiskAssistant.t :=
  {| RiskAssistant.config := config;
     RiskAssistant.hard_stop_evaluator := HardStopEvaluator.init config;
     RiskAssistant.score_calculator := ScoreCalculator.init config;
     RiskAssistant.decision_maker := RiskDecisionMaker.init config |}.

(** A rendering of objects that is good enough to tell runs apart. *)
Definition show (v : value) : string :=
  match v with
  | VNone => "None"
  | VBool b => if b then "True" else "False"
  | VNum q => if Qeq_bool q 0 then "0" else "n"
  | VStr s => s
  | VList _ => "[...]"
  | VDict _ => "{...}"
  end.

Definition runtime : Runtime :=
  {| format_value := show;
     isoformat_now := fun n => String (ascii_of_nat (48 + n)) "";
     str_upper := upper_ascii_letters;
     py_round2 := round2_half_even;
     py_round2_nearest := round2_half_even_nearest;
     py_round2_monotone := round2_half_even_monotone |}.

Definition good_answers : dict scalar :=
  [("sleep_quality", SNum 8); ("mental_state", SNum 4);
   ("revenge", SBool false); ("clear_bias", SBool true);
   ("volatility", SNum 3); ("structure", SBool true);
   ("confluences", SNum 3)].

Definition good_stats : dict scalar :=
  [("consecutive_losses", SNum 2); ("daily_loss_percent", SNum 1)].

Definition start : world := {| clock := 0; calls := [] |}.

(** The records and the score of the psychology answers above. *)
Definition psychology_records : list Answer :=
  Eval vm_compute in
    match ScoreCalculator.calculate_category_score
            (ScoreCalculator.init config) "psychology" good_answers with
    | Ok (_, records) => records
    | Raise _ => []
    end.

Definition psychology_score : Q := 2100 # 24.

(** The decision on the answers above for a balance of 10000 and a stop of
    20 pips on EURUSD, and the world after it. *)
Definition traded : RiskDecision :=
  Eval vm_compute in
    match fst (@RiskAssistant.evaluate runtime assistant good_answers good_stats
                 (SNum 10000) (SNum 20) (SStr "EURUSD") start) with
    | Ok d => d
    | Raise _ =>
        {| should_trade := false; risk_percent := 0; final_score := 0;
           category_scores := []; answers := [];
           hard_stop_result := {| passed := false; failed_checks := [];
                                  reason := None |};
           lot_size := None; timestamp := "" |}
    end.

(** The final score of the answers above, with the category scores and
    the records. *)
Definition scored : Q * dict Q * list Answer :=
  Eval vm_compute in
    match ScoreCalculator.calculate_final_score
            (ScoreCalculator.init config) good_answers with
    | Ok found => found
    | Raise _ => (0, [], [])
    end.

Definition after_trade : world :=
  Eval vm_compute in
    snd (@RiskAssistant.evaluate runtime assistant good_answers good_stats
           (SNum 10000) (SNum 20) (SStr "EURUSD") start).

(** A terminal that leaves a line as it is typed and reads a line of
    decimal digits as that whole number. *)
Fixpoint digits (s : string) (acc : Z) : option Z :=
  match s with
  | EmptyString => Some acc
  | String a rest =>
      let n := nat_of_ascii a in
      if ((48 <=? n) && (n <=? 57))%nat
      then digits rest (10 * acc + Z.of_nat (n - 48))
      else None
  end.

Definition terminal : Terminal :=
  {| str_strip := fun s => s;
     str_lower := fun s => s;
     parse_float := fun s =>
       match s with
       | EmptyString => None
       | String _ _ => option_map inject_Z (digits s 0)
       end |}.

(** The command line as [TradingCLI()] builds it on the document above. *)
Definition cli : TradingCLI.t :=
  {| TradingCLI.assistant := assistant;
     TradingCLI.answers := [];
     TradingCLI.stats :=
       [("consecutive_losses", SNum 0); ("daily_loss_percent", SNum 0)] |}.

Definition typed (lines : list string) : console :=
  {| stdin := lines; stdout := [] |}.

(** What is typed at the two questions of [collect_stats], and at the
    seven questions of the document. *)
Definition typed_stats : console := typed ["2"; "1"].

Definition typed_answers : console := typed ["8"; "4"; "n"; "s"; "3"; "s"; "3"].

Definition with_stats : TradingCLI.t :=
  Eval vm_compute in
    match fst (@TradingCLI.collect_stats runtime terminal cli typed_stats) with
    | Returned after => after
    | Interrupted _ => cli
    end.

Definition after_stats : console :=
  Eval vm_compute in
    snd (@TradingCLI.collect_stats runtime terminal cli typed_stats).

Definition with_answers : TradingCLI.t :=
  Eval vm_compute in
    match fst (@TradingCLI.collect_answers runtime terminal cli typed_answers) with
    | Returned after => after
    | Interrupted _ => cli
    end.

Definition after_answers : console :=
  Eval vm_compute in
    snd (@TradingCLI.collect_answers runtime terminal cli typed_answers).

(** What is typed for the details of a trade, and the details collected. *)
Definition typed_details : console :=
  typed ["much"; "10000"; "0"; "70"; "usdjpy"; "s"].

Definition details : dict scalar :=
  Eval vm_compute in
    match fst (@TradingCLI.collect_trade_details runtime terminal cli
                 typed_details) with
    | Returned found => found
    | Interrupted _ => []
    end.

Definition after_details : console :=
  Eval vm_compute in
    snd (@TradingCLI.collect_trade_details runtime terminal cli typed_details).

(** The command line with the statistics and the answers above. *)
Definition ready : TradingCLI.t :=
  {| TradingCLI.assistant := assistant;
     TradingCLI.answers := good_answers;
     TradingCLI.stats := good_stats |}.

(** A journal of six sessions, and the coach that reads it. *)
Definition entry (risk score : Q) (passed : bool) (mental : Q) : value :=
  VDict [("answers",
           VDict [("mental_state", VNum mental); ("sleep_quality", VNum 7)]);
         ("decision",
           VDict [("risk_percent", VNum risk); ("final_score", VNum score);
                  ("hard_stops_passed", VBool passed)])].

Definition entries : list value :=
  [entry 3 60 true 4; entry 3 65 true 4; entry 2 70 false 4;
   entry 3 80 true 5; entry 3 85 true 4; entry 3 90 true 4].

Definition coach : TradingCoach.t :=
  {| TradingCoach.journal := {| get_entries := fun _ _ => entries |};
     TradingCoach.config := config |}.

(** The coach of a journal with one more session, between the third and
    the fourth of the six. *)
Definition entries_longer : list value :=
  [entry 3 60 true 4; entry 3 65 true 4; entry 2 70 false 4;
   entry 2 10 true 3;
   entry 3 80 true 5; entry 3 85 true 4; entry 3 90 true 4].

Definition coach_longer : TradingCoach.t :=
  {| TradingCoach.journal := {| get_entries := fun _ _ => entries_longer |};
     TradingCoach.config := config |}.

End Sample.

(** * Vocabulary of the statements *)

(** The path [keys] leads to an entry of the nested dictionaries of [node]. *)
Fixpoint path_defined (node : value) (keys : list string) : bool :=
  match keys with
  | [] => true
  | key :: rest =>
      match node with
      | VDict d =>
          match dict_lookup d key with
          | Some found => path_defined found rest
          | None => false
          end
      | _ => false
      end
  end.

(** Two decisions that agree on every field but the time stamp. *)
Definition same_but_timestamp (d1 d2 : RiskDecision) : Prop :=
  should_trade d1 = should_trade d2 /\
  risk_percent d1 = risk_percent d2 /\
  final_score d1 = final_score d2 /\
  category_scores d1 = category_scores d2 /\
  answers d1 = answers d2 /\
  hard_stop_result d1 = hard_stop_result d2 /\
  lot_size d1 = lot_size d2.

(** Two calls that end alike: the same exception, or decisions that agree
    on every field but the time stamp. *)
Definition same_outcome (r1 r2 : result RiskDecision) : Prop :=
  match r1, r2 with
  | Ok d1, Ok d2 => same_but_timestamp d1 d2
  | Raise e1, Raise e2 => e1 = e2
  | _, _ => False
  end.

Definition hard_stop_header : string := "Hard stops fallados: ".

(** The outcome that [evaluate] assembles from the failure lines. *)
Definition outcome_of (checks : list string) : HardStopResult :=
  {| passed := Nat.eqb (length checks) 0;
     failed_checks := checks;
     reason :=
       if Nat.eqb (length checks) 0 then None
       else Some (hard_stop_header ++ String.concat "; " checks)%string |}.

(** The five failure lines. *)
Section FailureLines.

Context `{Runtime}.

Definition line_consecutive_losses (losses : scalar) (max_losses : value) : string :=
  "Pérdidas consecutivas (" ++ format_value (VAtom losses) ++ ") >= "
    ++ format_value max_losses.

Definition line_daily_loss (loss : scalar) (max_daily_loss : value) : string :=
  "Pérdida diaria (" ++ format_value (VAtom loss) ++ "%) >= "
    ++ format_value max_daily_loss ++ "%".

Definition line_sleep (sleep_hours : scalar) (min_sleep : value) : string :=
  "Horas de sueño (" ++ format_value (VAtom sleep_hours) ++ ") < "
    ++ format_value min_sleep.

Definition line_mental_state (mental_state : scalar) (min_psych_score : value)
    : string :=
  "Estado mental (" ++ format_value (VAtom mental_state) ++ ") < "
    ++ format_value min_psych_score.

Definition line_bias : string := "No tienes un bias claro del mercado".

End FailureLines.

(** The line of a check when its condition holds, nothing otherwise. *)
Definition when (triggered : bool) (line : string) : list string :=
  if triggered then [line] else [].

(** The failure lines the gate is to report, in the order of its checks,
    for the numbers that the four numeric checks compare. *)
Definition expected_checks `{Runtime} (self : HardStopEvaluator.t)
    (answers stats : dict scalar)
    (max_losses max_daily_loss min_sleep min_psych_score : Q)
    (n_losses n_daily_loss n_sleep n_mental : Q) : list string :=
  let threshold := fun name : string =>
    ConfigLoader.get (HardStopEvaluator.config self) ["hard_stops"; name] VNone in
  (when (Qle_bool max_losses n_losses)
     (line_consecutive_losses (dict_get stats "consecutive_losses" (SNum 0))
        (threshold "max_consecutive_losses"))
   ++ when (Qle_bool max_daily_loss n_daily_loss)
        (line_daily_loss (dict_get stats "daily_loss_percent" (SNum 0))
           (threshold "max_daily_loss_percent"))
   ++ when (Qltb n_sleep min_sleep)
        (line_sleep (dict_get answers "sleep_quality" (SNum 0))
           (threshold "min_sleep_hours"))
   ++ when (Qltb n_mental min_psych_score)
        (line_mental_state (dict_get answers "mental_state" (SNum 0))
           (threshold "psychology_min_score"))
   ++ when (truthy (threshold "require_clear_bias")
            && negb (scalar_truthy (dict_get answers "clear_bias" (SBool false))))
        line_bias)%list.

(** The linear rescaling of a scale answer, before clamping. *)
Definition rescale (raw min_val max_val : Q) : Q :=
  (raw - min_val) / (max_val - min_val) * 100.


(** The question is one that [answers] holds an answer to. *)
Definition answered (answers : dict scalar) (question : value) : bool :=
  match py_item question "id" with
  | Ok (VStr key) => dict_mem answers key
  | _ => false
  end.

(** The weight of a record as a number. *)
Definition weight_of (r : Answer) : Q :=
  match as_num (weight r) with
  | Some w => w
  | None => 0
  end.

Fixpoint sum_weights (records : list Answer) : Q :=
  match records with
  | [] => 0
  | r :: rest => weight_of r + sum_weights rest
  end.

Fixpoint sum_weighted_scores (records : list Answer) : Q :=
  match records with
  | [] => 0
  | r :: rest => normalized_score r * weight_of r + sum_weighted_scores rest
  end.

(** [r] is the record of the configured [question] and its answer. *)
Definition record_of (self : ScoreCalculator.t) (cat : string)
    (answers : dict scalar) (question : value) (r : Answer) : Prop :=
  py_item question "id" = Ok (question_id r) /\
  py_item question "question" = Ok (question_text r) /\
  answers_item answers (question_id r) = Ok (answer r) /\
  category r = cat /\
  py_get question "weight" (VNum 1) = Ok (weight r) /\
  as_num (weight r) <> None /\
  ScoreCalculator.normalize_answer self question (answer r)
    = Ok (normalized_score r).

(** An answer of the type its question asks for. *)
Definition well_typed_answer (question : dict value) (a : scalar) : Prop :=
  let kind := dict_get question "type" (VStr "boolean") in
  (kind = VStr "scale" ->
     exists min_val max_val : Q,
       as_num (dict_get question "min" (VNum 1)) = Some min_val /\
       as_num (dict_get question "max" (VNum 5)) = Some max_val /\
       ~ max_val - min_val == 0 /\
       scalar_num a <> None) /\
  (kind = VStr "number" ->
     dict_lookup question "id" = Some (VStr "sleep_quality") ->
     scalar_num a <> None).

(** A configured question of the documented shape: a dictionary with a
    string [id] and, when it is answered, a [question] text, a numeric
    weight (or none) and an answer of its type. *)
Definition well_formed_question (answers : dict scalar) (question : value)
    : Prop :=
  exists (d : dict value) (key : string),
    question = VDict d /\
    dict_lookup d "id" = Some (VStr key) /\
    forall a : scalar,
      dict_lookup answers key = Some a ->
      dict_lookup d "question" <> None /\
      as_num (dict_get d "weight" (VNum 1)) <> None /\
      well_typed_answer d a.

(** The objects met on the way along [keys] through the nested
    dictionaries of [node], one for each key that is found. *)
Fixpoint path_values (node : value) (keys : list string) : list value :=
  match keys with
  | [] => []
  | key :: rest =>
      match node with
      | VDict d =>
          match dict_lookup d key with
          | Some found => found :: path_values found rest
          | None => []
          end
      | _ => []
      end
  end.

(** The object at the end of the path [keys], when every key is found. *)
Fixpoint path_value (node : value) (keys : list string) : option value :=
  match keys with
  | [] => Some node
  | key :: rest =>
      match node with
      | VDict d =>
          match dict_lookup d key with
          | Some found => path_value found rest
          | None => None
          end
      | _ => None
      end
  end.

(** ** The command line *)

(** What a line typed at a yes/no question is taken for. *)
Definition said_yes `{Terminal} (line : string) : bool :=
  str_in (str_lower (str_strip line)) ["s"; "si"; "sí"; "y"; "yes"].

Definition said_no `{Terminal} (line : string) : bool :=
  str_in (str_lower (str_strip line)) ["n"; "no"].

Definition unrecognised `{Terminal} (line : string) : Prop :=
  said_yes line = false /\ said_no line = false.

(** [min_val <= x <= max_val] holds: the bounds are numbers around [x]. *)
Definition within (min_val max_val : value) (x : Q) : Prop :=
  exists low high : Q,
    as_num min_val = Some low /\ as_num max_val = Some high /\
    low <= x /\ x <= high.

(** The line is no number between the bounds. *)
Definition rejected `{Terminal} (min_val max_val : value) (line : string) : Prop :=
  forall x : Q, parse_float (str_strip line) = Some x -> ~ within min_val max_val x.

(** The question [q] is listed under [category] in what [get_questions]
    returns. *)
Definition listed_in (self : RiskAssistant.t) (category : string) (q : value)
    : Prop :=
  exists listed : list value,
    (entry <- dict_item (RiskAssistant.get_questions self) category ;;
     py_iter entry) = Ok listed /\
    In q listed.

(** The kinds of question that [collect_answers] asks in a category: every
    kind under psychology, scales and booleans elsewhere. *)
Definition asks (category : string) (kind : value) : bool :=
  String.eqb category "psychology" || eq_str kind "scale"
  || eq_str kind "boolean".

(** ** The pipeline and the text of a decision *)

(** The order in which [evaluate] enters the components. *)
Definition pipeline_order : list call :=
  [HardStopEvaluator_evaluate; ScoreCalculator_calculate_final_score;
   RiskDecisionMaker_decide_risk; RiskDecisionMaker_calculate_lot_size].

(** The decision with its lot size removed. *)
Definition without_lot (d : RiskDecision) : RiskDecision :=
  {| should_trade := should_trade d;
     risk_percent := risk_percent d;
     final_score := final_score d;
     category_scores := category_scores d;
     answers := answers d;
     hard_stop_result := hard_stop_result d;
     lot_size := None;
     timestamp := timestamp d |}.

(** The line that recommends a lot size. *)
Definition lot_line `{Runtime} (size : Q) : string :=
  "💰 Tamaño de lote recomendado: " ++ format_value (VNum size) ++ " lotes".

(** The reason as an f-string shows it: the text itself, or [None] as the
    runtime prints it. *)
Definition reason_shown `{Runtime} (d : RiskDecision) : string :=
  match reason (hard_stop_result d) with
  | Some text => text
  | None => format_value VNone
  end.

(** The text of a decision whose gate failed: the title between two rules,
    then the refusal and the reason, each of them after an empty line. *)
Definition refusal_text `{Runtime} (d : RiskDecision) : string :=
  str_repeat "=" 60 ++ nl ++
  "🎯 DECISIÓN DE TRADING" ++ nl ++
  str_repeat "=" 60 ++ nl ++
  (nl ++ "❌ NO PUEDES TRADEAR HOY") ++ nl ++
  (nl ++ "🛑 Razón: " ++ reason_shown d).

(** What one turn of a loop of [collect_answers] does to the answers when
    it returns: a question of a kind that is asked has its answer stored
    under its identifier, any other leaves the answers alone. *)
Definition turn (asked : value -> bool) (answers : dict scalar) (q : value)
    (answers' : dict scalar) : Prop :=
  exists kind : value,
    py_item q "type" = Ok kind /\
    if asked kind
    then exists (k : string) (answer : scalar),
           py_item q "id" = Ok (VStr k) /\ answers' = dict_set answers k answer
    else answers' = answers.

(** ** The coach *)

(** [e.get('decision', {}).get(key, default)] *)
Definition decision_field (e : value) (key : string) (default : value)
    : result value :=
  decision <- py_get e "decision" (VDict []) ;;
  py_get decision key default.

(** An entry whose decision can be read: the entry is a dictionary, and so
    is its decision if it has one. *)
Definition readable (e : value) : Prop :=
  exists decision : dict value,
    py_get e "decision" (VDict []) = Ok (VDict decision).

(** The entry records a risk of 3 percent. *)
Definition takes_3_percent (e : value) : bool :=
  match decision_field e "risk_percent" VNone with
  | Ok risk => eq_num risk 3
  | Raise _ => false
  end.

(** The entry records that the hard stops failed. *)
Definition gate_failed (e : value) : bool :=
  match decision_field e "hard_stops_passed" (VBool true) with
  | Ok passed => negb (truthy passed)
  | Raise _ => false
  end.

(** [entry.get('answers', {}).items()] *)
Definition answer_items (e : value) : result (list (string * value)) :=
  answers <- py_get e "answers" (VDict []) ;;
  py_items answers.

(** The answers of an entry that the coach takes for its state of mind. *)
Definition state_of_mind (e : value) : list value :=
  match answer_items e with
  | Ok items =>
      map snd
        (filter (fun answer =>
                   str_in (fst answer) ["mental_state"; "emotional_control"])
           items)
  | Raise _ => []
  end.

(** An entry whose answers can be read: the entry is a dictionary, and so
    are its answers if it has any. *)
Definition answers_readable (e : value) : Prop :=
  exists items : list (string * value), answer_items e = Ok items.

(** The value is a number. *)
Definition numeric (v : value) : Prop := exists x : Q, as_num v = Some x.

(** What [sum] adds up when every value is a number. *)
Fixpoint total (values : list value) : Q :=
  match values with
  | [] => 0
  | v :: rest =>
      match as_num v with
      | Some x => x + total rest
      | None => total rest
      end
  end.

(** The final score that an entry records, 0 if it records none. *)
Definition score_of (e : value) : value :=
  match decision_field e "final_score" (VNum 0) with
  | Ok score => score
  | Raise _ => VNone
  end.

(** * Properties *)

(** ** Comparisons and lookups *)

Lemma Qltb_lt (x y : Q) : Qltb x y = true <-> x < y.
Proof.
  unfold Qltb. rewrite negb_true_iff, <- not_true_iff_false, Qle_bool_iff.
  split; [apply Qnot_le_lt | apply Qlt_not_le].
Qed.

Lemma Qltb_ge (x y : Q) : Qltb x y = false <-> y <= x.
Proof.
  unfold Qltb. rewrite negb_false_iff. apply Qle_bool_iff.
Qed.

Lemma Qle_bool_gt (x y : Q) : Qle_bool x y = false <-> y < x.
Proof.
  rewrite <- not_true_iff_false, Qle_bool_iff.
  split; [apply Qnot_le_lt | apply Qlt_not_le].
Qed.

Lemma py_ge_num (a : scalar) (b : value) (x y : Q) :
  scalar_num a = Some x -> as_num b = Some y -> py_ge a b = Ok (Qle_bool y x).
Proof.
  intros Ha Hb.
  destruct a as [ | c | q | s]; simpl in Ha; try discriminate;
    destruct b as [[ | c' | q' | s'] | l | d]; simpl in Hb; try discriminate;
    injection Ha as <-; injection Hb as <-; reflexivity.
Qed.

Lemma py_lt_nums (a : scalar) (b : value) (x y : Q) :
  scalar_num a = Some x -> as_num b = Some y -> py_lt a b = Ok (Qltb x y).
Proof.
  intros Ha Hb.
  destruct a as [ | c | q | s]; simpl in Ha; try discriminate;
    destruct b as [[ | c' | q' | s'] | l | d]; simpl in Hb; try discriminate;
    injection Ha as <-; injection Hb as <-; reflexivity.
Qed.

Lemma to_num_some (v : value) (q : Q) : as_num v = Some q -> to_num v = Ok q.
Proof. unfold to_num. now intros ->. Qed.

(** ** Risk tiers *)

Section Tiers.

Variable self : RiskDecisionMaker.t.
Variable thresholds : dict value.
Variables no_trade risk_2_percent : Q.

Hypothesis configured :
  ConfigLoader.get (RiskDecisionMaker.config self) ["scoring"; "thresholds"]
    (VDict []) = VDict thresholds.
Hypothesis no_trade_cutoff :
  dict_get thresholds "no_trade" (VNum 50) = VNum no_trade.
Hypothesis risk_2_cutoff :
  dict_get thresholds "risk_2_percent" (VNum 70) = VNum risk_2_percent.

Lemma decide_risk_eq (final_score : Q) :
  RiskDecisionMaker.decide_risk self final_score =
  Ok (if Qltb final_score no_trade then (false, 0)
      else if Qltb final_score risk_2_percent then (true, 2) else (true, 3)).
Proof.
  unfold RiskDecisionMaker.decide_risk. rewrite configured. simpl.
  rewrite no_trade_cutoff, risk_2_cutoff. simpl.
  destruct (Qltb final_score no_trade); [reflexivity | ].
  simpl. now destruct (Qltb final_score risk_2_percent).
Qed.

End Tiers.

(** C3. With numeric cutoffs [no_trade < risk_2_percent] configured (or
    left to their defaults 50 and 70), [decide_risk] is the three-tier step
    function: a score below [no_trade] gives (False, 0.0), a score from
    [no_trade] up to but excluding [risk_2_percent] gives (True, 2.0), and a
    score of [risk_2_percent] or more gives (True, 3.0). *)
Theorem decide_risk_three_tiers
    (self : RiskDecisionMaker.t) (thresholds : dict value)
    (no_trade risk_2_percent final_score : Q) :
  ConfigLoader.get (RiskDecisionMaker.config self) ["scoring"; "thresholds"]
    (VDict []) = VDict thresholds ->
  dict_get thresholds "no_trade" (VNum 50) = VNum no_trade ->
  dict_get thresholds "risk_2_percent" (VNum 70) = VNum risk_2_percent ->
  no_trade < risk_2_percent ->
  (final_score < no_trade ->
     RiskDecisionMaker.decide_risk self final_score = Ok (false, 0)) /\
  (no_trade <= final_score -> final_score < risk_2_percent ->
     RiskDecisionMaker.decide_risk self final_score = Ok (true, 2)) /\
  (risk_2_percent <= final_score ->
     RiskDecisionMaker.decide_risk self final_score = Ok (true, 3)).
Proof.
  intros Hcfg Hnt Hr2 Hord.
  rewrite (decide_risk_eq self thresholds no_trade risk_2_percent Hcfg Hnt Hr2).
  repeat split.
  - intros Hlt. apply Qltb_lt in Hlt. now rewrite Hlt.
  - intros Hge Hlt. apply Qltb_ge in Hge. apply Qltb_lt in Hlt.
    now rewrite Hge, Hlt.
  - intros Hge.
    assert (Hge' : no_trade <= final_score) by lra.
    apply Qltb_ge in Hge, Hge'. now rewrite Hge', Hge.
Qed.

(** The documented tiers, cutoffs 50 and 70: scores 49, 50, 69 and 70. *)
Lemma decide_risk_three_tiers_witness :
  RiskDecisionMaker.decide_risk (RiskDecisionMaker.init Sample.config) 49
    = Ok (false, 0) /\
  RiskDecisionMaker.decide_risk (RiskDecisionMaker.init Sample.config) 50
    = Ok (true, 2) /\
  RiskDecisionMaker.decide_risk (RiskDecisionMaker.init Sample.config) 69
    = Ok (true, 2) /\
  RiskDecisionMaker.decide_risk (RiskDecisionMaker.init Sample.config) 70
    = Ok (true, 3).
Proof.
  pose (self := RiskDecisionMaker.init Sample.config).
  pose (th := [("no_trade", VNum 50); ("risk_2_percent", VNum 70)]).
  assert (Hord : 50 < 70) by reflexivity.
  split; [ | split; [ | split]].
  - apply (decide_risk_three_tiers self th 50 70 49
             eq_refl eq_refl eq_refl Hord). reflexivity.
  - apply (decide_risk_three_tiers self th 50 70 50
             eq_refl eq_refl eq_refl Hord); [discriminate | reflexivity].
  - apply (decide_risk_three_tiers self th 50 70 69
             eq_refl eq_refl eq_refl Hord); [discriminate | reflexivity].
  - apply (decide_risk_three_tiers self th 50 70 70
             eq_refl eq_refl eq_refl Hord). discriminate.
Defined.

(** ** Configuration access *)

Lemma get_from_undefined (node : value) (keys : list string) (default : value) :
  path_defined node keys = false ->
  ConfigLoader.get_from node keys default = default.
Proof.
  revert node. induction keys as [ | key rest IH]; intros node Hp.
  - discriminate.
  - simpl in *. destruct node as [a | l | d]; try reflexivity.
    unfold dict_get. destruct (dict_lookup d key) as [found | ]; [ | reflexivity].
    destruct found as [[ | b | q | s] | l | d']; try reflexivity;
      now apply IH.
Qed.

(** C8, as stated, fails: reading a key that the loaded configuration does
    not have, with no default given, is no failure; the access returns
    [None]. *)
Lemma absent_key_without_default_returns_None :
  path_defined Sample.document ["hard_stops"; "max_drawdown"] = false /\
  (cfg <- ConfigLoader.init Sample.storage "config.yaml" ;;
   Ok (ConfigLoader.get cfg ["hard_stops"; "max_drawdown"] VNone)) = Ok VNone.
Proof. split; reflexivity. Qed.

(** C8, amended. Loading fails with [FileNotFoundError] when the
    configuration source is missing, for the loader and for the assistant
    built on it; reading a key that is absent from the loaded configuration
    does not fail and yields the default, which is [None] when the caller
    gives none. *)
Theorem config_missing_source_fails_absent_key_defaults
    (fs : ConfigLoader.storage) (config_path : string) :
  (fs config_path = None ->
     ConfigLoader.init fs config_path = Raise (FileNotFoundError config_path) /\
     RiskAssistant.init fs config_path = Raise (FileNotFoundError config_path)) /\
  (forall (cfg : ConfigLoader.t) (keys : list string) (default : value),
     ConfigLoader.init fs config_path = Ok cfg ->
     path_defined (ConfigLoader.config cfg) keys = false ->
     ConfigLoader.get cfg keys default = default /\
     ConfigLoader.get cfg keys VNone = VNone).
Proof.
  split.
  - intros Hmissing.
    unfold RiskAssistant.init, ConfigLoader.init, ConfigLoader._load_config.
    now rewrite Hmissing.
  - intros cfg keys default _ Hp. unfold ConfigLoader.get.
    split; now apply get_from_undefined.
Qed.

Lemma config_missing_source_fails_absent_key_defaults_witness :
  (ConfigLoader.init Sample.storage "nowhere.yaml"
     = Raise (FileNotFoundError "nowhere.yaml") /\
   RiskAssistant.init Sample.storage "nowhere.yaml"
     = Raise (FileNotFoundError "nowhere.yaml")) /\
  (ConfigLoader.get Sample.config ["scoring"; "cutoffs"; "no_trade"] (VNum 50)
     = VNum 50 /\
   ConfigLoader.get Sample.config ["scoring"; "cutoffs"; "no_trade"] VNone
     = VNone).
Proof.
  split.
  - apply (config_missing_source_fails_absent_key_defaults
             Sample.storage "nowhere.yaml"). reflexivity.
  - apply (config_missing_source_fails_absent_key_defaults
             Sample.storage "config.yaml"); reflexivity.
Defined.

(** ** The pipeline *)

(** C1. When the hard-stop evaluation reports a failure, [evaluate] returns
    at once the decision with [should_trade = False], [risk_percent = 0.0],
    [final_score = 0.0], no category scores, no answers and no lot size,
    whatever the trade details; the only component method entered is the
    hard-stop evaluation, so neither the score calculator nor the decision
    maker is invoked. *)
Theorem evaluate_hard_stop_failed `{Runtime}
    (self : RiskAssistant.t) (answers stats : dict scalar)
    (balance sl_pips pair : scalar) (w : world) (outcome : HardStopResult) :
  HardStopEvaluator.evaluate (RiskAssistant.hard_stop_evaluator self)
    answers stats = Ok outcome ->
  passed outcome = false ->
  RiskAssistant.evaluate self answers stats balance sl_pips pair w =
  (Ok {| should_trade := false;
         risk_percent := 0;
         final_score := 0;
         category_scores := [];
         answers := [];
         hard_stop_result := outcome;
         lot_size := None;
         timestamp := isoformat_now (clock w) |},
   {| clock := S (clock w);
      calls := (calls w ++ [HardStopEvaluator_evaluate])%list |}).
Proof.
  intros Hgate Hfailed.
  unfold RiskAssistant.evaluate, mbind, invoke.
  rewrite Hgate, Hfailed. reflexivity.
Qed.

Lemma evaluate_hard_stop_failed_witness :
  exists outcome : HardStopResult,
    passed outcome = false /\
    @RiskAssistant.evaluate Sample.runtime Sample.assistant [] Sample.good_stats
      (SNum 10000) (SNum 20) (SStr "EURUSD") Sample.start =
    (Ok {| should_trade := false;
           risk_percent := 0;
           final_score := 0;
           category_scores := [];
           answers := [];
           hard_stop_result := outcome;
           lot_size := None;
           timestamp := "0" |},
     {| clock := 1; calls := [HardStopEvaluator_evaluate] |}).
Proof.
  eexists. split.
  2: { apply (@evaluate_hard_stop_failed Sample.runtime Sample.assistant []
                Sample.good_stats (SNum 10000) (SNum 20) (SStr "EURUSD")
                Sample.start); reflexivity. }
  reflexivity.
Defined.

Ltac pipeline_cases :=
  repeat match goal with
    | |- context [HardStopEvaluator.evaluate ?s ?a ?st] =>
        destruct (HardStopEvaluator.evaluate s a st) as [[[ | ] ? ?] | ?]; simpl
    | |- context [ScoreCalculator.calculate_final_score ?s ?a] =>
        destruct (ScoreCalculator.calculate_final_score s a)
          as [[[? ?] ?] | ?]; simpl
    | |- context [RiskDecisionMaker.decide_risk ?s ?x] =>
        destruct (RiskDecisionMaker.decide_risk s x) as [[[ | ] ?] | ?]; simpl
    | |- context [RiskDecisionMaker.calculate_lot_size ?s ?r ?b ?p ?i] =>
        destruct (RiskDecisionMaker.calculate_lot_size s r b p i); simpl
    end.

Lemma evaluate_any_world `{Runtime} (self : RiskAssistant.t)
    (answers stats : dict scalar) (balance sl_pips pair : scalar) (w w' : world) :
  same_outcome
    (fst (RiskAssistant.evaluate self answers stats balance sl_pips pair w))
    (fst (RiskAssistant.evaluate self answers stats balance sl_pips pair w')).
Proof.
  unfold RiskAssistant.evaluate, mbind, invoke, same_outcome, same_but_timestamp.
  pipeline_cases; try (repeat split; reflexivity).
  all: destruct (scalar_truthy balance && scalar_truthy sl_pips
                 && scalar_truthy pair); simpl;
       pipeline_cases; repeat split; reflexivity.
Qed.

(** C9. Calling [evaluate] twice with the same answers and statistics and no
    trade details, the second call in the world the first one left (a later
    clock, a longer history of calls), ends the same way both times: the
    same exception, or two decisions equal in every field except
    [timestamp].  The same holds from any two worlds: apart from the clock
    reading nothing outside the arguments and the loaded configuration is
    used. *)
Theorem evaluate_twice_same_decision `{Runtime} (self : RiskAssistant.t)
    (answers stats : dict scalar) (w : world) :
  same_outcome
    (fst (RiskAssistant.evaluate self answers stats SNone SNone SNone w))
    (fst (RiskAssistant.evaluate self answers stats SNone SNone SNone
            (snd (RiskAssistant.evaluate self answers stats SNone SNone SNone w))))
  /\
  forall w' : world,
    same_outcome
      (fst (RiskAssistant.evaluate self answers stats SNone SNone SNone w))
      (fst (RiskAssistant.evaluate self answers stats SNone SNone SNone w')).
Proof.
  split; [ | intros w']; apply evaluate_any_world.
Qed.

(** C10. A lot size is computed only when the decision is to trade and
    balance, stop-loss pips and pair are all given and truthy.  Trade
    details of which one is falsy (a balance or stop loss of 0, an empty
    pair, or [None]) are treated as absent: the call ends exactly as the
    call without trade details does, so it returns no lot size rather than
    computing one or raising.  Hence a decision not to trade has no lot
    size. *)
Theorem evaluate_lot_size_only_with_details `{Runtime} (self : RiskAssistant.t)
    (answers stats : dict scalar) (balance sl_pips pair : scalar) (w : world) :
  (forall (d : RiskDecision) (w' : world),
     RiskAssistant.evaluate self answers stats balance sl_pips pair w = (Ok d, w') ->
     lot_size d <> None ->
     should_trade d = true /\ scalar_truthy balance = true /\
     scalar_truthy sl_pips = true /\ scalar_truthy pair = true) /\
  (scalar_truthy balance = false \/ scalar_truthy sl_pips = false \/
   scalar_truthy pair = false ->
     RiskAssistant.evaluate self answers stats balance sl_pips pair w =
     RiskAssistant.evaluate self answers stats SNone SNone SNone w) /\
  (forall (d : RiskDecision) (w' : world),
     RiskAssistant.evaluate self answers stats balance sl_pips pair w = (Ok d, w') ->
     should_trade d = false -> lot_size d = None).
Proof.
  assert (Hmain : forall (d : RiskDecision) (w' : world),
     RiskAssistant.evaluate self answers stats balance sl_pips pair w = (Ok d, w') ->
     lot_size d <> None ->
     should_trade d = true /\ scalar_truthy balance = true /\
     scalar_truthy sl_pips = true /\ scalar_truthy pair = true).
  { intros d w'. unfold RiskAssistant.evaluate, mbind, invoke.
    pipeline_cases; try discriminate;
      try (intros [= <- _] Hlot; simpl in Hlot; congruence).
    all: destruct (scalar_truthy balance), (scalar_truthy sl_pips),
           (scalar_truthy pair); simpl; try discriminate;
         intros [= <- _] Hlot; simpl in *; try congruence; auto. }
  split; [exact Hmain | split].
  - intros Hfalsy.
    assert (Hcond : scalar_truthy balance && scalar_truthy sl_pips
                    && scalar_truthy pair = false).
    { destruct Hfalsy as [-> | [-> | ->]]; simpl;
        rewrite ?andb_false_r; reflexivity. }
    unfold RiskAssistant.evaluate, mbind, invoke.
    pipeline_cases; try reflexivity.
    all: rewrite Hcond; reflexivity.
  - intros d w' Hrun Hno.
    destruct (lot_size d) as [size | ] eqn:Hlot; [ | reflexivity].
    destruct (Hmain d w' Hrun) as [Htrade _]; congruence.
Qed.

Lemma evaluate_lot_size_only_with_details_witness :
  (@RiskAssistant.evaluate Sample.runtime Sample.assistant Sample.good_answers
     Sample.good_stats (SNum 0) (SNum 20) (SStr "EURUSD") Sample.start =
   @RiskAssistant.evaluate Sample.runtime Sample.assistant Sample.good_answers
     Sample.good_stats SNone SNone SNone Sample.start) /\
  (lot_size Sample.traded = Some (3 # 2) /\
   should_trade Sample.traded = true /\
   scalar_truthy (SNum 10000) = true /\
   scalar_truthy (SNum 20) = true /\
   scalar_truthy (SStr "EURUSD") = true).
Proof.
  split.
  - exact (proj1 (proj2
             (@evaluate_lot_size_only_with_details Sample.runtime
                Sample.assistant Sample.good_answers Sample.good_stats
                (SNum 0) (SNum 20) (SStr "EURUSD") Sample.start))
             (or_introl eq_refl)).
  - split; [reflexivity | ].
    assert (Hrun : @RiskAssistant.evaluate Sample.runtime Sample.assistant
                     Sample.good_answers Sample.good_stats (SNum 10000)
                     (SNum 20) (SStr "EURUSD") Sample.start
                   = (Ok Sample.traded, Sample.after_trade))
      by (vm_compute; reflexivity).
    assert (Hlot : lot_size Sample.traded <> None) by discriminate.
    exact (proj1
             (@evaluate_lot_size_only_with_details Sample.runtime
                Sample.assistant Sample.good_answers Sample.good_stats
                (SNum 10000) (SNum 20) (SStr "EURUSD") Sample.start)
             Sample.traded Sample.after_trade Hrun Hlot).
Defined.

(** ** The hard-stop gate *)

(** C7, at the input where the code departs from it: with a limit of 0
    consecutive losses configured and no [consecutive_losses] statistic
    supplied, the defaulted comparison [0 >= 0] triggers the first check,
    and building its failure line reads [stats['consecutive_losses']]
    without the default: the evaluation raises [KeyError] instead of
    reporting a failed check. *)
Theorem hard_stop_missing_stat_raises `{Runtime} :
  py_ge (dict_get [("daily_loss_percent", SNum 1)] "consecutive_losses" (SNum 0))
    (ConfigLoader.get
       {| ConfigLoader.config_path := "config.yaml";
          ConfigLoader.config := Sample.zero_tolerance |}
       ["hard_stops"; "max_consecutive_losses"] VNone) = Ok true /\
  HardStopEvaluator.evaluate
    (HardStopEvaluator.init
       {| ConfigLoader.config_path := "config.yaml";
          ConfigLoader.config := Sample.zero_tolerance |})
    Sample.good_answers [("daily_loss_percent", SNum 1)]
  = Raise (KeyError "consecutive_losses").
Proof. split; reflexivity. Qed.

Lemma evaluate_outcome_shape `{Runtime} (self : HardStopEvaluator.t)
    (answers stats : dict scalar) (r : HardStopResult) :
  HardStopEvaluator.evaluate self answers stats = Ok r ->
  exists checks : list string, r = outcome_of checks.
Proof.
  unfold HardStopEvaluator.evaluate.
  destruct (py_ge (dict_get stats "consecutive_losses" (SNum 0)) _)
    as [[ | ] | ]; simpl; try discriminate;
  [ destruct (dict_item stats "consecutive_losses"); simpl; try discriminate | ];
  ( destruct (py_ge (dict_get stats "daily_loss_percent" (SNum 0)) _)
      as [[ | ] | ]; simpl; try discriminate;
    [ destruct (dict_item stats "daily_loss_percent"); simpl; try discriminate | ];
    ( destruct (py_lt (dict_get answers "sleep_quality" (SNum 0)) _)
        as [hit3 | ]; simpl; try discriminate;
      destruct (py_lt (dict_get answers "mental_state" (SNum 0)) _)
        as [hit4 | ]; simpl; try discriminate;
      intros [= <-]; eexists; reflexivity ) ).
Qed.

Lemma outcome_of_invariant (checks : list string) :
  (passed (outcome_of checks) = true <-> failed_checks (outcome_of checks) = []) /\
  (reason (outcome_of checks) <> None <-> passed (outcome_of checks) = false) /\
  (passed (outcome_of checks) = false ->
     reason (outcome_of checks) =
       Some (hard_stop_header
               ++ String.concat "; " (failed_checks (outcome_of checks)))%string).
Proof.
  destruct checks as [ | line rest]; simpl; repeat split;
    intros; try discriminate; try reflexivity; congruence.
Qed.

Section Gate.

Context `{Runtime}.
Variable self : HardStopEvaluator.t.
Variables answers stats : dict scalar.

Let threshold (name : string) : value :=
  ConfigLoader.get (HardStopEvaluator.config self) ["hard_stops"; name] VNone.
Let losses : scalar := dict_get stats "consecutive_losses" (SNum 0).
Let daily_loss : scalar := dict_get stats "daily_loss_percent" (SNum 0).
Let sleep_hours : scalar := dict_get answers "sleep_quality" (SNum 0).
Let mental_state : scalar := dict_get answers "mental_state" (SNum 0).
Let clear_bias : scalar := dict_get answers "clear_bias" (SBool false).

(** The numbers compared by the four numeric checks. *)
Variables max_losses max_daily_loss min_sleep min_psych_score : Q.
Variables n_losses n_daily_loss n_sleep n_mental : Q.

Hypothesis max_losses_num :
  as_num (threshold "max_consecutive_losses") = Some max_losses.
Hypothesis max_daily_loss_num :
  as_num (threshold "max_daily_loss_percent") = Some max_daily_loss.
Hypothesis min_sleep_num :
  as_num (threshold "min_sleep_hours") = Some min_sleep.
Hypothesis min_psych_score_num :
  as_num (threshold "psychology_min_score") = Some min_psych_score.
Hypothesis losses_num : scalar_num losses = Some n_losses.
Hypothesis daily_loss_num : scalar_num daily_loss = Some n_daily_loss.
Hypothesis sleep_num : scalar_num sleep_hours = Some n_sleep.
Hypothesis mental_num : scalar_num mental_state = Some n_mental.

(** A statistic that triggers its check is one that was supplied. *)
Hypothesis losses_supplied :
  max_losses <= n_losses -> dict_mem stats "consecutive_losses" = true.
Hypothesis daily_loss_supplied :
  max_daily_loss <= n_daily_loss -> dict_mem stats "daily_loss_percent" = true.

Lemma supplied_item (key : string) (default : scalar) :
  dict_mem stats key = true ->
  dict_item stats key = Ok (dict_get stats key default).
Proof.
  unfold dict_mem, dict_item, dict_get.
  now destruct (dict_lookup stats key).
Qed.

Lemma evaluate_checks :
  HardStopEvaluator.evaluate self answers stats =
  Ok (outcome_of
        (expected_checks self answers stats max_losses max_daily_loss
           min_sleep min_psych_score n_losses n_daily_loss n_sleep n_mental)).
Proof.
  unfold HardStopEvaluator.evaluate, expected_checks.
  fold (threshold "max_consecutive_losses") (threshold "max_daily_loss_percent")
    (threshold "min_sleep_hours") (threshold "psychology_min_score")
    (threshold "require_clear_bias").
  fold losses daily_loss sleep_hours mental_state clear_bias.
  rewrite (py_ge_num _ _ _ _ losses_num max_losses_num).
  rewrite (py_ge_num _ _ _ _ daily_loss_num max_daily_loss_num).
  rewrite (py_lt_nums _ _ _ _ sleep_num min_sleep_num).
  rewrite (py_lt_nums _ _ _ _ mental_num min_psych_score_num).
  simpl bind.
  destruct (Qle_bool max_losses n_losses) eqn:E1.
  - rewrite (supplied_item "consecutive_losses" (SNum 0))
      by (apply losses_supplied; now apply Qle_bool_iff).
    simpl bind.
    destruct (Qle_bool max_daily_loss n_daily_loss) eqn:E2.
    + rewrite (supplied_item "daily_loss_percent" (SNum 0))
        by (apply daily_loss_supplied; now apply Qle_bool_iff).
      simpl bind.
      destruct (Qltb n_sleep min_sleep), (Qltb n_mental min_psych_score),
        (truthy (threshold "require_clear_bias")
         && negb (scalar_truthy clear_bias)); reflexivity.
    + simpl bind.
      destruct (Qltb n_sleep min_sleep), (Qltb n_mental min_psych_score),
        (truthy (threshold "require_clear_bias")
         && negb (scalar_truthy clear_bias)); reflexivity.
  - simpl bind.
    destruct (Qle_bool max_daily_loss n_daily_loss) eqn:E2.
    + rewrite (supplied_item "daily_loss_percent" (SNum 0))
        by (apply daily_loss_supplied; now apply Qle_bool_iff).
      simpl bind.
      destruct (Qltb n_sleep min_sleep), (Qltb n_mental min_psych_score),
        (truthy (threshold "require_clear_bias")
         && negb (scalar_truthy clear_bias)); reflexivity.
    + simpl bind.
      destruct (Qltb n_sleep min_sleep), (Qltb n_mental min_psych_score),
        (truthy (threshold "require_clear_bias")
         && negb (scalar_truthy clear_bias)); reflexivity.
Qed.

End Gate.

(** C2. Whatever the answers and statistics, an outcome that the gate
    returns has [passed] true exactly when [failed_checks] is empty, has a
    [reason] exactly when [passed] is false, and that reason is the heading
    followed by the failed checks joined with "; ".  With numeric limits
    configured and numeric (or missing, hence defaulted) statistics and
    answers, each statistic that triggers its check being one that was
    supplied, the gate returns and [failed_checks] holds, in order, the line
    of every check whose condition holds, each decided by its own condition
    alone. *)
Theorem hard_stop_outcome `{Runtime}
    (self : HardStopEvaluator.t) (answers stats : dict scalar) :
  (forall r : HardStopResult,
     HardStopEvaluator.evaluate self answers stats = Ok r ->
     (passed r = true <-> failed_checks r = []) /\
     (reason r <> None <-> passed r = false) /\
     (passed r = false ->
        reason r = Some ("Hard stops fallados: "
                           ++ String.concat "; " (failed_checks r))%string)) /\
  (forall (max_losses max_daily_loss min_sleep min_psych_score : Q)
          (n_losses n_daily_loss n_sleep n_mental : Q),
     let threshold := fun name : string =>
       ConfigLoader.get (HardStopEvaluator.config self) ["hard_stops"; name] VNone in
     let losses := dict_get stats "consecutive_losses" (SNum 0) in
     let daily_loss := dict_get stats "daily_loss_percent" (SNum 0) in
     let sleep_hours := dict_get answers "sleep_quality" (SNum 0) in
     let mental_state := dict_get answers "mental_state" (SNum 0) in
     let clear_bias := dict_get answers "clear_bias" (SBool false) in
     as_num (threshold "max_consecutive_losses") = Some max_losses ->
     as_num (threshold "max_daily_loss_percent") = Some max_daily_loss ->
     as_num (threshold "min_sleep_hours") = Some min_sleep ->
     as_num (threshold "psychology_min_score") = Some min_psych_score ->
     scalar_num losses = Some n_losses ->
     scalar_num daily_loss = Some n_daily_loss ->
     scalar_num sleep_hours = Some n_sleep ->
     scalar_num mental_state = Some n_mental ->
     (max_losses <= n_losses -> dict_mem stats "consecutive_losses" = true) ->
     (max_daily_loss <= n_daily_loss -> dict_mem stats "daily_loss_percent" = true) ->
     exists r : HardStopResult,
       HardStopEvaluator.evaluate self answers stats = Ok r /\
       failed_checks r =
         (when (Qle_bool max_losses n_losses)
            (line_consecutive_losses losses (threshold "max_consecutive_losses"))
          ++ when (Qle_bool max_daily_loss n_daily_loss)
               (line_daily_loss daily_loss (threshold "max_daily_loss_percent"))
          ++ when (Qltb n_sleep min_sleep)
               (line_sleep sleep_hours (threshold "min_sleep_hours"))
          ++ when (Qltb n_mental min_psych_score)
               (line_mental_state mental_state (threshold "psychology_min_score"))
          ++ when (truthy (threshold "require_clear_bias")
                   && negb (scalar_truthy clear_bias))
               line_bias)%list).
Proof.
  split.
  - intros r Hr. destruct (evaluate_outcome_shape self answers stats r Hr)
      as [checks ->].
    apply outcome_of_invariant.
  - intros max_losses max_daily_loss min_sleep min_psych_score
      n_losses n_daily_loss n_sleep n_mental threshold losses daily_loss
      sleep_hours mental_state clear_bias H1 H2 H3 H4 H5 H6 H7 H8 H9 H10.
    eexists. split.
    + exact (evaluate_checks self answers stats max_losses max_daily_loss
               min_sleep min_psych_score n_losses n_daily_loss n_sleep n_mental
               H1 H2 H3 H4 H5 H6 H7 H8 H9 H10).
    + reflexivity.
Qed.

(** No answers at all: the three answer checks fail, each with its line. *)
Lemma hard_stop_outcome_witness :
  exists r : HardStopResult,
    @HardStopEvaluator.evaluate Sample.runtime
      (HardStopEvaluator.init Sample.config) [] Sample.good_stats = Ok r /\
    failed_checks r =
      ["Horas de sueño (0) < n"; "Estado mental (0) < n";
       "No tienes un bias claro del mercado"] /\
    passed r = false /\
    reason r =
      Some "Hard stops fallados: Horas de sueño (0) < n; Estado mental (0) < n; No tienes un bias claro del mercado".
Proof.
  destruct (@hard_stop_outcome Sample.runtime
              (HardStopEvaluator.init Sample.config) [] Sample.good_stats)
    as [Hinv Hlines].
  destruct (Hlines 3 5 5 3 2 1 0 0 eq_refl eq_refl eq_refl eq_refl
              eq_refl eq_refl eq_refl eq_refl (fun _ => eq_refl) (fun _ => eq_refl))
    as [r [Hr Hchecks]].
  exists r. split; [exact Hr | ]. split; [exact Hchecks | ].
  destruct (Hinv r Hr) as [Hpassed [_ Hreason]].
  assert (Hfailed : passed r = false).
  { destruct (passed r); [ | reflexivity].
    destruct Hpassed as [Hempty _]. rewrite (Hempty eq_refl) in Hchecks.
    discriminate Hchecks. }
  split; [exact Hfailed | ].
  rewrite (Hreason Hfailed), Hchecks. reflexivity.
Defined.

(** ** Normalisation of answers *)

Lemma py_clamp_bounds (y : Q) :
  0 <= py_max 0 (py_min 100 y) /\ py_max 0 (py_min 100 y) <= 100.
Proof.
  unfold py_max, py_min.
  destruct (Qltb y 100) eqn:E1.
  - apply Qltb_lt in E1. destruct (Qltb 0 y) eqn:E2.
    + apply Qltb_lt in E2. split; lra.
    + split; lra.
  - assert (E2 : Qltb 0 100 = true) by reflexivity. rewrite E2. split; lra.
Qed.

Lemma py_clamp_cases (y : Q) :
  (y <= 0 -> py_max 0 (py_min 100 y) == 0) /\
  (100 <= y -> py_max 0 (py_min 100 y) == 100) /\
  (0 <= y -> y <= 100 -> py_max 0 (py_min 100 y) == y).
Proof.
  unfold py_max, py_min.
  destruct (Qltb y 100) eqn:E1.
  - apply Qltb_lt in E1. destruct (Qltb 0 y) eqn:E2.
    + apply Qltb_lt in E2. repeat split; intros; lra.
    + apply Qltb_ge in E2. repeat split; intros; lra.
  - apply Qltb_ge in E1.
    assert (E2 : Qltb 0 100 = true) by reflexivity. rewrite E2.
    repeat split; intros; lra.
Qed.

Lemma py_clamp_monotone (y y' : Q) :
  y <= y' -> py_max 0 (py_min 100 y) <= py_max 0 (py_min 100 y').
Proof.
  intros Hle. unfold py_max, py_min.
  destruct (Qltb y 100) eqn:E1, (Qltb y' 100) eqn:E1';
    try apply Qltb_lt in E1; try apply Qltb_ge in E1;
    try apply Qltb_lt in E1'; try apply Qltb_ge in E1';
    try (assert (E2 : Qltb 0 100 = true) by reflexivity; rewrite ?E2);
    destruct (Qltb 0 y) eqn:E3, (Qltb 0 y') eqn:E3';
    try apply Qltb_lt in E3; try apply Qltb_ge in E3;
    try apply Qltb_lt in E3'; try apply Qltb_ge in E3'; lra.
Qed.

Lemma rescale_monotone (raw raw' min_val max_val : Q) :
  min_val < max_val -> raw <= raw' ->
  rescale raw min_val max_val <= rescale raw' min_val max_val.
Proof.
  intros Hwidth Hle. unfold rescale, Qdiv.
  assert (Hinv : 0 < / (max_val - min_val)) by (apply Qinv_lt_0_compat; lra).
  apply Qmult_le_compat_r; [ | discriminate].
  apply Qmult_le_compat_r; [lra | now apply Qlt_le_weak].
Qed.

Section Normalize.

Variable self : ScoreCalculator.t.
Variable question : dict value.

Lemma normalize_boolean (answer : scalar) :
  dict_get question "type" (VStr "boolean") = VStr "boolean" ->
  ScoreCalculator.normalize_answer self (VDict question) answer =
  Ok (if truthy (dict_get question "reverse_score" (VBool false))
      then (if scalar_truthy answer then 0 else 100)
      else (if scalar_truthy answer then 100 else 0)).
Proof.
  intros Htype. unfold ScoreCalculator.normalize_answer. simpl.
  rewrite Htype. simpl.
  now destruct (truthy (dict_get question "reverse_score" (VBool false))),
    (scalar_truthy answer).
Qed.

Lemma normalize_scale (answer : scalar) (raw min_val max_val : Q) :
  dict_get question "type" (VStr "boolean") = VStr "scale" ->
  as_num (dict_get question "min" (VNum 1)) = Some min_val ->
  as_num (dict_get question "max" (VNum 5)) = Some max_val ->
  scalar_num answer = Some raw ->
  ~ max_val - min_val == 0 ->
  ScoreCalculator.normalize_answer self (VDict question) answer =
  Ok (py_max 0 (py_min 100 (rescale raw min_val max_val))).
Proof.
  intros Htype Hmin Hmax Hraw Hwidth.
  unfold ScoreCalculator.normalize_answer. simpl.
  rewrite Htype. simpl. unfold py_sub.
  rewrite (to_num_some (VAtom answer) raw Hraw).
  rewrite (to_num_some _ _ Hmin), (to_num_some _ _ Hmax). simpl.
  unfold py_div.
  destruct (Qeq_bool (max_val - min_val) 0) eqn:E.
  - apply Qeq_bool_iff in E. contradiction.
  - reflexivity.
Qed.

Lemma normalize_sleep (answer : scalar) (hours : Q) :
  dict_get question "type" (VStr "boolean") = VStr "number" ->
  dict_lookup question "id" = Some (VStr "sleep_quality") ->
  scalar_num answer = Some hours ->
  ScoreCalculator.normalize_answer self (VDict question) answer =
  Ok (if Qle_bool 8 hours then 100
      else if Qle_bool 6 hours then 70
      else if Qle_bool 5 hours then 50 else 0).
Proof.
  intros Htype Hid Hraw.
  unfold ScoreCalculator.normalize_answer. simpl.
  rewrite Htype. simpl. unfold dict_item. rewrite Hid. simpl.
  rewrite (py_ge_num answer (VNum 8) hours 8 Hraw eq_refl).
  rewrite (py_ge_num answer (VNum 6) hours 6 Hraw eq_refl).
  rewrite (py_ge_num answer (VNum 5) hours 5 Hraw eq_refl).
  simpl. destruct (Qle_bool 8 hours); [reflexivity | ]. simpl.
  destruct (Qle_bool 6 hours); [reflexivity | ]. simpl.
  now destruct (Qle_bool 5 hours).
Qed.

Lemma normalize_other_number (answer : scalar) (id : value) :
  dict_get question "type" (VStr "boolean") = VStr "number" ->
  dict_lookup question "id" = Some id ->
  eq_str id "sleep_quality" = false ->
  ScoreCalculator.normalize_answer self (VDict question) answer = Ok 0.
Proof.
  intros Htype Hid Hother.
  unfold ScoreCalculator.normalize_answer. simpl.
  rewrite Htype. simpl. unfold dict_item. rewrite Hid. simpl.
  now rewrite Hother.
Qed.

End Normalize.

Lemma normalize_range (self : ScoreCalculator.t) (question : value)
    (answer : scalar) (score : Q) :
  ScoreCalculator.normalize_answer self question answer = Ok score ->
  0 <= score /\ score <= 100.
Proof.
  unfold ScoreCalculator.normalize_answer.
  destruct (py_get question "type" (VStr "boolean")) as [q_type | ];
    simpl; [ | discriminate].
  destruct (eq_str q_type "boolean").
  - destruct (py_get question "reverse_score" (VBool false)) as [reverse | ];
      simpl; [ | discriminate].
    destruct (truthy reverse), (scalar_truthy answer);
      intros [= <-]; split; discriminate.
  - destruct (eq_str q_type "scale").
    + destruct (py_get question "min" (VNum 1)); simpl; [ | discriminate].
      destruct (py_get question "max" (VNum 5)); simpl; [ | discriminate].
      destruct (py_sub (VAtom answer) a); simpl; [ | discriminate].
      destruct (py_sub a0 a); simpl; [ | discriminate].
      destruct (py_div a1 a2); simpl; [ | discriminate].
      intros [= <-]. apply py_clamp_bounds.
    + destruct (eq_str q_type "number").
      * destruct (py_item question "id") as [q_id | ]; simpl; [ | discriminate].
        destruct (eq_str q_id "sleep_quality").
        -- destruct (py_ge answer (VNum 8)) as [[ | ] | ]; simpl;
             try discriminate; [intros [= <-]; split; discriminate | ].
           destruct (py_ge answer (VNum 6)) as [[ | ] | ]; simpl;
             try discriminate; [intros [= <-]; split; discriminate | ].
           destruct (py_ge answer (VNum 5)) as [[ | ] | ]; simpl;
             try discriminate; intros [= <-]; split; discriminate.
        -- intros [= <-]; split; discriminate.
      * intros [= <-]; split; discriminate.
Qed.

Lemma eq_str_other (v : value) (s : string) : v <> VStr s -> eq_str v s = false.
Proof.
  intros Hneq. destruct v as [[ | b | q | t] | l | d]; simpl; try reflexivity.
  apply String.eqb_neq. intros ->. now apply Hneq.
Qed.

(** C5. [normalize_answer] returns a score between 0 and 100 whenever it
    returns, and it returns the score of the rule of the question's kind.
    A boolean question gives 100 for true and 0 for false, and 100 minus
    that when [reverse_score] is set.  A scale question with [max > min]
    gives [(raw - min) / (max - min) * 100] clamped to the interval from 0
    to 100, which never decreases when the raw answer grows.  A number
    question gives, for the sleep-hours question, 100 from 8 hours, 70 from
    6, 50 from 5 and 0 below, and 0 for every other question. *)
Theorem normalize_answer_rules
    (self : ScoreCalculator.t) (question : dict value) (answer : scalar) :
  let kind := dict_get question "type" (VStr "boolean") in
  let reverse := truthy (dict_get question "reverse_score" (VBool false)) in
  (forall (spec : value) (score : Q),
     ScoreCalculator.normalize_answer self spec answer = Ok score ->
     0 <= score /\ score <= 100) /\
  (kind = VStr "boolean" ->
   forall b : bool,
     let base := if b then 100 else 0 in
     ScoreCalculator.normalize_answer self (VDict question) (SBool b) =
     Ok (if reverse then 100 - base else base)) /\
  (kind = VStr "scale" ->
   forall raw min_val max_val : Q,
     as_num (dict_get question "min" (VNum 1)) = Some min_val ->
     as_num (dict_get question "max" (VNum 5)) = Some max_val ->
     scalar_num answer = Some raw ->
     min_val < max_val ->
     exists score : Q,
       ScoreCalculator.normalize_answer self (VDict question) answer = Ok score /\
       (rescale raw min_val max_val <= 0 -> score == 0) /\
       (100 <= rescale raw min_val max_val -> score == 100) /\
       (0 <= rescale raw min_val max_val -> rescale raw min_val max_val <= 100 ->
          score == rescale raw min_val max_val) /\
       (forall (answer' : scalar) (raw' : Q),
          scalar_num answer' = Some raw' -> raw <= raw' ->
          exists score' : Q,
            ScoreCalculator.normalize_answer self (VDict question) answer'
              = Ok score' /\
            score <= score')) /\
  (kind = VStr "number" ->
   (dict_lookup question "id" = Some (VStr "sleep_quality") ->
    forall hours : Q,
      scalar_num answer = Some hours ->
      (8 <= hours ->
         ScoreCalculator.normalize_answer self (VDict question) answer = Ok 100) /\
      (6 <= hours -> hours < 8 ->
         ScoreCalculator.normalize_answer self (VDict question) answer = Ok 70) /\
      (5 <= hours -> hours < 6 ->
         ScoreCalculator.normalize_answer self (VDict question) answer = Ok 50) /\
      (hours < 5 ->
         ScoreCalculator.normalize_answer self (VDict question) answer = Ok 0)) /\
   (forall id : value,
      dict_lookup question "id" = Some id ->
      id <> VStr "sleep_quality" ->
      ScoreCalculator.normalize_answer self (VDict question) answer = Ok 0)).
Proof.
  intros kind reverse. split; [ | split; [ | split]].
  - intros spec score. apply normalize_range.
  - intros Hkind b base.
    rewrite (normalize_boolean self question (SBool b) Hkind).
    fold reverse. subst base. simpl. now destruct reverse, b.
  - intros Hkind raw min_val max_val Hmin Hmax Hraw Hwidth.
    assert (Hnz : ~ max_val - min_val == 0) by lra.
    exists (py_max 0 (py_min 100 (rescale raw min_val max_val))).
    split; [ | split; [ | split; [ | split]]].
    + exact (normalize_scale self question answer raw min_val max_val
               Hkind Hmin Hmax Hraw Hnz).
    + apply py_clamp_cases.
    + apply py_clamp_cases.
    + apply py_clamp_cases.
    + intros answer' raw' Hraw' Hle.
      exists (py_max 0 (py_min 100 (rescale raw' min_val max_val))). split.
      * exact (normalize_scale self question answer' raw' min_val max_val
                 Hkind Hmin Hmax Hraw' Hnz).
      * apply py_clamp_monotone. now apply rescale_monotone.
  - intros Hkind. split.
    + intros Hid hours Hraw.
      rewrite (normalize_sleep self question answer hours Hkind Hid Hraw).
      split; [ | split; [ | split]].
      * intros H8. apply Qle_bool_iff in H8. now rewrite H8.
      * intros H6 H8. apply Qle_bool_iff in H6. apply Qle_bool_gt in H8.
        now rewrite H8, H6.
      * intros H5 H6.
        assert (H8 : Qle_bool 8 hours = false) by (apply Qle_bool_gt; lra).
        apply Qle_bool_iff in H5. apply Qle_bool_gt in H6.
        now rewrite H8, H6, H5.
      * intros H5.
        assert (H8 : Qle_bool 8 hours = false) by (apply Qle_bool_gt; lra).
        assert (H6 : Qle_bool 6 hours = false) by (apply Qle_bool_gt; lra).
        apply Qle_bool_gt in H5. now rewrite H8, H6, H5.
    + intros id Hid Hother.
      apply (normalize_other_number self question answer id Hkind Hid).
      now apply eq_str_other.
Qed.

(** The documented scale, [min = 1] and [max = 5]: a raw 3 scores 50, and a
    reversed boolean question scores 0 for true. *)
Lemma normalize_answer_rules_witness :
  (exists score : Q,
     ScoreCalculator.normalize_answer (ScoreCalculator.init Sample.config)
       (Sample.question "mental_state" "Mental state" "scale"
          [("min", VNum 1); ("max", VNum 5); ("weight", VNum 3)]) (SNum 3)
       = Ok score /\
     score == 50) /\
  ScoreCalculator.normalize_answer (ScoreCalculator.init Sample.config)
    (Sample.question "revenge" "Want to win it back" "boolean"
       [("reverse_score", VBool true); ("weight", VNum 1)]) (SBool true)
    = Ok (100 - 100).
Proof.
  split.
  - destruct (normalize_answer_rules (ScoreCalculator.init Sample.config)
                [("id", VStr "mental_state"); ("question", VStr "Mental state");
                 ("type", VStr "scale"); ("min", VNum 1); ("max", VNum 5);
                 ("weight", VNum 3)] (SNum 3))
      as [_ [_ [Hscale _]]].
    destruct (Hscale eq_refl 3 1 5 eq_refl eq_refl eq_refl eq_refl)
      as [score [Hrun [_ [_ [Hmid _]]]]].
    exists score. split; [exact Hrun | ].
    rewrite Hmid; [reflexivity | discriminate | discriminate].
  - destruct (normalize_answer_rules (ScoreCalculator.init Sample.config)
                [("id", VStr "revenge"); ("question", VStr "Want to win it back");
                 ("type", VStr "boolean"); ("reverse_score", VBool true);
                 ("weight", VNum 1)] SNone)
      as [_ [Hbool _]].
    exact (Hbool eq_refl true).
Defined.

(** ** Lot sizing *)



(** What follows of the rounding from the two facts the runtime gives. *)
Section Rounding.

Context `{Runtime}.

Lemma py_round2_cents (x : Q) (cents : Z) :
  x * 100 == inject_Z cents -> py_round2 x = Qred (inject_Z cents / 100).
Proof.
  intros Hx. destruct (py_round2_nearest x) as (c & Hc & Hlow & Hhigh).
  rewrite Hc. rewrite Hx in Hlow, Hhigh.
  assert (Hsame : c = cents).
  { apply Z.le_antisymm.
    - destruct (Z.le_gt_cases c cents) as [Hle | Hgt]; [exact Hle | exfalso].
      assert (Hstep : (cents + 1 <= c)%Z) by lia.
      rewrite Zle_Qle, inject_Z_plus in Hstep.
      change (inject_Z 1) with 1 in Hstep. lra.
    - destruct (Z.le_gt_cases cents c) as [Hle | Hgt]; [exact Hle | exfalso].
      assert (Hstep : (c + 1 <= cents)%Z) by lia.
      rewrite Zle_Qle, inject_Z_plus in Hstep.
      change (inject_Z 1) with 1 in Hstep. lra. }
  now rewrite Hsame.
Qed.


(** A number of at most two decimals is left as it is. *)
Lemma py_round2_two_decimals (x : Q) (cents : Z) :
  x == inject_Z cents / 100 -> py_round2 x == x.
Proof.
  intros Hx.
  assert (Hscaled : x * 100 == inject_Z cents) by (rewrite Hx; field).
  rewrite (py_round2_cents x cents Hscaled), Qred_correct. now symmetry.
Qed.

End Rounding.



(** ** Category scores *)

Lemma py_div_positive (x y : Q) : 0 < y -> py_div x y = Ok (x / y).
Proof.
  intros Hpos. unfold py_div.
  destruct (Qeq_bool y 0) eqn:E; [ | reflexivity].
  apply Qeq_bool_iff in E. lra.
Qed.

Section CategoryLoop.

Variable self : ScoreCalculator.t.
Variable cat : string.
Variable answers : dict scalar.

Lemma category_body_inv (acc acc' : ScoreCalculator.category_acc)
    (question : value) :
  ScoreCalculator.category_body self cat answers acc question = Ok acc' ->
  (answered answers question = false /\ acc' = acc) \/
  (answered answers question = true /\
   exists r : Answer,
     record_of self cat answers question r /\
     acc' =
       {| ScoreCalculator.category_answers :=
            append (ScoreCalculator.category_answers acc) r;
          ScoreCalculator.total_weighted_score :=
            ScoreCalculator.total_weighted_score acc
              + normalized_score r * weight_of r;
          ScoreCalculator.total_weight :=
            ScoreCalculator.total_weight acc + weight_of r |}).
Proof.
  unfold ScoreCalculator.category_body, answered.
  destruct (py_item question "id") as [q_id | ] eqn:Hid; simpl; [ | discriminate].
  destruct q_id as [[ | b | q | key] | l | d]; simpl; try discriminate;
    try (intros [= <-]; left; split; reflexivity).
  destruct (dict_mem answers key) eqn:Hmem; simpl;
    [ | intros [= <-]; left; split; reflexivity].
  destruct (dict_item answers key) as [answer_value | ] eqn:Hanswer;
    simpl; [ | discriminate].
  destruct (ScoreCalculator.normalize_answer self question answer_value)
    as [normalized | ] eqn:Hnorm; simpl; [ | discriminate].
  destruct (py_get question "weight" (VNum 1)) as [wv | ] eqn:Hweight;
    simpl; [ | discriminate].
  destruct (py_item question "question") as [text | ] eqn:Htext;
    simpl; [ | discriminate].
  unfold to_num. destruct (as_num wv) as [w | ] eqn:Hw; simpl; [ | discriminate].
  intros [= <-]. right. split; [reflexivity | ].
  exists {| question_id := VStr key; question_text := text;
            answer := answer_value; category := cat; weight := wv;
            normalized_score := normalized |}.
  unfold record_of, weight_of. simpl. rewrite Hw.
  repeat split; auto; discriminate.
Qed.

Lemma category_loop (questions : list value) :
  forall acc acc' : ScoreCalculator.category_acc,
    for_each questions (ScoreCalculator.category_body self cat answers) acc
      = Ok acc' ->
    exists records : list Answer,
      ScoreCalculator.category_answers acc' =
        (ScoreCalculator.category_answers acc ++ records)%list /\
      Forall2 (record_of self cat answers)
        (filter (answered answers) questions) records /\
      ScoreCalculator.total_weight acc' ==
        ScoreCalculator.total_weight acc + sum_weights records /\
      ScoreCalculator.total_weighted_score acc' ==
        ScoreCalculator.total_weighted_score acc + sum_weighted_scores records.
Proof.
  induction questions as [ | question rest IH]; intros acc acc'; simpl.
  - intros [= <-]. exists []. rewrite app_nil_r.
    repeat split; [constructor | simpl; lra | simpl; lra].
  - destruct (ScoreCalculator.category_body self cat answers acc question)
      as [acc1 | ] eqn:Hbody; simpl; [ | discriminate].
    intros Hrest. destruct (IH acc1 acc' Hrest) as [records [Hrecs [Hall [Hw Hs]]]].
    destruct (category_body_inv acc acc1 question Hbody)
      as [[Hskip ->] | [Hkeep [r [Hrec ->]]]].
    + rewrite Hskip. exists records. repeat split; assumption.
    + rewrite Hkeep. exists (r :: records). simpl in *.
      unfold append in Hrecs. rewrite <- app_assoc in Hrecs. simpl in Hrecs.
      repeat split; [exact Hrecs | now constructor | lra | lra].
Qed.

End CategoryLoop.

Lemma category_score_inv (self : ScoreCalculator.t) (cat : string)
    (answers : dict scalar) (questions : list value) (score : Q)
    (records : list Answer) :
  py_iter (ConfigLoader.get (ScoreCalculator.config self) ["questions"; cat]
             (VList [])) = Ok questions ->
  ScoreCalculator.calculate_category_score self cat answers = Ok (score, records) ->
  Forall2 (record_of self cat answers)
    (filter (answered answers) questions) records /\
  (0 < sum_weights records ->
     score == sum_weighted_scores records / sum_weights records) /\
  (sum_weights records == 0 -> score == 0).
Proof.
  intros Hqs. unfold ScoreCalculator.calculate_category_score.
  rewrite Hqs. simpl.
  destruct (for_each questions _ _) as [acc | ] eqn:Hloop; simpl; [ | discriminate].
  destruct (category_loop self cat answers questions _ acc Hloop)
    as [recs [Hrecs [Hall [Hw Hs]]]].
  simpl in Hrecs, Hw, Hs.
  destruct (Qltb 0 (ScoreCalculator.total_weight acc)) eqn:E;
    [apply Qltb_lt in E; rewrite (py_div_positive _ _ E)
    | apply Qltb_ge in E]; simpl; intros [= <- <-]; rewrite Hrecs;
    (split; [exact Hall | split; intros Hsum]).
  - rewrite Hs, Hw. now rewrite !Qplus_0_l.
  - lra.
  - lra.
  - reflexivity.
Qed.

Lemma eq_str_true (v : value) (s : string) : eq_str v s = true -> v = VStr s.
Proof.
  destruct v as [[ | b | q | t] | l | d]; simpl; try discriminate.
  intros E. apply String.eqb_eq in E. now subst.
Qed.

Lemma normalize_total (self : ScoreCalculator.t) (question : dict value)
    (key : string) (a : scalar) :
  dict_lookup question "id" = Some (VStr key) ->
  well_typed_answer question a ->
  exists score : Q,
    ScoreCalculator.normalize_answer self (VDict question) a = Ok score.
Proof.
  intros Hid [Hscale Hnumber].
  destruct (eq_str (dict_get question "type" (VStr "boolean")) "boolean") eqn:Eb.
  { apply eq_str_true in Eb. eexists.
    apply (normalize_boolean self question a Eb). }
  destruct (eq_str (dict_get question "type" (VStr "boolean")) "scale") eqn:Es.
  { apply eq_str_true in Es.
    destruct (Hscale Es) as [min_val [max_val [Hmin [Hmax [Hwidth Hraw]]]]].
    destruct (scalar_num a) as [raw | ] eqn:Ea; [ | contradiction].
    eexists.
    apply (normalize_scale self question a raw min_val max_val
             Es Hmin Hmax Ea Hwidth). }
  destruct (eq_str (dict_get question "type" (VStr "boolean")) "number") eqn:En.
  { apply eq_str_true in En.
    destruct (String.eqb key "sleep_quality") eqn:Ek.
    - apply String.eqb_eq in Ek. subst key.
      specialize (Hnumber En Hid).
      destruct (scalar_num a) as [raw | ] eqn:Ea; [ | contradiction].
      eexists. apply (normalize_sleep self question a raw En Hid Ea).
    - exists 0.
      apply (normalize_other_number self question a (VStr key) En Hid).
      exact Ek. }
  exists 0. unfold ScoreCalculator.normalize_answer. simpl.
  now rewrite Eb, Es, En.
Qed.

Section CategoryTotal.

Variable self : ScoreCalculator.t.
Variable cat : string.
Variable answers : dict scalar.

Lemma category_body_total (acc : ScoreCalculator.category_acc)
    (question : value) :
  well_formed_question answers question ->
  exists acc' : ScoreCalculator.category_acc,
    ScoreCalculator.category_body self cat answers acc question = Ok acc'.
Proof.
  intros [d [key [-> [Hid Hanswered]]]].
  unfold ScoreCalculator.category_body. simpl.
  unfold dict_item at 1. rewrite Hid. simpl. unfold dict_mem, dict_item at 1.
  destruct (dict_lookup answers key) as [a | ] eqn:Ha; simpl;
    [ | eexists; reflexivity].
  destruct (Hanswered a eq_refl) as [Htext [Hweight Htyped]].
  destruct (normalize_total self d key a Hid Htyped) as [score ->]. simpl.
  unfold dict_item. destruct (dict_lookup d "question"); [ | contradiction].
  simpl. unfold to_num.
  destruct (as_num (dict_get d "weight" (VNum 1))); [ | contradiction].
  simpl. eexists; reflexivity.
Qed.

Lemma category_loop_total (questions : list value) :
  Forall (well_formed_question answers) questions ->
  forall acc : ScoreCalculator.category_acc,
  exists acc' : ScoreCalculator.category_acc,
    for_each questions (ScoreCalculator.category_body self cat answers) acc
      = Ok acc'.
Proof.
  induction 1 as [ | question rest Hq _ IH]; intros acc; simpl.
  - eexists; reflexivity.
  - destruct (category_body_total acc question Hq) as [acc1 ->]. simpl.
    apply IH.
Qed.

Lemma category_score_total (questions : list value) :
  py_iter (ConfigLoader.get (ScoreCalculator.config self) ["questions"; cat]
             (VList [])) = Ok questions ->
  Forall (well_formed_question answers) questions ->
  exists (score : Q) (records : list Answer),
    ScoreCalculator.calculate_category_score self cat answers
      = Ok (score, records).
Proof.
  intros Hqs Hwf. unfold ScoreCalculator.calculate_category_score.
  rewrite Hqs. simpl.
  destruct (category_loop_total questions Hwf
              {| ScoreCalculator.category_answers := [];
                 ScoreCalculator.total_weighted_score := 0;
                 ScoreCalculator.total_weight := 0 |}) as [acc ->].
  simpl.
  destruct (Qltb 0 (ScoreCalculator.total_weight acc)) eqn:E.
  - apply Qltb_lt in E. rewrite (py_div_positive _ _ E). simpl.
    eexists; eexists; reflexivity.
  - simpl. eexists; eexists; reflexivity.
Qed.

End CategoryTotal.

(** ** Final score *)

Section FinalScore.

Variable self : ScoreCalculator.t.
Variable answers : dict scalar.

Lemma final_body_inv (weights : value) (acc acc' : ScoreCalculator.final_acc)
    (cat : string) :
  ScoreCalculator.final_body self weights answers acc cat = Ok acc' ->
  exists (score : Q) (records : list Answer) (table : dict value) (w : Q),
    ScoreCalculator.calculate_category_score self cat answers
      = Ok (score, records) /\
    weights = VDict table /\
    as_num (dict_get table cat (VNum 0)) = Some w /\
    acc' =
      {| ScoreCalculator.category_scores :=
           dict_set (ScoreCalculator.category_scores acc) cat score;
         ScoreCalculator.all_answers :=
           (ScoreCalculator.all_answers acc ++ records)%list;
         ScoreCalculator.final_weighted_score :=
           ScoreCalculator.final_weighted_score acc + score * w;
         ScoreCalculator.final_weight :=
           ScoreCalculator.final_weight acc + w |}.
Proof.
  unfold ScoreCalculator.final_body.
  destruct (ScoreCalculator.calculate_category_score self cat answers)
    as [[score records] | ]; simpl; [ | discriminate].
  destruct weights as [a | l | table]; simpl; try discriminate.
  unfold to_num.
  destruct (as_num (dict_get table cat (VNum 0))) as [w | ] eqn:Hw;
    simpl; [ | discriminate].
  intros [= <-]. exists score, records, table, w. repeat split. exact Hw.
Qed.

Lemma final_body_total (table : dict value) (acc : ScoreCalculator.final_acc)
    (cat : string) (score w : Q) (records : list Answer) :
  ScoreCalculator.calculate_category_score self cat answers
    = Ok (score, records) ->
  as_num (dict_get table cat (VNum 0)) = Some w ->
  ScoreCalculator.final_body self (VDict table) answers acc cat =
  Ok {| ScoreCalculator.category_scores :=
          dict_set (ScoreCalculator.category_scores acc) cat score;
        ScoreCalculator.all_answers :=
          (ScoreCalculator.all_answers acc ++ records)%list;
        ScoreCalculator.final_weighted_score :=
          ScoreCalculator.final_weighted_score acc + score * w;
        ScoreCalculator.final_weight :=
          ScoreCalculator.final_weight acc + w |}.
Proof.
  intros Hcat Hw. unfold ScoreCalculator.final_body.
  rewrite Hcat. simpl. unfold to_num. now rewrite Hw.
Qed.

Lemma final_score_inv (final : Q) (scores : dict Q) (records : list Answer) :
  ScoreCalculator.calculate_final_score self answers
    = Ok (final, scores, records) ->
  exists (table : dict value) (s1 s2 s3 w1 w2 w3 : Q)
         (r1 r2 r3 : list Answer),
    ConfigLoader.get (ScoreCalculator.config self) ["scoring"; "weights"]
      (VDict []) = VDict table /\
    as_num (dict_get table "psychology" (VNum 0)) = Some w1 /\
    as_num (dict_get table "market_conditions" (VNum 0)) = Some w2 /\
    as_num (dict_get table "technical_confluence" (VNum 0)) = Some w3 /\
    ScoreCalculator.calculate_category_score self "psychology" answers
      = Ok (s1, r1) /\
    ScoreCalculator.calculate_category_score self "market_conditions" answers
      = Ok (s2, r2) /\
    ScoreCalculator.calculate_category_score self "technical_confluence" answers
      = Ok (s3, r3) /\
    scores = [("psychology", s1); ("market_conditions", s2);
              ("technical_confluence", s3)] /\
    records = (r1 ++ r2 ++ r3)%list /\
    (0 < w1 + w2 + w3 ->
       final == (s1 * w1 + s2 * w2 + s3 * w3) / (w1 + w2 + w3)) /\
    (w1 + w2 + w3 <= 0 -> final = 0).
Proof.
  unfold ScoreCalculator.calculate_final_score, ScoreCalculator.categories.
  set (weights := ConfigLoader.get (ScoreCalculator.config self)
                    ["scoring"; "weights"] (VDict [])).
  set (acc0 := {| ScoreCalculator.category_scores := [];
                  ScoreCalculator.all_answers := [];
                  ScoreCalculator.final_weighted_score := 0;
                  ScoreCalculator.final_weight := 0 |}).
  cbn [for_each].
  destruct (ScoreCalculator.final_body self weights answers acc0 "psychology")
    as [acc1 | ] eqn:H1; [ | discriminate].
  cbn [bind].
  destruct (ScoreCalculator.final_body self weights answers acc1
              "market_conditions") as [acc2 | ] eqn:H2; [ | discriminate].
  cbn [bind].
  destruct (ScoreCalculator.final_body self weights answers acc2
              "technical_confluence") as [acc3 | ] eqn:H3; [ | discriminate].
  cbn [bind].
  destruct (final_body_inv _ _ _ _ H1) as [s1 [r1 [table [w1 [C1 [Ht [W1 ->]]]]]]].
  destruct (final_body_inv _ _ _ _ H2) as [s2 [r2 [table2 [w2 [C2 [Ht2 [W2 ->]]]]]]].
  destruct (final_body_inv _ _ _ _ H3) as [s3 [r3 [table3 [w3 [C3 [Ht3 [W3 ->]]]]]]].
  rewrite Ht in Ht2, Ht3. injection Ht2 as <-. injection Ht3 as <-.
  cbn [ScoreCalculator.final_weight ScoreCalculator.final_weighted_score
       ScoreCalculator.category_scores ScoreCalculator.all_answers acc0].
  intros Hfinal.
  exists table, s1, s2, s3, w1, w2, w3, r1, r2, r3.
  split; [exact Ht | ].
  split; [exact W1 | split; [exact W2 | split; [exact W3 | ]]].
  split; [exact C1 | split; [exact C2 | split; [exact C3 | ]]].
  destruct (Qltb 0 (0 + w1 + w2 + w3)) eqn:E;
    [apply Qltb_lt in E; rewrite (py_div_positive _ _ E) in Hfinal
    | apply Qltb_ge in E]; cbn [bind] in Hfinal;
    injection Hfinal as <- <- <-.
  - split; [reflexivity | ]. split; [now rewrite <- app_assoc | ].
    split; intros Hsum; [ | lra].
    assert (Hnum : 0 + s1 * w1 + s2 * w2 + s3 * w3 == s1 * w1 + s2 * w2 + s3 * w3)
      by ring.
    assert (Hden : 0 + w1 + w2 + w3 == w1 + w2 + w3) by ring.
    now rewrite Hnum, Hden.
  - split; [reflexivity | ]. split; [now rewrite <- app_assoc | ].
    split; intros Hsum; [lra | reflexivity].
Qed.

Lemma final_score_total (table : dict value) (s1 s2 s3 w1 w2 w3 : Q)
    (r1 r2 r3 : list Answer) :
  ConfigLoader.get (ScoreCalculator.config self) ["scoring"; "weights"]
    (VDict []) = VDict table ->
  as_num (dict_get table "psychology" (VNum 0)) = Some w1 ->
  as_num (dict_get table "market_conditions" (VNum 0)) = Some w2 ->
  as_num (dict_get table "technical_confluence" (VNum 0)) = Some w3 ->
  ScoreCalculator.calculate_category_score self "psychology" answers
    = Ok (s1, r1) ->
  ScoreCalculator.calculate_category_score self "market_conditions" answers
    = Ok (s2, r2) ->
  ScoreCalculator.calculate_category_score self "technical_confluence" answers
    = Ok (s3, r3) ->
  exists final : Q,
    ScoreCalculator.calculate_final_score self answers =
    Ok (final,
        [("psychology", s1); ("market_conditions", s2);
         ("technical_confluence", s3)],
        (r1 ++ r2 ++ r3)%list).
Proof.
  intros Ht W1 W2 W3 C1 C2 C3.
  unfold ScoreCalculator.calculate_final_score, ScoreCalculator.categories.
  rewrite Ht. cbn [for_each].
  rewrite (final_body_total table _ _ s1 w1 r1 C1 W1). cbn [bind].
  rewrite (final_body_total table _ _ s2 w2 r2 C2 W2). cbn [bind].
  rewrite (final_body_total table _ _ s3 w3 r3 C3 W3). cbn [bind].
  cbn [ScoreCalculator.final_weight ScoreCalculator.final_weighted_score
       ScoreCalculator.category_scores ScoreCalculator.all_answers].
  destruct (Qltb 0 (0 + w1 + w2 + w3)) eqn:E.
  - apply Qltb_lt in E. rewrite (py_div_positive _ _ E). cbn [bind].
    eexists. simpl. now rewrite <- app_assoc.
  - cbn [bind]. eexists. simpl. now rewrite <- app_assoc.
Qed.

End FinalScore.

(** C6. For a category whose configured questions can be iterated,
    [calculate_category_score], when it returns, returns the records of
    exactly the configured questions that [answers] has an answer to, in
    order (a question without an answer is skipped and gets no record), each
    with the normalised score and weight of its question, and the score is
    the weighted mean [sum (normalized * weight) / sum weight] of these
    records when the total weight is positive and 0 when it is 0; on
    questions of the documented shape it does return, so no division by
    zero is ever met.  [calculate_final_score], when it returns, has scored
    the three categories psychology, market_conditions and
    technical_confluence in this order, and its final score is the mean of
    the three category scores under the configured category weights (0 for
    a category without a configured weight) when the total weight is
    positive and 0 otherwise; it returns whenever the three categories can
    be scored and the weights are numeric. *)
Theorem weighted_mean_scores (self : ScoreCalculator.t) (answers : dict scalar) :
  (forall (cat : string) (questions : list value),
     py_iter (ConfigLoader.get (ScoreCalculator.config self) ["questions"; cat]
                (VList [])) = Ok questions ->
     (forall (score : Q) (records : list Answer),
        ScoreCalculator.calculate_category_score self cat answers
          = Ok (score, records) ->
        Forall2 (record_of self cat answers)
          (filter (answered answers) questions) records /\
        (0 < sum_weights records ->
           score == sum_weighted_scores records / sum_weights records) /\
        (sum_weights records == 0 -> score == 0)) /\
     (Forall (well_formed_question answers) questions ->
        exists (score : Q) (records : list Answer),
          ScoreCalculator.calculate_category_score self cat answers
            = Ok (score, records))) /\
  (forall (final : Q) (scores : dict Q) (records : list Answer),
     ScoreCalculator.calculate_final_score self answers
       = Ok (final, scores, records) ->
     exists (table : dict value) (s1 s2 s3 w1 w2 w3 : Q)
            (r1 r2 r3 : list Answer),
       ConfigLoader.get (ScoreCalculator.config self) ["scoring"; "weights"]
         (VDict []) = VDict table /\
       as_num (dict_get table "psychology" (VNum 0)) = Some w1 /\
       as_num (dict_get table "market_conditions" (VNum 0)) = Some w2 /\
       as_num (dict_get table "technical_confluence" (VNum 0)) = Some w3 /\
       ScoreCalculator.calculate_category_score self "psychology" answers
         = Ok (s1, r1) /\
       ScoreCalculator.calculate_category_score self "market_conditions" answers
         = Ok (s2, r2) /\
       ScoreCalculator.calculate_category_score self "technical_confluence"
         answers = Ok (s3, r3) /\
       scores = [("psychology", s1); ("market_conditions", s2);
                 ("technical_confluence", s3)] /\
       records = (r1 ++ r2 ++ r3)%list /\
       (0 < w1 + w2 + w3 ->
          final == (s1 * w1 + s2 * w2 + s3 * w3) / (w1 + w2 + w3)) /\
       (w1 + w2 + w3 <= 0 -> final = 0)) /\
  (forall (table : dict value) (s1 s2 s3 w1 w2 w3 : Q) (r1 r2 r3 : list Answer),
     ConfigLoader.get (ScoreCalculator.config self) ["scoring"; "weights"]
       (VDict []) = VDict table ->
     as_num (dict_get table "psychology" (VNum 0)) = Some w1 ->
     as_num (dict_get table "market_conditions" (VNum 0)) = Some w2 ->
     as_num (dict_get table "technical_confluence" (VNum 0)) = Some w3 ->
     ScoreCalculator.calculate_category_score self "psychology" answers
       = Ok (s1, r1) ->
     ScoreCalculator.calculate_category_score self "market_conditions" answers
       = Ok (s2, r2) ->
     ScoreCalculator.calculate_category_score self "technical_confluence"
       answers = Ok (s3, r3) ->
     exists final : Q,
       ScoreCalculator.calculate_final_score self answers =
       Ok (final,
           [("psychology", s1); ("market_conditions", s2);
            ("technical_confluence", s3)],
           (r1 ++ r2 ++ r3)%list)).
Proof.
  split; [ | split].
  - intros cat questions Hqs. split.
    + intros score records. now apply category_score_inv.
    + now apply category_score_total.
  - intros final scores records Hrun.
    exact (final_score_inv self answers final scores records Hrun).
  - intros table s1 s2 s3 w1 w2 w3 r1 r2 r3.
    apply final_score_total.
Qed.

(** The sample answers: the three psychology questions are answered and
    score 87.5, the mean of their scores 100, 75 and 100 under the weights
    2, 3 and 1. *)
Lemma weighted_mean_scores_witness :
  ScoreCalculator.calculate_category_score
    (ScoreCalculator.init Sample.config) "psychology" Sample.good_answers
    = Ok (Sample.psychology_score, Sample.psychology_records) /\
  length Sample.psychology_records = 3%nat /\
  0 < sum_weights Sample.psychology_records /\
  Sample.psychology_score ==
    sum_weighted_scores Sample.psychology_records
      / sum_weights Sample.psychology_records /\
  Sample.psychology_score == 175 # 2.
Proof.
  assert (Hqs : py_iter (ConfigLoader.get
                           (ScoreCalculator.config
                              (ScoreCalculator.init Sample.config))
                           ["questions"; "psychology"] (VList []))
                = Ok [Sample.question "sleep_quality" "Hours of sleep" "number"
                        [("min", VNum 0); ("max", VNum 12); ("weight", VNum 2)];
                      Sample.question "mental_state" "Mental state" "scale"
                        [("min", VNum 1); ("max", VNum 5); ("weight", VNum 3)];
                      Sample.question "revenge" "Want to win it back" "boolean"
                        [("reverse_score", VBool true); ("weight", VNum 1)]])
    by reflexivity.
  assert (Hrun : ScoreCalculator.calculate_category_score
                   (ScoreCalculator.init Sample.config) "psychology"
                   Sample.good_answers
                 = Ok (Sample.psychology_score, Sample.psychology_records))
    by (vm_compute; reflexivity).
  assert (Hpos : 0 < sum_weights Sample.psychology_records) by reflexivity.
  split; [exact Hrun | ]. split; [reflexivity | ]. split; [exact Hpos | ].
  split; [ | reflexivity].
  exact (proj1 (proj2
           (proj1 (proj1 (weighted_mean_scores
                            (ScoreCalculator.init Sample.config)
                            Sample.good_answers)
                     "psychology" _ Hqs)
              Sample.psychology_score Sample.psychology_records Hrun))
           Hpos).
Defined.

(** * Further properties of the engine *)

(** ** Configuration lookup *)

Lemma get_from_path (keys : list string) :
  forall (node found default : value),
    path_value node keys = Some found ->
    Forall (fun v => v <> VNone) (path_values node keys) ->
    ConfigLoader.get_from node keys default = found.
Proof.
  induction keys as [ | key rest IH]; intros node found default Hpath Hsome;
    simpl in *.
  - now injection Hpath as <-.
  - destruct node as [a | l | d]; try discriminate.
    unfold dict_get. destruct (dict_lookup d key) as [next | ]; [ | discriminate].
    inversion Hsome as [ | ? ? Hnext Hrest]; subst.
    destruct next as [[ | b | q | s] | l | d'];
      try (now contradiction Hnext); now apply IH.
Qed.

Lemma get_from_none_entry (keys : list string) :
  forall (node default : value),
    In VNone (path_values node keys) ->
    ConfigLoader.get_from node keys default = default.
Proof.
  induction keys as [ | key rest IH]; intros node default Hin; simpl in *.
  - contradiction.
  - destruct node as [a | l | d]; try contradiction.
    unfold dict_get. destruct (dict_lookup d key) as [next | ]; [ | contradiction].
    destruct Hin as [-> | Hin]; [reflexivity | ].
    destruct next as [[ | b | q | s] | l | d']; try reflexivity;
      now apply IH.
Qed.

(** X1. [get] returns the object at the end of a path of keys when every
    key is found and no object on the way, the last one included, is
    [None]; in particular a stored 0, [False] or empty string is returned
    and not replaced by the default.  An entry that is [None] anywhere on
    the way makes [get] return the default. *)
Theorem config_get_follows_path
    (cfg : ConfigLoader.t) (keys : list string) (default : value) :
  (forall found : value,
     path_value (ConfigLoader.config cfg) keys = Some found ->
     Forall (fun v => v <> VNone) (path_values (ConfigLoader.config cfg) keys) ->
     ConfigLoader.get cfg keys default = found) /\
  (In VNone (path_values (ConfigLoader.config cfg) keys) ->
     ConfigLoader.get cfg keys default = default).
Proof.
  split.
  - intros found. apply get_from_path.
  - apply get_from_none_entry.
Qed.

Lemma config_get_follows_path_witness :
  ConfigLoader.get Sample.config ["scoring"; "thresholds"; "no_trade"] (VNum 0)
    = VNum 50 /\
  ConfigLoader.get
    {| ConfigLoader.config_path := "config.yaml";
       ConfigLoader.config :=
         VDict [("coach", VDict [("days_inactive_warning", VNone)])] |}
    ["coach"; "days_inactive_warning"] (VNum 3) = VNum 3.
Proof.
  split.
  - apply (proj1 (config_get_follows_path Sample.config
                    ["scoring"; "thresholds"; "no_trade"] (VNum 0)));
      [reflexivity | ].
    repeat constructor; discriminate.
  - apply (proj2 (config_get_follows_path
                    {| ConfigLoader.config_path := "config.yaml";
                       ConfigLoader.config :=
                         VDict [("coach",
                                 VDict [("days_inactive_warning", VNone)])] |}
                    ["coach"; "days_inactive_warning"] (VNum 3))).
    simpl. right. left. reflexivity.
Defined.

(** ** The hard-stop gate: limits, missing statistics, passing *)

Lemma py_ge_None (a : scalar) : py_ge a VNone = Raise TypeError.
Proof. now destruct a as [ | [ | ] | q | s]. Qed.

Lemma py_lt_None (a : scalar) : py_lt a VNone = Raise TypeError.
Proof. now destruct a as [ | [ | ] | q | s]. Qed.

(** X2. The gate cannot run without its four numeric limits: when one of
    [max_consecutive_losses], [max_daily_loss_percent], [min_sleep_hours]
    and [psychology_min_score] is not configured, [evaluate] raises for
    every answers and statistics, and it is a [TypeError] when the first of
    them is the one missing. *)
Theorem gate_raises_without_limit `{Runtime}
    (self : HardStopEvaluator.t) (answers stats : dict scalar) (name : string) :
  In name ["max_consecutive_losses"; "max_daily_loss_percent";
           "min_sleep_hours"; "psychology_min_score"] ->
  path_defined (ConfigLoader.config (HardStopEvaluator.config self))
    ["hard_stops"; name] = false ->
  (exists e : exn, HardStopEvaluator.evaluate self answers stats = Raise e) /\
  (name = "max_consecutive_losses" ->
     HardStopEvaluator.evaluate self answers stats = Raise TypeError).
Proof.
  intros Hname Hmissing.
  assert (Hnone : ConfigLoader.get (HardStopEvaluator.config self)
                    ["hard_stops"; name] VNone = VNone)
    by (unfold ConfigLoader.get; now apply get_from_undefined).
  unfold HardStopEvaluator.evaluate.
  destruct Hname as [<- | [<- | [<- | [<- | []]]]]; rewrite Hnone.
  - rewrite py_ge_None. simpl. split; [eexists; reflexivity | reflexivity].
  - split; [ | discriminate].
    destruct (py_ge (dict_get stats "consecutive_losses" (SNum 0)) _)
      as [[ | ] | ]; simpl; try (eexists; reflexivity);
      [destruct (dict_item stats "consecutive_losses"); simpl;
         try (eexists; reflexivity) | ];
      rewrite py_ge_None; simpl; eexists; reflexivity.
  - split; [ | discriminate].
    destruct (py_ge (dict_get stats "consecutive_losses" (SNum 0)) _)
      as [[ | ] | ]; simpl; try (eexists; reflexivity);
      [destruct (dict_item stats "consecutive_losses"); simpl;
         try (eexists; reflexivity) | ];
      (destruct (py_ge (dict_get stats "daily_loss_percent" (SNum 0)) _)
         as [[ | ] | ]; simpl; try (eexists; reflexivity);
       [destruct (dict_item stats "daily_loss_percent"); simpl;
          try (eexists; reflexivity) | ];
       rewrite py_lt_None; simpl; eexists; reflexivity).
  - split; [ | discriminate].
    destruct (py_ge (dict_get stats "consecutive_losses" (SNum 0)) _)
      as [[ | ] | ]; simpl; try (eexists; reflexivity);
      [destruct (dict_item stats "consecutive_losses"); simpl;
         try (eexists; reflexivity) | ];
      (destruct (py_ge (dict_get stats "daily_loss_percent" (SNum 0)) _)
         as [[ | ] | ]; simpl; try (eexists; reflexivity);
       [destruct (dict_item stats "daily_loss_percent"); simpl;
          try (eexists; reflexivity) | ];
       (destruct (py_lt (dict_get answers "sleep_quality" (SNum 0)) _)
          as [hit | ]; simpl; try (eexists; reflexivity);
        rewrite py_lt_None; simpl; eexists; reflexivity)).
Qed.

Lemma gate_raises_without_limit_witness :
  @HardStopEvaluator.evaluate Sample.runtime
    (HardStopEvaluator.init
       {| ConfigLoader.config_path := "config.yaml";
          ConfigLoader.config := VDict [("scoring", VDict [])] |})
    Sample.good_answers Sample.good_stats = Raise TypeError.
Proof.
  apply (@gate_raises_without_limit Sample.runtime
           (HardStopEvaluator.init
              {| ConfigLoader.config_path := "config.yaml";
                 ConfigLoader.config := VDict [("scoring", VDict [])] |})
           Sample.good_answers Sample.good_stats "max_consecutive_losses");
    [left; reflexivity | reflexivity | reflexivity].
Defined.

Lemma missing_item {A : Type} (d : dict A) (key : string) :
  dict_lookup d key = None -> dict_item d key = Raise (KeyError key).
Proof. unfold dict_item. now intros ->. Qed.

Lemma missing_get {A : Type} (d : dict A) (key : string) (default : A) :
  dict_lookup d key = None -> dict_get d key default = default.
Proof. unfold dict_get. now intros ->. Qed.

(** X3. A statistic that is not supplied makes the gate raise [KeyError]
    as soon as its numeric limit is 0 or less: the defaulted value 0
    reaches the limit, and the failure line reads the statistic itself.
    This holds for [consecutive_losses] whatever else is supplied, and for
    [daily_loss_percent] when the consecutive-losses check went through. *)
Theorem gate_missing_statistic_raises `{Runtime}
    (self : HardStopEvaluator.t) (answers stats : dict scalar) :
  let limit := fun name : string =>
    ConfigLoader.get (HardStopEvaluator.config self) ["hard_stops"; name] VNone in
  (forall max_losses : Q,
     as_num (limit "max_consecutive_losses") = Some max_losses ->
     dict_lookup stats "consecutive_losses" = None ->
     max_losses <= 0 ->
     HardStopEvaluator.evaluate self answers stats
       = Raise (KeyError "consecutive_losses")) /\
  (forall (max_losses n_losses max_daily_loss : Q) (losses : scalar),
     as_num (limit "max_consecutive_losses") = Some max_losses ->
     dict_lookup stats "consecutive_losses" = Some losses ->
     scalar_num losses = Some n_losses ->
     as_num (limit "max_daily_loss_percent") = Some max_daily_loss ->
     dict_lookup stats "daily_loss_percent" = None ->
     max_daily_loss <= 0 ->
     HardStopEvaluator.evaluate self answers stats
       = Raise (KeyError "daily_loss_percent")).
Proof.
  intros limit. split.
  - intros max_losses Hlimit Hmissing Hle.
    unfold HardStopEvaluator.evaluate. fold (limit "max_consecutive_losses").
    rewrite (missing_get stats _ (SNum 0) Hmissing).
    rewrite (py_ge_num (SNum 0) _ 0 max_losses eq_refl Hlimit).
    apply Qle_bool_iff in Hle. rewrite Hle. simpl.
    now rewrite (missing_item stats _ Hmissing).
  - intros max_losses n_losses max_daily_loss losses
      Hlimit Hlosses Hnum Hlimit2 Hmissing Hle.
    unfold HardStopEvaluator.evaluate.
    fold (limit "max_consecutive_losses") (limit "max_daily_loss_percent").
    assert (Hget : dict_get stats "consecutive_losses" (SNum 0) = losses)
      by (unfold dict_get; now rewrite Hlosses).
    rewrite Hget.
    rewrite (py_ge_num losses _ n_losses max_losses Hnum Hlimit).
    unfold dict_item at 1. rewrite Hlosses.
    rewrite (missing_get stats _ (SNum 0) Hmissing).
    rewrite (py_ge_num (SNum 0) _ 0 max_daily_loss eq_refl Hlimit2).
    apply Qle_bool_iff in Hle. rewrite Hle.
    rewrite (missing_item stats _ Hmissing).
    now destruct (Qle_bool max_losses n_losses).
Qed.

Lemma gate_missing_statistic_raises_witness :
  @HardStopEvaluator.evaluate Sample.runtime
    (HardStopEvaluator.init
       {| ConfigLoader.config_path := "config.yaml";
          ConfigLoader.config := Sample.zero_tolerance |})
    [] [] = Raise (KeyError "consecutive_losses").
Proof.
  assert (Hle : 0 <= 0) by discriminate.
  exact (proj1 (@gate_missing_statistic_raises Sample.runtime
                  (HardStopEvaluator.init
                     {| ConfigLoader.config_path := "config.yaml";
                        ConfigLoader.config := Sample.zero_tolerance |})
                  [] [])
           0 eq_refl eq_refl Hle).
Defined.

(** X4. With numeric limits and numeric (or missing, hence defaulted)
    statistics and answers, the gate returns a passed outcome exactly when
    no condition holds: losses and daily loss below their limits, sleep and
    mental state at or above theirs, and a clear bias unless none is
    required. *)
Theorem gate_passes_iff `{Runtime}
    (self : HardStopEvaluator.t) (answers stats : dict scalar)
    (max_losses max_daily_loss min_sleep min_psych_score : Q)
    (n_losses n_daily_loss n_sleep n_mental : Q) :
  let limit := fun name : string =>
    ConfigLoader.get (HardStopEvaluator.config self) ["hard_stops"; name] VNone in
  as_num (limit "max_consecutive_losses") = Some max_losses ->
  as_num (limit "max_daily_loss_percent") = Some max_daily_loss ->
  as_num (limit "min_sleep_hours") = Some min_sleep ->
  as_num (limit "psychology_min_score") = Some min_psych_score ->
  scalar_num (dict_get stats "consecutive_losses" (SNum 0)) = Some n_losses ->
  scalar_num (dict_get stats "daily_loss_percent" (SNum 0)) = Some n_daily_loss ->
  scalar_num (dict_get answers "sleep_quality" (SNum 0)) = Some n_sleep ->
  scalar_num (dict_get answers "mental_state" (SNum 0)) = Some n_mental ->
  ((exists r : HardStopResult,
      HardStopEvaluator.evaluate self answers stats = Ok r /\ passed r = true)
   <->
   n_losses < max_losses /\ n_daily_loss < max_daily_loss /\
   min_sleep <= n_sleep /\ min_psych_score <= n_mental /\
   (truthy (limit "require_clear_bias") = false \/
    scalar_truthy (dict_get answers "clear_bias" (SBool false)) = true)).
Proof.
  intros limit H1 H2 H3 H4 H5 H6 H7 H8.
  unfold HardStopEvaluator.evaluate.
  fold (limit "max_consecutive_losses") (limit "max_daily_loss_percent")
    (limit "min_sleep_hours") (limit "psychology_min_score")
    (limit "require_clear_bias").
  rewrite (py_ge_num _ _ _ _ H5 H1), (py_ge_num _ _ _ _ H6 H2),
    (py_lt_nums _ _ _ _ H7 H3), (py_lt_nums _ _ _ _ H8 H4).
  destruct (Qle_bool max_losses n_losses) eqn:E1;
    [apply Qle_bool_iff in E1 | apply Qle_bool_gt in E1];
    (destruct (Qle_bool max_daily_loss n_daily_loss) eqn:E2;
     [apply Qle_bool_iff in E2 | apply Qle_bool_gt in E2]);
    (destruct (Qltb n_sleep min_sleep) eqn:E3;
     [apply Qltb_lt in E3 | apply Qltb_ge in E3]);
    (destruct (Qltb n_mental min_psych_score) eqn:E4;
     [apply Qltb_lt in E4 | apply Qltb_ge in E4]);
    destruct (truthy (limit "require_clear_bias")) eqn:E5;
    destruct (scalar_truthy (dict_get answers "clear_bias" (SBool false))) eqn:E6;
    destruct (dict_item stats "consecutive_losses");
    destruct (dict_item stats "daily_loss_percent");
    simpl;
    (split;
     [ intros [r [Hr Hp]]; try discriminate Hr;
       injection Hr as <-; simpl in Hp; try discriminate Hp;
       repeat split; auto
     | intros [C1 [C2 [C3 [C4 C5]]]]; try lra;
       try (destruct C5; discriminate);
       eexists; split; reflexivity ]).
Qed.

Lemma gate_passes_iff_witness :
  exists r : HardStopResult,
    @HardStopEvaluator.evaluate Sample.runtime
      (HardStopEvaluator.init Sample.config)
      Sample.good_answers Sample.good_stats = Ok r /\
    passed r = true.
Proof.
  apply (proj2 (@gate_passes_iff Sample.runtime
                  (HardStopEvaluator.init Sample.config)
                  Sample.good_answers Sample.good_stats 3 5 5 3 2 1 8 4
                  eq_refl eq_refl eq_refl eq_refl
                  eq_refl eq_refl eq_refl eq_refl)).
  repeat split; try reflexivity; try discriminate.
  right. reflexivity.
Defined.

(** ** Normalisation: errors and defaults *)

(** X5. [normalize_answer] raises [AttributeError] on a question that is
    not a dictionary, [ZeroDivisionError] on a scale question whose [min]
    and [max] coincide, [TypeError] on a scale question answered with
    something that is not a number, and [KeyError] on a number question
    without an [id]. *)
Theorem normalize_answer_errors
    (self : ScoreCalculator.t) (question : dict value) (answer : scalar) :
  let kind := dict_get question "type" (VStr "boolean") in
  (forall spec : value,
     (forall d : dict value, spec <> VDict d) ->
     ScoreCalculator.normalize_answer self spec answer = Raise AttributeError) /\
  (kind = VStr "scale" ->
   forall raw min_val max_val : Q,
     as_num (dict_get question "min" (VNum 1)) = Some min_val ->
     as_num (dict_get question "max" (VNum 5)) = Some max_val ->
     scalar_num answer = Some raw ->
     max_val == min_val ->
     ScoreCalculator.normalize_answer self (VDict question) answer
       = Raise ZeroDivisionError) /\
  (kind = VStr "scale" ->
   scalar_num answer = None ->
   ScoreCalculator.normalize_answer self (VDict question) answer
     = Raise TypeError) /\
  (kind = VStr "number" ->
   dict_lookup question "id" = None ->
   ScoreCalculator.normalize_answer self (VDict question) answer
     = Raise (KeyError "id")).
Proof.
  intros kind. split; [ | split; [ | split]].
  - intros spec Hspec. destruct spec as [a | l | d]; try reflexivity.
    now contradiction (Hspec d).
  - intros Hkind raw min_val max_val Hmin Hmax Hraw Hwidth.
    unfold ScoreCalculator.normalize_answer. simpl. fold kind.
    rewrite Hkind. simpl. unfold py_sub.
    rewrite (to_num_some (VAtom answer) raw Hraw).
    rewrite (to_num_some _ _ Hmin), (to_num_some _ _ Hmax). simpl.
    unfold py_div.
    assert (E : Qeq_bool (max_val - min_val) 0 = true)
      by (apply Qeq_bool_iff; lra).
    now rewrite E.
  - intros Hkind Hraw.
    unfold ScoreCalculator.normalize_answer. simpl. fold kind.
    rewrite Hkind. simpl. unfold py_sub, to_num. simpl. now rewrite Hraw.
  - intros Hkind Hid.
    unfold ScoreCalculator.normalize_answer. simpl. fold kind.
    rewrite Hkind. simpl. unfold dict_item. now rewrite Hid.
Qed.

Lemma normalize_answer_errors_witness :
  ScoreCalculator.normalize_answer (ScoreCalculator.init Sample.config)
    (VDict [("id", VStr "focus"); ("type", VStr "scale");
            ("min", VNum 3); ("max", VNum 3)]) (SNum 3)
  = Raise ZeroDivisionError.
Proof.
  assert (Hwidth : 3 == 3) by reflexivity.
  exact (proj1 (proj2 (normalize_answer_errors
                         (ScoreCalculator.init Sample.config)
                         [("id", VStr "focus"); ("type", VStr "scale");
                          ("min", VNum 3); ("max", VNum 3)] (SNum 3)))
           eq_refl 3 3 3 eq_refl eq_refl eq_refl Hwidth).
Defined.

(** X6. A question without a [type] is scored as a boolean question, and a
    question whose [type] is none of boolean, scale and number scores 0
    whatever the answer. *)
Theorem normalize_answer_default_kind
    (self : ScoreCalculator.t) (question : dict value) (answer : scalar) :
  (dict_lookup question "type" = None ->
   ScoreCalculator.normalize_answer self (VDict question) answer =
   Ok (if truthy (dict_get question "reverse_score" (VBool false))
       then (if scalar_truthy answer then 0 else 100)
       else (if scalar_truthy answer then 100 else 0))) /\
  (forall kind : value,
     dict_lookup question "type" = Some kind ->
     kind <> VStr "boolean" -> kind <> VStr "scale" -> kind <> VStr "number" ->
     ScoreCalculator.normalize_answer self (VDict question) answer = Ok 0).
Proof.
  split.
  - intros Htype. apply normalize_boolean.
    unfold dict_get. now rewrite Htype.
  - intros kind Htype Hb Hs Hn.
    assert (Hkind : dict_get question "type" (VStr "boolean") = kind)
      by (unfold dict_get; now rewrite Htype).
    unfold ScoreCalculator.normalize_answer, py_get at 1. cbn [bind].
    rewrite Hkind.
    rewrite (eq_str_other kind "boolean" Hb), (eq_str_other kind "scale" Hs),
      (eq_str_other kind "number" Hn).
    reflexivity.
Qed.

Lemma normalize_answer_default_kind_witness :
  ScoreCalculator.normalize_answer (ScoreCalculator.init Sample.config)
    (VDict [("id", VStr "plan"); ("question", VStr "Plan written")])
    (SBool true) = Ok 100 /\
  ScoreCalculator.normalize_answer (ScoreCalculator.init Sample.config)
    (VDict [("id", VStr "mood"); ("type", VStr "text")]) (SStr "calm") = Ok 0.
Proof.
  split.
  - exact (proj1 (normalize_answer_default_kind
                    (ScoreCalculator.init Sample.config)
                    [("id", VStr "plan"); ("question", VStr "Plan written")]
                    (SBool true)) eq_refl).
  - apply (proj2 (normalize_answer_default_kind
                    (ScoreCalculator.init Sample.config)
                    [("id", VStr "mood"); ("type", VStr "text")]
                    (SStr "calm")) (VStr "text") eq_refl); discriminate.
Defined.

(** ** Scores are never negative *)

Lemma records_normalized (self : ScoreCalculator.t) (cat : string)
    (answers : dict scalar) (questions : list value) (records : list Answer) :
  Forall2 (record_of self cat answers) questions records ->
  Forall (fun r => 0 <= normalized_score r /\ normalized_score r <= 100) records.
Proof.
  induction 1 as [ | question r questions records Hrec _ IH]; constructor.
  - destruct Hrec as [_ [_ [_ [_ [_ [_ Hnorm]]]]]].
    exact (normalize_range self question (answer r) (normalized_score r) Hnorm).
  - exact IH.
Qed.

Lemma weighted_sum_bounds (records : list Answer) :
  Forall (fun r => 0 <= normalized_score r /\ normalized_score r <= 100) records ->
  (forall r : Answer, In r records -> 0 <= weight_of r) ->
  0 <= sum_weights records /\ 0 <= sum_weighted_scores records.
Proof.
  induction 1 as [ | r records [Hlo Hhi] _ IH]; intros Hweights; simpl.
  - split; lra.
  - assert (Hw : 0 <= weight_of r) by (apply Hweights; now left).
    destruct IH as [IH1 IH2];
      [intros r' Hin; apply Hweights; now right | ].
    assert (H1 : 0 <= normalized_score r * weight_of r)
      by now apply Qmult_le_0_compat.
    split; lra.
Qed.

Lemma category_score_iterates (self : ScoreCalculator.t) (cat : string)
    (answers : dict scalar) (result : Q * list Answer) :
  ScoreCalculator.calculate_category_score self cat answers = Ok result ->
  exists questions : list value,
    py_iter (ConfigLoader.get (ScoreCalculator.config self) ["questions"; cat]
               (VList [])) = Ok questions.
Proof.
  unfold ScoreCalculator.calculate_category_score.
  destruct (py_iter _) as [questions | ]; simpl; [ | discriminate].
  intros _. now exists questions.
Qed.

Lemma mean_not_negative (total weights : Q) :
  0 < weights -> 0 <= total -> 0 <= total / weights.
Proof.
  intros Hpos Hlo. apply Qle_shift_div_l; [exact Hpos | lra].
Qed.

Lemma category_score_lower (self : ScoreCalculator.t) (cat : string)
    (answers : dict scalar) (score : Q) (records : list Answer) :
  ScoreCalculator.calculate_category_score self cat answers
    = Ok (score, records) ->
  (forall r : Answer, In r records -> 0 <= weight_of r) ->
  0 <= score.
Proof.
  intros Hrun Hweights.
  destruct (category_score_iterates self cat answers _ Hrun) as [questions Hqs].
  destruct (category_score_inv self cat answers questions score records Hqs Hrun)
    as [Hrecords [Hmean Hzero]].
  destruct (weighted_sum_bounds records
              (records_normalized self cat answers _ records Hrecords) Hweights)
    as [Hw Hlo].
  destruct (Qlt_le_dec 0 (sum_weights records)) as [Hpos | Hnone].
  - rewrite (Hmean Hpos). now apply mean_not_negative.
  - assert (Hsum : sum_weights records == 0) by lra.
    rewrite (Hzero Hsum). lra.
Qed.

Lemma no_weight (records : list Answer) :
  (forall r : Answer, In r records -> weight_of r == 0) ->
  sum_weights records == 0.
Proof.
  induction records as [ | r rest IH]; intros Hnone; simpl; [reflexivity | ].
  rewrite (Hnone r (or_introl eq_refl)), IH; [lra | ].
  intros r' Hin. apply Hnone. now right.
Qed.

(** X7. A category score that is returned is never negative when the
    weights of the answered questions are not negative, and it is 0 when
    these weights are all 0. *)
Theorem category_score_not_negative (self : ScoreCalculator.t) (cat : string)
    (answers : dict scalar) (score : Q) (records : list Answer) :
  ScoreCalculator.calculate_category_score self cat answers
    = Ok (score, records) ->
  ((forall r : Answer, In r records -> 0 <= weight_of r) -> 0 <= score) /\
  ((forall r : Answer, In r records -> weight_of r == 0) -> score = 0).
Proof.
  intros Hrun. split.
  - intros Hweights.
    exact (category_score_lower self cat answers score records
             Hrun Hweights).
  - intros Hnone. pose proof (no_weight records Hnone) as Hsum. revert Hrun.
    unfold ScoreCalculator.calculate_category_score.
    destruct (py_iter _) as [questions | ]; simpl; [ | discriminate].
    destruct (for_each questions _ _) as [acc | ] eqn:Hloop;
      simpl; [ | discriminate].
    destruct (category_loop self cat answers questions _ acc Hloop)
      as [recs [Hrecs [_ [Hw _]]]].
    simpl in Hrecs, Hw.
    destruct (Qltb 0 (ScoreCalculator.total_weight acc)) eqn:E.
    + apply Qltb_lt in E. rewrite (py_div_positive _ _ E). simpl.
      intros [= _ <-]. rewrite Hrecs in Hsum. lra.
    + simpl. now intros [= <- _].
Qed.

Lemma category_score_not_negative_witness :
  0 <= Sample.psychology_score.
Proof.
  assert (Hrun : ScoreCalculator.calculate_category_score
                   (ScoreCalculator.init Sample.config) "psychology"
                   Sample.good_answers
                 = Ok (Sample.psychology_score, Sample.psychology_records))
    by (vm_compute; reflexivity).
  apply (proj1 (category_score_not_negative
                  (ScoreCalculator.init Sample.config)
                  "psychology" Sample.good_answers Sample.psychology_score
                  Sample.psychology_records Hrun)).
  intros r [<- | [<- | [<- | []]]]; discriminate.
Defined.

(** X8. A final score that is returned is never negative, and neither is
    any of the three category scores returned with it, when neither the
    weights of the answered questions nor the configured category weights
    are negative. *)
Theorem final_score_not_negative (self : ScoreCalculator.t)
    (answers : dict scalar) (final : Q) (scores : dict Q)
    (records : list Answer) :
  ScoreCalculator.calculate_final_score self answers
    = Ok (final, scores, records) ->
  (forall r : Answer, In r records -> 0 <= weight_of r) ->
  (forall (table : dict value) (cat : string) (w : Q),
     ConfigLoader.get (ScoreCalculator.config self) ["scoring"; "weights"]
       (VDict []) = VDict table ->
     as_num (dict_get table cat (VNum 0)) = Some w -> 0 <= w) ->
  0 <= final /\
  (forall (cat : string) (score : Q), In (cat, score) scores -> 0 <= score).
Proof.
  intros Hrun Hweights Hcats.
  destruct (final_score_inv self answers final scores records Hrun)
    as (table & s1 & s2 & s3 & w1 & w2 & w3 & r1 & r2 & r3
        & Ht & W1 & W2 & W3 & C1 & C2 & C3 & Hscores & Hrecords & Hmean & Hzero).
  subst scores records.
  assert (B1 : 0 <= s1).
  { apply (category_score_lower self _ answers s1 r1 C1).
    intros r Hin. apply Hweights. apply in_or_app. now left. }
  assert (B2 : 0 <= s2).
  { apply (category_score_lower self _ answers s2 r2 C2).
    intros r Hin. apply Hweights. apply in_or_app. right.
    apply in_or_app. now left. }
  assert (B3 : 0 <= s3).
  { apply (category_score_lower self _ answers s3 r3 C3).
    intros r Hin. apply Hweights. apply in_or_app. right.
    apply in_or_app. now right. }
  assert (P1 : 0 <= w1) by exact (Hcats table _ w1 Ht W1).
  assert (P2 : 0 <= w2) by exact (Hcats table _ w2 Ht W2).
  assert (P3 : 0 <= w3) by exact (Hcats table _ w3 Ht W3).
  split.
  - destruct (Qlt_le_dec 0 (w1 + w2 + w3)) as [Hpos | Hnone].
    + rewrite (Hmean Hpos).
      assert (0 <= s1 * w1) by now apply Qmult_le_0_compat.
      assert (0 <= s2 * w2) by now apply Qmult_le_0_compat.
      assert (0 <= s3 * w3) by now apply Qmult_le_0_compat.
      apply Qle_shift_div_l; [exact Hpos | lra].
    + rewrite (Hzero Hnone). lra.
  - intros cat score [[= <- <-] | [[= <- <-] | [[= <- <-] | []]]]; assumption.
Qed.

Lemma final_score_not_negative_witness :
  0 <= fst (fst Sample.scored).
Proof.
  assert (Hrun : ScoreCalculator.calculate_final_score
                   (ScoreCalculator.init Sample.config) Sample.good_answers
                 = Ok (fst (fst Sample.scored), snd (fst Sample.scored),
                       snd Sample.scored))
    by (vm_compute; reflexivity).
  assert (Hweights : forall r : Answer,
            In r (snd Sample.scored) -> 0 <= weight_of r).
  { intros r [<- | [<- | [<- | [<- | [<- | [<- | [<- | []]]]]]]];
      discriminate. }
  assert (Hcats : forall (table : dict value) (cat : string) (w : Q),
            ConfigLoader.get
              (ScoreCalculator.config (ScoreCalculator.init Sample.config))
              ["scoring"; "weights"] (VDict []) = VDict table ->
            as_num (dict_get table cat (VNum 0)) = Some w -> 0 <= w).
  { intros table cat w Htable. injection Htable as <-.
    unfold dict_get. cbn [dict_lookup].
    destruct (String.eqb "psychology" cat);
      [intros [= <-]; discriminate | ].
    destruct (String.eqb "market_conditions" cat);
      [intros [= <-]; discriminate | ].
    destruct (String.eqb "technical_confluence" cat);
      intros [= <-]; discriminate. }
  exact (proj1 (final_score_not_negative (ScoreCalculator.init Sample.config)
                  Sample.good_answers _ _ _ Hrun Hweights Hcats)).
Defined.

(** ** Unanswered questions *)

Lemma unanswered_body (self : ScoreCalculator.t) (cat : string)
    (answers : dict scalar) (acc : ScoreCalculator.category_acc)
    (question id : value) :
  py_item question "id" = Ok id ->
  (forall l : list value, id <> VList l) ->
  (forall d : dict value, id <> VDict d) ->
  answered answers question = false ->
  ScoreCalculator.category_body self cat answers acc question = Ok acc.
Proof.
  intros Hid Hlist Hdict Hun.
  unfold ScoreCalculator.category_body. unfold answered in Hun.
  rewrite Hid in *. simpl.
  destruct id as [[ | b | q | key] | l | d]; simpl; try reflexivity.
  - now rewrite Hun.
  - now contradiction (Hlist l).
  - now contradiction (Hdict d).
Qed.

(** X9. When none of the configured questions of a category is answered
    (each having an [id] that is not a list or a dictionary), and in
    particular for an empty dictionary of answers, the category score is 0
    and there are no records: unanswered questions are skipped, with no
    default answer and no error. *)
Theorem category_score_unanswered (self : ScoreCalculator.t) (cat : string)
    (answers : dict scalar) (questions : list value) :
  py_iter (ConfigLoader.get (ScoreCalculator.config self) ["questions"; cat]
             (VList [])) = Ok questions ->
  Forall (fun question =>
            exists id : value,
              py_item question "id" = Ok id /\
              (forall l : list value, id <> VList l) /\
              (forall d : dict value, id <> VDict d)) questions ->
  (forall question : value,
     In question questions -> answered answers question = false) ->
  ScoreCalculator.calculate_category_score self cat answers = Ok (0, []).
Proof.
  intros Hqs Hids Hun.
  unfold ScoreCalculator.calculate_category_score. rewrite Hqs. simpl.
  assert (Hloop : forall acc : ScoreCalculator.category_acc,
            for_each questions (ScoreCalculator.category_body self cat answers)
              acc = Ok acc).
  { clear Hqs. induction Hids as [ | question rest [id [Hid [Hl Hd]]] _ IH];
      intros acc; simpl; [reflexivity | ].
    rewrite (unanswered_body self cat answers acc question id Hid Hl Hd)
      by (apply Hun; now left).
    simpl. apply IH. intros q Hin. apply Hun. now right. }
  rewrite Hloop. reflexivity.
Qed.

Lemma category_score_unanswered_witness :
  ScoreCalculator.calculate_category_score
    (ScoreCalculator.init Sample.config) "psychology" [] = Ok (0, []).
Proof.
  apply (category_score_unanswered (ScoreCalculator.init Sample.config)
           "psychology" []
           [Sample.question "sleep_quality" "Hours of sleep" "number"
              [("min", VNum 0); ("max", VNum 12); ("weight", VNum 2)];
            Sample.question "mental_state" "Mental state" "scale"
              [("min", VNum 1); ("max", VNum 5); ("weight", VNum 3)];
            Sample.question "revenge" "Want to win it back" "boolean"
              [("reverse_score", VBool true); ("weight", VNum 1)]]
           eq_refl).
  - repeat constructor;
      eexists; (split; [reflexivity | split; discriminate]).
  - intros question [<- | [<- | [<- | []]]]; reflexivity.
Defined.

(** ** Risk tiers: outcomes, order, misconfigured cutoffs *)

(** X10. [decide_risk] returns one of (False, 0.0), (True, 2.0) and
    (True, 3.0) whenever it returns, so it refuses the trade exactly when
    the risk is 0; and with numeric cutoffs [no_trade <= risk_2_percent] a
    higher score never gets a lower risk, nor a refusal after an approval. *)
Theorem decide_risk_outcomes_ordered (self : RiskDecisionMaker.t) :
  (forall (final_score : Q) (decision : bool * Q),
     RiskDecisionMaker.decide_risk self final_score = Ok decision ->
     decision = (false, 0) \/ decision = (true, 2) \/ decision = (true, 3)) /\
  (forall (thresholds : dict value) (no_trade risk_2_percent : Q),
     ConfigLoader.get (RiskDecisionMaker.config self) ["scoring"; "thresholds"]
       (VDict []) = VDict thresholds ->
     dict_get thresholds "no_trade" (VNum 50) = VNum no_trade ->
     dict_get thresholds "risk_2_percent" (VNum 70) = VNum risk_2_percent ->
     no_trade <= risk_2_percent ->
     forall lower higher : Q,
       lower <= higher ->
       exists (trade trade' : bool) (risk risk' : Q),
         RiskDecisionMaker.decide_risk self lower = Ok (trade, risk) /\
         RiskDecisionMaker.decide_risk self higher = Ok (trade', risk') /\
         risk <= risk' /\
         (trade = true -> trade' = true)).
Proof.
  split.
  - intros final_score decision. unfold RiskDecisionMaker.decide_risk.
    destruct (py_get _ "no_trade" _) as [no_trade | ];
      cbn [bind]; [ | discriminate].
    destruct (py_get _ "risk_2_percent" _) as [risk_2 | ];
      cbn [bind]; [ | discriminate].
    destruct (py_lt (SNum final_score) no_trade) as [[ | ] | ];
      cbn [bind]; try discriminate; [intros [= <-]; now left | ].
    destruct (py_lt (SNum final_score) risk_2) as [[ | ] | ];
      cbn [bind]; try discriminate; intros [= <-]; auto.
  - intros thresholds no_trade risk_2_percent Hcfg Hnt Hr2 Hord lower higher Hle.
    rewrite !(decide_risk_eq self thresholds no_trade risk_2_percent Hcfg Hnt Hr2).
    destruct (Qltb lower no_trade) eqn:L1;
      [apply Qltb_lt in L1 | apply Qltb_ge in L1];
      (destruct (Qltb lower risk_2_percent) eqn:L2;
       [apply Qltb_lt in L2 | apply Qltb_ge in L2]);
      (destruct (Qltb higher no_trade) eqn:H1;
       [apply Qltb_lt in H1 | apply Qltb_ge in H1]);
      (destruct (Qltb higher risk_2_percent) eqn:H2;
       [apply Qltb_lt in H2 | apply Qltb_ge in H2]);
      try lra;
      do 4 eexists; (split; [reflexivity | split; [reflexivity | ]]);
      (split; [discriminate | auto]).
Qed.

Lemma decide_risk_outcomes_ordered_witness :
  exists (trade trade' : bool) (risk risk' : Q),
    RiskDecisionMaker.decide_risk (RiskDecisionMaker.init Sample.config) 55
      = Ok (trade, risk) /\
    RiskDecisionMaker.decide_risk (RiskDecisionMaker.init Sample.config) 90
      = Ok (trade', risk') /\
    risk <= risk' /\
    (trade = true -> trade' = true).
Proof.
  assert (Hord : 50 <= 70) by discriminate.
  assert (Hle : 55 <= 90) by discriminate.
  exact (proj2 (decide_risk_outcomes_ordered
                  (RiskDecisionMaker.init Sample.config))
           [("no_trade", VNum 50); ("risk_2_percent", VNum 70)] 50 70
           eq_refl eq_refl eq_refl Hord 55 90 Hle).
Defined.

(** X11. Cutoffs configured in the wrong order leave no 2% tier: when
    [risk_2_percent <= no_trade], every score below [no_trade] is refused
    and every other score gets 3%. *)
Theorem decide_risk_inverted_cutoffs
    (self : RiskDecisionMaker.t) (thresholds : dict value)
    (no_trade risk_2_percent final_score : Q) :
  ConfigLoader.get (RiskDecisionMaker.config self) ["scoring"; "thresholds"]
    (VDict []) = VDict thresholds ->
  dict_get thresholds "no_trade" (VNum 50) = VNum no_trade ->
  dict_get thresholds "risk_2_percent" (VNum 70) = VNum risk_2_percent ->
  risk_2_percent <= no_trade ->
  (final_score < no_trade ->
     RiskDecisionMaker.decide_risk self final_score = Ok (false, 0)) /\
  (no_trade <= final_score ->
     RiskDecisionMaker.decide_risk self final_score = Ok (true, 3)).
Proof.
  intros Hcfg Hnt Hr2 Hord.
  rewrite (decide_risk_eq self thresholds no_trade risk_2_percent Hcfg Hnt Hr2).
  split.
  - intros Hlt. apply Qltb_lt in Hlt. now rewrite Hlt.
  - intros Hge.
    assert (Hge2 : risk_2_percent <= final_score) by lra.
    apply Qltb_ge in Hge, Hge2. now rewrite Hge, Hge2.
Qed.

Lemma decide_risk_inverted_cutoffs_witness :
  RiskDecisionMaker.decide_risk
    (RiskDecisionMaker.init
       {| ConfigLoader.config_path := "config.yaml";
          ConfigLoader.config :=
            VDict [("scoring",
                    VDict [("thresholds",
                            VDict [("no_trade", VNum 70);
                                   ("risk_2_percent", VNum 50)])])] |})
    70 = Ok (true, 3).
Proof.
  assert (Hord : 50 <= 70) by discriminate.
  assert (Hge : 70 <= 70) by discriminate.
  exact (proj2 (decide_risk_inverted_cutoffs
                  (RiskDecisionMaker.init
                     {| ConfigLoader.config_path := "config.yaml";
                        ConfigLoader.config :=
                          VDict [("scoring",
                                  VDict [("thresholds",
                                          VDict [("no_trade", VNum 70);
                                                 ("risk_2_percent", VNum 50)])])] |})
                  [("no_trade", VNum 70); ("risk_2_percent", VNum 50)]
                  70 50 70 eq_refl eq_refl eq_refl Hord) Hge).
Defined.

(** ** Lot sizing: limits, order, errors *)

Ltac Qltb_cases :=
  repeat match goal with
    | |- context [if Qltb ?a ?b then _ else _] =>
        let E := fresh "E" in
        destruct (Qltb a b) eqn:E;
        [apply Qltb_lt in E | apply Qltb_ge in E]
    | H : context [if Qltb ?a ?b then _ else _] |- _ =>
        let E := fresh "E" in
        destruct (Qltb a b) eqn:E;
        [apply Qltb_lt in E | apply Qltb_ge in E]
    end.

Lemma py_clamp_within (x lo hi : Q) :
  lo <= hi -> lo <= py_max lo (py_min hi x) /\ py_max lo (py_min hi x) <= hi.
Proof.
  intros Hord. unfold py_max, py_min. Qltb_cases; split; lra.
Qed.

Lemma py_clamp_order (x y lo hi : Q) :
  x <= y -> py_max lo (py_min hi x) <= py_max lo (py_min hi y).
Proof.
  intros Hle. unfold py_max, py_min. Qltb_cases; lra.
Qed.

Section LotSize.

Context `{Runtime}.
Variable self : RiskDecisionMaker.t.
Variable pip_values : dict value.
Variables pip_value min_lot max_lot : Q.
Variable instrument : string.

Hypothesis configured_pips :
  ConfigLoader.get (RiskDecisionMaker.config self)
    ["lot_calculation"; "pip_values"] (VDict []) = VDict pip_values.
Hypothesis pip_value_num :
  as_num (dict_get pip_values (str_upper instrument) (VNum 10)) = Some pip_value.
Hypothesis min_lot_num :
  as_num (ConfigLoader.get (RiskDecisionMaker.config self)
            ["lot_calculation"; "min_lot_size"] (VNum (1 # 100))) = Some min_lot.
Hypothesis max_lot_num :
  as_num (ConfigLoader.get (RiskDecisionMaker.config self)
            ["lot_calculation"; "max_lot_size"] (VNum 10)) = Some max_lot.

Lemma lot_size_run (risk_percent balance sl_pips : Q) :
  ~ sl_pips * pip_value == 0 ->
  RiskDecisionMaker.calculate_lot_size self risk_percent
    (SNum balance) (SNum sl_pips) (SStr instrument) =
  Ok (py_round2
        (py_max min_lot
           (py_min max_lot
              (balance * (risk_percent / 100) / (sl_pips * pip_value))))).
Proof.
  intros Hnz. unfold RiskDecisionMaker.calculate_lot_size.
  rewrite configured_pips. simpl.
  rewrite (to_num_some _ _ pip_value_num). simpl.
  unfold py_div.
  destruct (Qeq_bool (sl_pips * pip_value) 0) eqn:E.
  - apply Qeq_bool_iff in E. contradiction.
  - simpl. rewrite (to_num_some _ _ max_lot_num). simpl.
    now rewrite (to_num_some _ _ min_lot_num).
Qed.

Lemma lot_size_zero_divisor (risk_percent balance sl_pips : Q) :
  sl_pips * pip_value == 0 ->
  RiskDecisionMaker.calculate_lot_size self risk_percent
    (SNum balance) (SNum sl_pips) (SStr instrument) = Raise ZeroDivisionError.
Proof.
  intros Hz. unfold RiskDecisionMaker.calculate_lot_size.
  rewrite configured_pips. simpl.
  rewrite (to_num_some _ _ pip_value_num). simpl.
  unfold py_div. apply Qeq_bool_iff in Hz. now rewrite Hz.
Qed.

End LotSize.

Lemma to_num_inv (v : value) (q : Q) : to_num v = Ok q -> as_num v = Some q.
Proof. unfold to_num. destruct (as_num v); now intros [= <-]. Qed.

Lemma lot_size_rounded_limits `{Runtime}
    (self : RiskDecisionMaker.t) (risk_percent : Q)
    (balance sl_pips pair : scalar) (min_lot max_lot size : Q) :
  as_num (ConfigLoader.get (RiskDecisionMaker.config self)
            ["lot_calculation"; "min_lot_size"] (VNum (1 # 100))) = Some min_lot ->
  as_num (ConfigLoader.get (RiskDecisionMaker.config self)
            ["lot_calculation"; "max_lot_size"] (VNum 10)) = Some max_lot ->
  min_lot <= max_lot ->
  RiskDecisionMaker.calculate_lot_size self risk_percent balance sl_pips pair
    = Ok size ->
  py_round2 min_lot <= size /\ size <= py_round2 max_lot.
Proof.
  intros Hmin Hmax Hord. unfold RiskDecisionMaker.calculate_lot_size.
  destruct (py_upper pair) as [instrument | ]; cbn [bind]; [ | discriminate].
  destruct (py_get _ instrument _) as [pip | ]; cbn [bind]; [ | discriminate].
  destruct (to_num (VAtom balance)) as [b | ]; cbn [bind]; [ | discriminate].
  destruct (to_num (VAtom sl_pips)) as [sl | ]; cbn [bind]; [ | discriminate].
  destruct (to_num pip) as [pv | ]; cbn [bind]; [ | discriminate].
  destruct (py_div _ _) as [lot | ]; cbn [bind]; [ | discriminate].
  rewrite (to_num_some _ _ Hmax), (to_num_some _ _ Hmin). cbn [bind].
  intros [= <-].
  destruct (py_clamp_within lot min_lot max_lot Hord) as [Hlo Hhi].
  split; now apply py_round2_monotone.
Qed.

(** X12. A lot size that is returned lies between the configured limits
    [min_lot <= max_lot] rounded to 2 decimals, whatever the balance, stop
    and instrument; it lies between the limits themselves when these have
    at most two decimals. *)
Theorem lot_size_within_limits `{Runtime}
    (self : RiskDecisionMaker.t) (risk_percent : Q)
    (balance sl_pips pair : scalar) (min_lot max_lot size : Q) :
  as_num (ConfigLoader.get (RiskDecisionMaker.config self)
            ["lot_calculation"; "min_lot_size"] (VNum (1 # 100))) = Some min_lot ->
  as_num (ConfigLoader.get (RiskDecisionMaker.config self)
            ["lot_calculation"; "max_lot_size"] (VNum 10)) = Some max_lot ->
  min_lot <= max_lot ->
  RiskDecisionMaker.calculate_lot_size self risk_percent balance sl_pips pair
    = Ok size ->
  (py_round2 min_lot <= size /\ size <= py_round2 max_lot) /\
  (forall low high : Z,
     min_lot == inject_Z low / 100 -> max_lot == inject_Z high / 100 ->
     min_lot <= size /\ size <= max_lot).
Proof.
  intros Hmin Hmax Hord Hrun.
  pose proof (lot_size_rounded_limits self risk_percent balance sl_pips pair
                min_lot max_lot size Hmin Hmax Hord Hrun) as Hrounded.
  split; [exact Hrounded | ].
  intros low high Hlow Hhigh.
  pose proof (py_round2_two_decimals min_lot low Hlow) as Rlow.
  pose proof (py_round2_two_decimals max_lot high Hhigh) as Rhigh.
  destruct Hrounded as [Rlo Rhi]. split; lra.
Qed.

Lemma lot_size_within_limits_witness :
  1 # 100 <= 3 # 2 /\ 3 # 2 <= 10.
Proof.
  assert (Hord : 1 # 100 <= 10) by discriminate.
  assert (Hrun : @RiskDecisionMaker.calculate_lot_size Sample.runtime
                   (RiskDecisionMaker.init Sample.config) 3
                   (SNum 10000) (SNum 20) (SStr "EURUSD") = Ok (3 # 2))
    by reflexivity.
  assert (Hlow : 1 # 100 == inject_Z 1 / 100) by reflexivity.
  assert (Hhigh : 10 == inject_Z 1000 / 100) by reflexivity.
  exact (proj2 (@lot_size_within_limits Sample.runtime
                  (RiskDecisionMaker.init Sample.config)
                  3 (SNum 10000) (SNum 20) (SStr "EURUSD") (1 # 100) 10 (3 # 2)
                  eq_refl eq_refl Hord Hrun) 1%Z 1000%Z Hlow Hhigh).
Defined.

Lemma Qdiv_le_divisor (a c d : Q) :
  0 <= a -> 0 < c -> c <= d -> a / d <= a / c.
Proof.
  intros Ha Hc Hcd.
  apply Qle_shift_div_l; [exact Hc | ].
  assert (Heq : a / d * c == a * c / d) by (field; lra).
  rewrite Heq.
  apply Qle_shift_div_r; [lra | ].
  rewrite (Qmult_comm a c), (Qmult_comm a d).
  now apply Qmult_le_compat_r.
Qed.

(** X13. With a positive pip value and positive stops, the lot size never
    decreases when the balance grows and never increases when the stop
    widens, for a risk percentage and balance that are not negative. *)
Theorem lot_size_order `{Runtime}
    (self : RiskDecisionMaker.t) (pip_values : dict value)
    (pip_value min_lot max_lot risk_percent : Q) (instrument : string) :
  ConfigLoader.get (RiskDecisionMaker.config self)
    ["lot_calculation"; "pip_values"] (VDict []) = VDict pip_values ->
  as_num (dict_get pip_values (str_upper instrument) (VNum 10)) = Some pip_value ->
  as_num (ConfigLoader.get (RiskDecisionMaker.config self)
            ["lot_calculation"; "min_lot_size"] (VNum (1 # 100))) = Some min_lot ->
  as_num (ConfigLoader.get (RiskDecisionMaker.config self)
            ["lot_calculation"; "max_lot_size"] (VNum 10)) = Some max_lot ->
  0 < pip_value ->
  0 <= risk_percent ->
  (forall balance balance' sl_pips : Q,
     0 < sl_pips -> balance <= balance' ->
     exists size size' : Q,
       RiskDecisionMaker.calculate_lot_size self risk_percent
         (SNum balance) (SNum sl_pips) (SStr instrument) = Ok size /\
       RiskDecisionMaker.calculate_lot_size self risk_percent
         (SNum balance') (SNum sl_pips) (SStr instrument) = Ok size' /\
       size <= size') /\
  (forall balance sl_pips sl_pips' : Q,
     0 <= balance -> 0 < sl_pips -> sl_pips <= sl_pips' ->
     exists size size' : Q,
       RiskDecisionMaker.calculate_lot_size self risk_percent
         (SNum balance) (SNum sl_pips) (SStr instrument) = Ok size /\
       RiskDecisionMaker.calculate_lot_size self risk_percent
         (SNum balance) (SNum sl_pips') (SStr instrument) = Ok size' /\
       size' <= size).
Proof.
  intros Hpips Hpip Hmin Hmax Hpv Hrp.
  assert (Hshare : 0 <= risk_percent / 100)
    by (apply Qle_shift_div_l; [reflexivity | lra]).
  split.
  - intros balance balance' sl_pips Hsl Hle.
    assert (Hden : 0 < sl_pips * pip_value) by now apply Qmult_lt_0_compat.
    assert (Hnz : ~ sl_pips * pip_value == 0) by lra.
    do 2 eexists.
    split; [exact (lot_size_run self pip_values pip_value min_lot max_lot
                     instrument Hpips Hpip Hmin Hmax risk_percent balance
                     sl_pips Hnz) | ].
    split; [exact (lot_size_run self pip_values pip_value min_lot max_lot
                     instrument Hpips Hpip Hmin Hmax risk_percent balance'
                     sl_pips Hnz) | ].
    apply py_round2_monotone, py_clamp_order.
    unfold Qdiv at 1 3. apply Qmult_le_compat_r.
    + now apply Qmult_le_compat_r.
    + apply Qlt_le_weak. now apply Qinv_lt_0_compat.
  - intros balance sl_pips sl_pips' Hb Hsl Hle.
    assert (Hden : 0 < sl_pips * pip_value) by now apply Qmult_lt_0_compat.
    assert (Hsl' : 0 < sl_pips') by lra.
    assert (Hden' : 0 < sl_pips' * pip_value) by now apply Qmult_lt_0_compat.
    assert (Hnz : ~ sl_pips * pip_value == 0) by lra.
    assert (Hnz' : ~ sl_pips' * pip_value == 0) by lra.
    do 2 eexists.
    split; [exact (lot_size_run self pip_values pip_value min_lot max_lot
                     instrument Hpips Hpip Hmin Hmax risk_percent balance
                     sl_pips Hnz) | ].
    split; [exact (lot_size_run self pip_values pip_value min_lot max_lot
                     instrument Hpips Hpip Hmin Hmax risk_percent balance
                     sl_pips' Hnz') | ].
    apply py_round2_monotone, py_clamp_order.
    apply Qdiv_le_divisor.
    + now apply Qmult_le_0_compat.
    + exact Hden.
    + apply Qmult_le_compat_r; [exact Hle | now apply Qlt_le_weak].
Qed.

Lemma lot_size_order_witness :
  exists size size' : Q,
    @RiskDecisionMaker.calculate_lot_size Sample.runtime
      (RiskDecisionMaker.init Sample.config)
      3 (SNum 10000) (SNum 20) (SStr "EURUSD") = Ok size /\
    @RiskDecisionMaker.calculate_lot_size Sample.runtime
      (RiskDecisionMaker.init Sample.config)
      3 (SNum 20000) (SNum 20) (SStr "EURUSD") = Ok size' /\
    size <= size'.
Proof.
  assert (Hpv : 0 < 10) by reflexivity.
  assert (Hrp : 0 <= 3) by discriminate.
  assert (Hsl : 0 < 20) by reflexivity.
  assert (Hle : 10000 <= 20000) by discriminate.
  exact (proj1 (@lot_size_order Sample.runtime
                  (RiskDecisionMaker.init Sample.config)
                  [("EURUSD", VNum 10); ("USDJPY", VNum 9)] 10 (1 # 100) 10 3
                  "EURUSD" eq_refl eq_refl eq_refl eq_refl Hpv Hrp)
           10000 20000 20 Hsl Hle).
Defined.

(** X14. [calculate_lot_size] raises [AttributeError] when the pair is not
    a string, and [ZeroDivisionError] when the stop or the configured pip
    value of the instrument is 0. *)
Theorem lot_size_errors `{Runtime}
    (self : RiskDecisionMaker.t) (risk_percent : Q) (balance sl_pips : scalar) :
  (forall pair : scalar,
     (forall s : string, pair <> SStr s) ->
     RiskDecisionMaker.calculate_lot_size self risk_percent balance sl_pips pair
       = Raise AttributeError) /\
  (forall (pip_values : dict value) (instrument : string) (b sl pip_value : Q),
     ConfigLoader.get (RiskDecisionMaker.config self)
       ["lot_calculation"; "pip_values"] (VDict []) = VDict pip_values ->
     as_num (dict_get pip_values (str_upper instrument) (VNum 10))
       = Some pip_value ->
     balance = SNum b -> sl_pips = SNum sl ->
     sl == 0 \/ pip_value == 0 ->
     RiskDecisionMaker.calculate_lot_size self risk_percent balance sl_pips
       (SStr instrument) = Raise ZeroDivisionError).
Proof.
  split.
  - intros pair Hpair. unfold RiskDecisionMaker.calculate_lot_size.
    destruct pair as [ | b | q | s]; try reflexivity.
    now contradiction (Hpair s).
  - intros pip_values instrument b sl pip_value Hpips Hpip -> -> Hzero.
    unfold RiskDecisionMaker.calculate_lot_size.
    rewrite Hpips. simpl. rewrite (to_num_some _ _ Hpip). simpl.
    unfold py_div.
    assert (Hz : Qeq_bool (sl * pip_value) 0 = true).
    { apply Qeq_bool_iff. destruct Hzero as [-> | ->]; ring. }
    now rewrite Hz.
Qed.

Lemma lot_size_errors_witness :
  @RiskDecisionMaker.calculate_lot_size Sample.runtime
    (RiskDecisionMaker.init Sample.config)
    3 (SNum 10000) (SNum 0) (SStr "EURUSD") = Raise ZeroDivisionError.
Proof.
  assert (Hzero : 0 == 0 \/ 10 == 0) by (left; reflexivity).
  exact (proj2 (@lot_size_errors Sample.runtime
                  (RiskDecisionMaker.init Sample.config)
                  3 (SNum 10000) (SNum 0))
           [("EURUSD", VNum 10); ("USDJPY", VNum 9)] "EURUSD" 10000 0 10
           eq_refl eq_refl eq_refl eq_refl Hzero).
Defined.

(** ** The pipeline: what a decision guarantees *)

Lemma decide_risk_forms (self : RiskDecisionMaker.t) (final_score : Q)
    (trade : bool) (risk : Q) :
  RiskDecisionMaker.decide_risk self final_score = Ok (trade, risk) ->
  (trade, risk) = (false, 0) \/ (trade, risk) = (true, 2) \/
  (trade, risk) = (true, 3).
Proof.
  unfold RiskDecisionMaker.decide_risk.
  destruct (py_get _ "no_trade" _) as [no_trade | ];
    cbn [bind]; [ | discriminate].
  destruct (py_get _ "risk_2_percent" _) as [risk_2 | ];
    cbn [bind]; [ | discriminate].
  destruct (py_lt (SNum final_score) no_trade) as [[ | ] | ];
    cbn [bind]; try discriminate; [intros [= <- <-]; now left | ].
  destruct (py_lt (SNum final_score) risk_2) as [[ | ] | ];
    cbn [bind]; try discriminate; intros [= <- <-]; auto.
Qed.

(** X15. Every decision that [evaluate] returns carries the outcome of the
    hard-stop evaluation of its answers and statistics, approves a trade
    only if that outcome passed, pairs refusal with a risk of 0 and
    approval with a risk of 2 or 3, and is stamped with the one clock
    reading the call makes. *)
Theorem evaluate_decision_invariants `{Runtime} (self : RiskAssistant.t)
    (answers stats : dict scalar) (balance sl_pips pair : scalar)
    (w w' : world) (d : RiskDecision) :
  RiskAssistant.evaluate self answers stats balance sl_pips pair w = (Ok d, w') ->
  HardStopEvaluator.evaluate (RiskAssistant.hard_stop_evaluator self)
    answers stats = Ok (hard_stop_result d) /\
  (should_trade d = true -> passed (hard_stop_result d) = true) /\
  ((should_trade d, risk_percent d) = (false, 0) \/
   (should_trade d, risk_percent d) = (true, 2) \/
   (should_trade d, risk_percent d) = (true, 3)) /\
  timestamp d = isoformat_now (clock w) /\
  clock w' = S (clock w).
Proof.
  unfold RiskAssistant.evaluate, mbind, invoke.
  destruct (HardStopEvaluator.evaluate _ answers stats)
    as [[[ | ] checks why] | ]; simpl; try discriminate.
  - destruct (ScoreCalculator.calculate_final_score _ answers)
      as [[[final scores] records] | ]; simpl; [ | discriminate].
    destruct (RiskDecisionMaker.decide_risk _ final)
      as [[trade risk] | ] eqn:Hrisk; simpl; [ | discriminate].
    pose proof (decide_risk_forms _ _ _ _ Hrisk) as Hforms.
    destruct (trade && scalar_truthy balance && scalar_truthy sl_pips
              && scalar_truthy pair); simpl.
    + destruct (RiskDecisionMaker.calculate_lot_size _ risk balance sl_pips pair);
        simpl; [ | discriminate].
      intros [= <- <-]. simpl. repeat split; auto.
    + intros [= <- <-]. simpl. repeat split; auto.
  - intros [= <- <-]. simpl. repeat split; auto.
Qed.

Lemma evaluate_decision_invariants_witness :
  passed (hard_stop_result Sample.traded) = true /\
  timestamp Sample.traded = "0".
Proof.
  assert (Hrun : @RiskAssistant.evaluate Sample.runtime Sample.assistant
                   Sample.good_answers Sample.good_stats (SNum 10000)
                   (SNum 20) (SStr "EURUSD") Sample.start
                 = (Ok Sample.traded, Sample.after_trade))
    by (vm_compute; reflexivity).
  split.
  - exact (proj1 (proj2 (@evaluate_decision_invariants Sample.runtime
                           Sample.assistant Sample.good_answers
                           Sample.good_stats (SNum 10000) (SNum 20)
                           (SStr "EURUSD") Sample.start Sample.after_trade
                           Sample.traded Hrun)) eq_refl).
  - exact (proj1 (proj2 (proj2 (proj2
             (@evaluate_decision_invariants Sample.runtime
                Sample.assistant Sample.good_answers
                Sample.good_stats (SNum 10000) (SNum 20)
                (SStr "EURUSD") Sample.start Sample.after_trade
                Sample.traded Hrun))))).
Defined.

(** X16. However a call of [evaluate] ends, with a decision or with an
    exception, it has entered the components in the fixed order hard-stop
    evaluation, final score, risk decision, lot size, stopping somewhere
    after the first: no component is entered twice or before an earlier
    one. *)
Theorem evaluate_call_order `{Runtime} (self : RiskAssistant.t)
    (answers stats : dict scalar) (balance sl_pips pair : scalar) (w : world) :
  exists n : nat,
    (1 <= n <= 4)%nat /\
    calls (snd (RiskAssistant.evaluate self answers stats balance sl_pips pair w))
      = (calls w ++ firstn n pipeline_order)%list.
Proof.
  unfold RiskAssistant.evaluate, mbind, invoke, append.
  destruct (HardStopEvaluator.evaluate _ answers stats)
    as [[[ | ] checks why] | ]; simpl;
    try (exists 1%nat; split; [lia | reflexivity]).
  destruct (ScoreCalculator.calculate_final_score _ answers)
    as [[[final scores] records] | ]; simpl;
    [ | exists 2%nat; split; [lia | now rewrite <- app_assoc]].
  destruct (RiskDecisionMaker.decide_risk _ final) as [[trade risk] | ]; simpl;
    [ | exists 3%nat; split; [lia | now rewrite <- !app_assoc]].
  destruct (trade && scalar_truthy balance && scalar_truthy sl_pips
            && scalar_truthy pair); simpl.
  - destruct (RiskDecisionMaker.calculate_lot_size _ risk balance sl_pips pair);
      simpl; exists 4%nat; (split; [lia | now rewrite <- !app_assoc]).
  - exists 3%nat. split; [lia | now rewrite <- !app_assoc].
Qed.

(** X17. Evaluating again with trade details after an evaluation without
    them (the same answers and statistics, any later world) repeats the
    decision: if the second call returns, its decision has the same
    hard-stop outcome, scores, answers, approval and risk as the first, so
    only [lot_size] and [timestamp] can differ; if it raises, the trade was
    approved and the exception is the one of [calculate_lot_size]. *)
Theorem evaluate_again_with_details `{Runtime} (self : RiskAssistant.t)
    (replies stats : dict scalar) (balance sl_pips pair : scalar)
    (w w1 w' : world) (d : RiskDecision) :
  RiskAssistant.evaluate self replies stats SNone SNone SNone w = (Ok d, w1) ->
  match fst (RiskAssistant.evaluate self replies stats balance sl_pips pair w')
  with
  | Ok d' =>
      should_trade d' = should_trade d /\
      risk_percent d' = risk_percent d /\
      final_score d' = final_score d /\
      category_scores d' = category_scores d /\
      answers d' = answers d /\
      hard_stop_result d' = hard_stop_result d
  | Raise e =>
      should_trade d = true /\
      RiskDecisionMaker.calculate_lot_size (RiskAssistant.decision_maker self)
        (risk_percent d) balance sl_pips pair = Raise e
  end.
Proof.
  unfold RiskAssistant.evaluate, mbind, invoke.
  destruct (HardStopEvaluator.evaluate _ replies stats)
    as [[[ | ] checks why] | ]; simpl; try discriminate.
  - destruct (ScoreCalculator.calculate_final_score _ replies)
      as [[[final scores] records] | ]; simpl; [ | discriminate].
    destruct (RiskDecisionMaker.decide_risk _ final)
      as [[trade risk] | ]; simpl; [ | discriminate].
    rewrite !andb_false_r. simpl. intros [= <- _]. simpl.
    destruct trade; simpl; [ | repeat split].
    destruct (scalar_truthy balance && scalar_truthy sl_pips
              && scalar_truthy pair); simpl; [ | repeat split].
    destruct (RiskDecisionMaker.calculate_lot_size _ risk balance sl_pips pair);
      simpl; repeat split.
  - intros [= <- _]. simpl. repeat split.
Qed.

Lemma evaluate_again_with_details_witness :
  should_trade Sample.traded = true /\ risk_percent Sample.traded = 3.
Proof.
  assert (Hfirst : exists d w1,
            @RiskAssistant.evaluate Sample.runtime Sample.assistant
              Sample.good_answers Sample.good_stats SNone SNone SNone
              Sample.start = (Ok d, w1) /\
            should_trade d = true /\ risk_percent d = 3)
    by (do 2 eexists; split; [vm_compute; reflexivity | split; reflexivity]).
  destruct Hfirst as (d & w1 & Hrun & Htrade & Hrisk).
  pose proof (@evaluate_again_with_details Sample.runtime Sample.assistant
                Sample.good_answers Sample.good_stats (SNum 10000) (SNum 20)
                (SStr "EURUSD") Sample.start w1 Sample.start d Hrun) as Hagain.
  assert (Hsecond : fst (@RiskAssistant.evaluate Sample.runtime Sample.assistant
                           Sample.good_answers Sample.good_stats (SNum 10000)
                           (SNum 20) (SStr "EURUSD") Sample.start)
                    = Ok Sample.traded)
    by (vm_compute; reflexivity).
  rewrite Hsecond in Hagain.
  destruct Hagain as (A & B & _). split; congruence.
Defined.

(** ** The text of a decision *)

Lemma evaluate_lot_inv `{Runtime} (self : RiskAssistant.t)
    (answers stats : dict scalar) (balance sl_pips pair : scalar)
    (w w' : world) (d : RiskDecision) (size : Q) :
  RiskAssistant.evaluate self answers stats balance sl_pips pair w = (Ok d, w') ->
  lot_size d = Some size ->
  passed (hard_stop_result d) = true /\
  should_trade d = true /\
  RiskDecisionMaker.calculate_lot_size (RiskAssistant.decision_maker self)
    (risk_percent d) balance sl_pips pair = Ok size.
Proof.
  unfold RiskAssistant.evaluate, mbind, invoke.
  destruct (HardStopEvaluator.evaluate _ answers stats)
    as [[[ | ] checks why] | ]; simpl; try discriminate.
  - destruct (ScoreCalculator.calculate_final_score _ answers)
      as [[[final scores] records] | ]; simpl; [ | discriminate].
    destruct (RiskDecisionMaker.decide_risk _ final)
      as [[trade risk] | ]; simpl; [ | discriminate].
    destruct trade; simpl; [ | intros [= <- _]; discriminate].
    destruct (scalar_truthy balance && scalar_truthy sl_pips
              && scalar_truthy pair); simpl;
      [ | intros [= <- _]; discriminate].
    destruct (RiskDecisionMaker.calculate_lot_size _ risk balance sl_pips pair)
      as [lot | ] eqn:Hsize; simpl; [ | discriminate].
    intros [= <- _]. simpl. intros [= <-]. repeat split. exact Hsize.
  - intros [= <- _]. discriminate.
Qed.

Lemma string_app_assoc (a b c : string) :
  ((a ++ b) ++ c = a ++ b ++ c)%string.
Proof.
  induction a as [ | ch a IH]; simpl; [reflexivity | now rewrite IH].
Qed.

Lemma concat_last_two (sep x y : string) (before : list string) :
  before <> [] ->
  String.concat sep (before ++ [x; y])
    = (String.concat sep before ++ sep ++ x ++ sep ++ y)%string.
Proof.
  induction before as [ | line rest IH]; [congruence | intros _].
  destruct rest as [ | line' rest'].
  - reflexivity.
  - change (String.concat sep ((line :: line' :: rest') ++ [x; y]))
      with (line ++ sep ++ String.concat sep ((line' :: rest') ++ [x; y]))%string.
    rewrite IH by discriminate.
    change (String.concat sep (line :: line' :: rest'))
      with (line ++ sep ++ String.concat sep (line' :: rest'))%string.
    now rewrite !string_app_assoc.
Qed.

(** X18. The text of a decision recommends a lot size on the entry before
    the closing rule, so that the text ends with a line feed, that
    recommendation, a line feed and the rule, when the gate passed, the
    trade is approved and the lot size is a number other than 0; a lot size
    of 0 is treated as no lot size; and for a failed gate the text is the
    title between two rules followed, each after an empty line, by the
    refusal and by the reason, whatever the scores, the risk and the lot
    size are. *)
Theorem format_decision_lot_line `{Runtime} `{Formatting}
    (self : RiskAssistant.t) (d : RiskDecision) :
  (forall size : Q,
     passed (hard_stop_result d) = true ->
     should_trade d = true ->
     lot_size d = Some size ->
     ~ size == 0 ->
     (exists before : list string,
        RiskAssistant.format_lines self d =
        (before ++ [lot_line size; str_repeat "=" 60])%list) /\
     (exists above : string,
        RiskAssistant.format_decision self d =
        (above ++ nl ++ lot_line size ++ nl ++ str_repeat "=" 60)%string)) /\
  (forall size : Q,
     lot_size d = Some size -> size == 0 ->
     RiskAssistant.format_decision self d
       = RiskAssistant.format_decision self (without_lot d)) /\
  (passed (hard_stop_result d) = false ->
   RiskAssistant.format_decision self d = refusal_text d /\
   forall d' : RiskDecision,
     hard_stop_result d' = hard_stop_result d ->
     RiskAssistant.format_decision self d'
       = RiskAssistant.format_decision self d).
Proof.
  split; [ | split].
  - intros size Hpassed Htrade Hlot Hnz.
    assert (E : Qeq_bool size 0 = false).
    { apply not_true_iff_false. intros E. apply Qeq_bool_iff in E.
      contradiction. }
    assert (Hlines : exists before : list string,
              RiskAssistant.format_lines self d =
              (before ++ [lot_line size; str_repeat "=" 60])%list /\
              before <> []).
    { unfold RiskAssistant.format_lines.
      rewrite Hpassed, Htrade, Hlot. cbn [negb]. rewrite E. cbn [negb].
      unfold append at 1 2. rewrite <- app_assoc.
      eexists. split; [reflexivity | ].
      unfold append. intros Hnil.
      apply app_eq_nil in Hnil as [_ Hnil]. discriminate. }
    destruct Hlines as (before & Hlines & Hsome). split.
    + now exists before.
    + unfold RiskAssistant.format_decision. rewrite Hlines.
      eexists. now apply concat_last_two.
  - intros size Hlot Hzero.
    unfold RiskAssistant.format_decision, RiskAssistant.format_lines, without_lot.
    cbn [passed hard_stop_result should_trade lot_size risk_percent final_score
         category_scores].
    rewrite Hlot. apply Qeq_bool_iff in Hzero. rewrite Hzero. reflexivity.
  - intros Hfailed. split.
    + unfold RiskAssistant.format_decision, RiskAssistant.format_lines,
        refusal_text, reason_shown.
      rewrite Hfailed. reflexivity.
    + intros d' Hsame.
      unfold RiskAssistant.format_decision, RiskAssistant.format_lines.
      rewrite Hsame, Hfailed. reflexivity.
Qed.

Lemma format_decision_lot_line_witness :
  (exists before : list string,
     @RiskAssistant.format_lines Sample.runtime
       {| format_fixed1 := fun _ => "0.0"; str_title := fun s => s |}
       Sample.assistant Sample.traded =
     (before ++ [@lot_line Sample.runtime (3 # 2); str_repeat "=" 60])%list) /\
  (exists above : string,
     @RiskAssistant.format_decision Sample.runtime
       {| format_fixed1 := fun _ => "0.0"; str_title := fun s => s |}
       Sample.assistant Sample.traded =
     (above ++ nl ++ @lot_line Sample.runtime (3 # 2) ++ nl
        ++ str_repeat "=" 60)%string).
Proof.
  assert (Hnz : ~ 3 # 2 == 0) by discriminate.
  exact (proj1 (@format_decision_lot_line Sample.runtime
                  {| format_fixed1 := fun _ => "0.0"; str_title := fun s => s |}
                  Sample.assistant Sample.traded)
           (3 # 2) eq_refl eq_refl eq_refl Hnz).
Defined.

(** X19. With numeric lot limits [min_lot <= max_lot] of which the lower
    one rounds to more than 0 (as the default 0.01 does), every decision of
    [evaluate] that has a lot size has one above 0, and its text recommends
    it: no computed lot size is ever hidden. *)
Theorem evaluate_lot_size_is_shown `{Runtime} `{Formatting}
    (self : RiskAssistant.t) (answers stats : dict scalar)
    (balance sl_pips pair : scalar) (w w' : world) (d : RiskDecision)
    (size min_lot max_lot : Q) :
  as_num (ConfigLoader.get
            (RiskDecisionMaker.config (RiskAssistant.decision_maker self))
            ["lot_calculation"; "min_lot_size"] (VNum (1 # 100))) = Some min_lot ->
  as_num (ConfigLoader.get
            (RiskDecisionMaker.config (RiskAssistant.decision_maker self))
            ["lot_calculation"; "max_lot_size"] (VNum 10)) = Some max_lot ->
  min_lot <= max_lot ->
  0 < py_round2 min_lot ->
  RiskAssistant.evaluate self answers stats balance sl_pips pair w = (Ok d, w') ->
  lot_size d = Some size ->
  0 < size /\
  In (lot_line size) (RiskAssistant.format_lines self d).
Proof.
  intros Hmin Hmax Hord Hpositive Hrun Hlot.
  destruct (evaluate_lot_inv self answers stats balance sl_pips pair w w' d size
              Hrun Hlot) as [Hpassed [Htrade Hsize]].
  destruct (lot_size_rounded_limits _ _ _ _ _ min_lot max_lot size
              Hmin Hmax Hord Hsize) as [Hlow _].
  assert (Hpos : 0 < size) by lra.
  split; [exact Hpos | ].
  unfold RiskAssistant.format_lines.
  rewrite Hpassed, Htrade, Hlot. cbn [negb].
  assert (E : Qeq_bool size 0 = false).
  { apply not_true_iff_false. intros E. apply Qeq_bool_iff in E. lra. }
  rewrite E. cbn [negb]. unfold append at 1 2.
  apply in_or_app. left. apply in_or_app. right. now left.
Qed.

Lemma evaluate_lot_size_is_shown_witness :
  0 < 3 # 2 /\
  In (@lot_line Sample.runtime (3 # 2))
    (@RiskAssistant.format_lines Sample.runtime
       {| format_fixed1 := fun _ => "0.0"; str_title := fun s => s |}
       Sample.assistant Sample.traded).
Proof.
  assert (Hord : 1 # 100 <= 10) by discriminate.
  assert (Hpositive : 0 < @py_round2 Sample.runtime (1 # 100)) by reflexivity.
  assert (Hrun : @RiskAssistant.evaluate Sample.runtime Sample.assistant
                   Sample.good_answers Sample.good_stats (SNum 10000)
                   (SNum 20) (SStr "EURUSD") Sample.start
                 = (Ok Sample.traded, Sample.after_trade))
    by (vm_compute; reflexivity).
  exact (@evaluate_lot_size_is_shown Sample.runtime
           {| format_fixed1 := fun _ => "0.0"; str_title := fun s => s |}
           Sample.assistant Sample.good_answers Sample.good_stats
           (SNum 10000) (SNum 20) (SStr "EURUSD") Sample.start
           Sample.after_trade Sample.traded (3 # 2) (1 # 100) 10
           eq_refl eq_refl Hord Hpositive Hrun eq_refl).
Defined.

(** * Properties of the command line *)

(** ** Dictionaries: storing and looking up *)

Lemma dict_lookup_set_same {A : Type} (d : dict A) (k : string) (v : A) :
  dict_lookup (dict_set d k v) k = Some v.
Proof.
  induction d as [ | [k' v'] rest IH]; simpl.
  - now rewrite String.eqb_refl.
  - destruct (String.eqb k' k) eqn:E; simpl; rewrite E; [reflexivity | exact IH].
Qed.

Lemma dict_lookup_set_other {A : Type} (d : dict A) (k k' : string) (v : A) :
  k <> k' -> dict_lookup (dict_set d k v) k' = dict_lookup d k'.
Proof.
  intros Hneq. induction d as [ | [k0 v0] rest IH]; simpl.
  - destruct (String.eqb k k') eqn:E; [ | reflexivity].
    apply String.eqb_eq in E. contradiction.
  - destruct (String.eqb k0 k) eqn:E; simpl.
    + apply String.eqb_eq in E. subst k0.
      destruct (String.eqb k k') eqn:E'; [ | reflexivity].
      apply String.eqb_eq in E'. contradiction.
    + destruct (String.eqb k0 k'); [reflexivity | exact IH].
Qed.

Lemma dict_mem_set {A : Type} (d : dict A) (k k' : string) (v : A) :
  dict_mem (dict_set d k v) k' = true <-> k = k' \/ dict_mem d k' = true.
Proof.
  unfold dict_mem. destruct (string_dec k k') as [<- | Hneq].
  - rewrite dict_lookup_set_same. split; auto.
  - rewrite (dict_lookup_set_other d k k' v Hneq). split; auto.
    intros [Heq | Hmem]; [contradiction | exact Hmem].
Qed.

(** ** Asking for a number *)

Lemma py_le_num (a : scalar) (b : value) (x y : Q) :
  scalar_num a = Some x -> as_num b = Some y -> py_le a b = Ok (Qle_bool x y).
Proof.
  intros Ha Hb.
  destruct a as [ | c | q | s]; simpl in Ha; try discriminate;
    destruct b as [[ | c' | q' | s'] | l | d]; simpl in Hb; try discriminate;
    injection Ha as <-; injection Hb as <-; reflexivity.
Qed.

Lemma py_ge_true_inv (a : Q) (b : value) :
  py_ge (SNum a) b = Ok true -> exists y : Q, as_num b = Some y /\ y <= a.
Proof.
  destruct b as [[ | c | q | s] | l | d]; simpl; try discriminate;
    intros [= E]; apply Qle_bool_iff in E; eexists; split;
    try reflexivity; exact E.
Qed.

Lemma py_le_true_inv (a : Q) (b : value) :
  py_le (SNum a) b = Ok true -> exists y : Q, as_num b = Some y /\ a <= y.
Proof.
  destruct b as [[ | c | q | s] | l | d]; simpl; try discriminate;
    intros [= E]; apply Qle_bool_iff in E; eexists; split;
    try reflexivity; exact E.
Qed.

Lemma py_ge_false_inv (a : Q) (b : value) (y : Q) :
  py_ge (SNum a) b = Ok false -> as_num b = Some y -> ~ y <= a.
Proof.
  intros E Hy Hle.
  rewrite (py_ge_num (SNum a) b a y eq_refl Hy) in E.
  apply Qle_bool_iff in Hle. congruence.
Qed.

Lemma py_le_false_inv (a : Q) (b : value) (y : Q) :
  py_le (SNum a) b = Ok false -> as_num b = Some y -> ~ a <= y.
Proof.
  intros E Hy Hle.
  rewrite (py_le_num (SNum a) b a y eq_refl Hy) in E.
  apply Qle_bool_iff in Hle. congruence.
Qed.

Lemma py_ge_num_raises (a : Q) (b : value) (e : exn) :
  py_ge (SNum a) b = Raise e -> e = TypeError /\ as_num b = None.
Proof.
  destruct b as [[ | c | q | s] | l | d]; simpl; try discriminate;
    intros [= <-]; split; reflexivity.
Qed.

Lemma py_le_num_raises (a : Q) (b : value) (e : exn) :
  py_le (SNum a) b = Raise e -> e = TypeError /\ as_num b = None.
Proof.
  destruct b as [[ | c | q | s] | l | d]; simpl; try discriminate;
    intros [= <-]; split; reflexivity.
Qed.

Section AskNumber.

Context `{Runtime} `{Terminal}.
Variables question min_val max_val : value.

Lemma rejected_unparsed (line : string) :
  parse_float (str_strip line) = None -> rejected min_val max_val line.
Proof. intros Hnone x Hx. congruence. Qed.

Lemma rejected_below (line : string) (parsed : Q) :
  parse_float (str_strip line) = Some parsed ->
  py_ge (SNum parsed) min_val = Ok false ->
  rejected min_val max_val line.
Proof.
  intros Hparse Hge x Hx (low & high & Hlow & Hhigh & Hlo & Hhi).
  assert (x = parsed) as -> by congruence.
  exact (py_ge_false_inv _ _ _ Hge Hlow Hlo).
Qed.

Lemma rejected_above (line : string) (parsed : Q) :
  parse_float (str_strip line) = Some parsed ->
  py_le (SNum parsed) max_val = Ok false ->
  rejected min_val max_val line.
Proof.
  intros Hparse Hle x Hx (low & high & Hlow & Hhigh & Hlo & Hhi).
  assert (x = parsed) as -> by congruence.
  exact (py_le_false_inv _ _ _ Hle Hhigh Hhi).
Qed.

Lemma ask_number_loop_returns (lines : list string) :
  forall (printed : list string) (answer : Q) (c' : console),
    TradingCLI.ask_number_loop question min_val max_val lines printed
      = (Returned answer, c') ->
    exists (skipped : list string) (line : string),
      lines = (skipped ++ line :: stdin c')%list /\
      Forall (rejected min_val max_val) skipped /\
      parse_float (str_strip line) = Some answer /\
      within min_val max_val answer.
Proof.
  induction lines as [ | line rest IH]; intros printed answer c';
    cbn [TradingCLI.ask_number_loop].
  - discriminate.
  - assert (Hskip : rejected min_val max_val line ->
              forall printed',
                TradingCLI.ask_number_loop question min_val max_val rest printed'
                  = (Returned answer, c') ->
                exists (skipped : list string) (l : string),
                  (line :: rest) = (skipped ++ l :: stdin c')%list /\
                  Forall (rejected min_val max_val) skipped /\
                  parse_float (str_strip l) = Some answer /\
                  within min_val max_val answer).
    { intros Hrej printed' Hrest.
      destruct (IH _ _ _ Hrest) as (skipped & l & E & A & B & C).
      exists (line :: skipped), l. split; [simpl; now rewrite E | ].
      split; [now constructor | ]. split; assumption. }
    destruct (parse_float (str_strip line)) as [parsed | ] eqn:Hparse.
    + destruct (py_ge (SNum parsed) min_val) as [[ | ] | ] eqn:Hge;
        try discriminate.
      * destruct (py_le (SNum parsed) max_val) as [[ | ] | ] eqn:Hle;
          try discriminate.
        -- intros E. injection E as E1 E2. subst answer c'. simpl.
           destruct (py_ge_true_inv _ _ Hge) as [low [Hlow Hlo]].
           destruct (py_le_true_inv _ _ Hle) as [high [Hhigh Hhi]].
           exists [], line. split; [reflexivity | ].
           split; [constructor | ]. split; [exact Hparse | ].
           exists low, high. repeat split; assumption.
        -- apply Hskip. exact (rejected_above _ _ Hparse Hle).
      * apply Hskip. exact (rejected_below _ _ Hparse Hge).
    + apply Hskip. exact (rejected_unparsed _ Hparse).
Qed.

Lemma ask_number_loop_interrupted (lines : list string) :
  forall (printed : list string) (i : interrupt) (c' : console),
    TradingCLI.ask_number_loop question min_val max_val lines printed
      = (Interrupted i, c') ->
    (i = EOFError /\ stdin c' = [] /\ Forall (rejected min_val max_val) lines) \/
    (i = Exception TypeError /\ (as_num min_val = None \/ as_num max_val = None)).
Proof.
  induction lines as [ | line rest IH]; intros printed i c';
    cbn [TradingCLI.ask_number_loop].
  - intros E. injection E as E1 E2. subst i c'. left. repeat split. constructor.
  - assert (Hskip : rejected min_val max_val line ->
              forall printed',
                TradingCLI.ask_number_loop question min_val max_val rest printed'
                  = (Interrupted i, c') ->
                (i = EOFError /\ stdin c' = [] /\
                 Forall (rejected min_val max_val) (line :: rest)) \/
                (i = Exception TypeError /\
                 (as_num min_val = None \/ as_num max_val = None))).
    { intros Hrej printed' Hrest.
      destruct (IH _ _ _ Hrest) as [(A & B & C) | D]; [left | right; exact D].
      repeat split; try assumption. now constructor. }
    destruct (parse_float (str_strip line)) as [parsed | ] eqn:Hparse.
    + destruct (py_ge (SNum parsed) min_val) as [[ | ] | e] eqn:Hge.
      * destruct (py_le (SNum parsed) max_val) as [[ | ] | e] eqn:Hle.
        -- discriminate.
        -- apply Hskip. exact (rejected_above _ _ Hparse Hle).
        -- intros E. injection E as E1 E2. subst i c'. right.
           destruct (py_le_num_raises _ _ _ Hle) as [-> Hnone]. auto.
      * apply Hskip. exact (rejected_below _ _ Hparse Hge).
      * intros E. injection E as E1 E2. subst i c'. right.
        destruct (py_ge_num_raises _ _ _ Hge) as [-> Hnone]. auto.
    + apply Hskip. exact (rejected_unparsed _ Hparse).
Qed.

End AskNumber.

(** X20. A number that [ask_number] returns lies between the numeric
    bounds it was asked with, and it is the number on the first line typed
    that is a number between the bounds: every line before it is rejected
    and consumed.  If [ask_number] does not return, either the input ran
    out with every line rejected ([EOFError]), or a bound is not a number
    ([TypeError]). *)
Theorem ask_number_within_bounds `{Runtime} `{Terminal}
    (question min_val max_val : value) (c c' : console) :
  (forall answer : Q,
     TradingCLI.ask_number question min_val max_val c = (Returned answer, c') ->
     exists (skipped : list string) (line : string),
       stdin c = (skipped ++ line :: stdin c')%list /\
       Forall (rejected min_val max_val) skipped /\
       parse_float (str_strip line) = Some answer /\
       within min_val max_val answer) /\
  (forall i : interrupt,
     TradingCLI.ask_number question min_val max_val c = (Interrupted i, c') ->
     (i = EOFError /\ stdin c' = [] /\
      Forall (rejected min_val max_val) (stdin c)) \/
     (i = Exception TypeError /\
      (as_num min_val = None \/ as_num max_val = None))).
Proof.
  unfold TradingCLI.ask_number. split.
  - intros answer. apply ask_number_loop_returns.
  - intros i. apply ask_number_loop_interrupted.
Qed.

Lemma ask_number_within_bounds_witness :
  exists (skipped : list string) (line : string),
    ["many"; "150"; "42"; "7"] = (skipped ++ line :: ["7"])%list /\
    Forall (@rejected Sample.terminal (VNum 0) (VNum 100)) skipped /\
    @parse_float Sample.terminal (@str_strip Sample.terminal line) = Some 42 /\
    within (VNum 0) (VNum 100) 42.
Proof.
  assert (Hrun : @TradingCLI.ask_number Sample.runtime Sample.terminal
                   (VStr "Percent") (VNum 0) (VNum 100)
                   (Sample.typed ["many"; "150"; "42"; "7"])
                 = (Returned 42,
                    {| stdin := ["7"];
                       stdout := ["Percent [0-n]: ";
                                  "❌ Por favor ingresa un número válido";
                                  "Percent [0-n]: ";
                                  "❌ El valor debe estar entre 0 y n";
                                  "Percent [0-n]: "] |}))
    by (vm_compute; reflexivity).
  exact (proj1 (@ask_number_within_bounds Sample.runtime Sample.terminal
                  (VStr "Percent") (VNum 0) (VNum 100) _ _) 42 Hrun).
Defined.

(** ** Asking for a point of a scale *)

Lemma py_int_lower (x : Q) (low : Z) : inject_Z low <= x -> (low <= py_int x)%Z.
Proof.
  intros Hlow. unfold py_int. destruct (Qle_bool 0 x).
  - rewrite <- (Qfloor_Z low). now apply Qfloor_resp_le.
  - rewrite Zle_Qle. pose proof (Qle_ceiling x). lra.
Qed.

Lemma py_int_upper (x : Q) (high : Z) : x <= inject_Z high -> (py_int x <= high)%Z.
Proof.
  intros Hhigh. unfold py_int. destruct (Qle_bool 0 x).
  - rewrite Zle_Qle. pose proof (Qfloor_le x). lra.
  - rewrite <- (Qceiling_Z high). now apply Qceiling_resp_le.
Qed.

(** X21. Between whole-number bounds, the point of the scale that
    [ask_scale] returns lies between the bounds too: cutting the decimals
    of the number typed does not leave the scale. *)
Theorem ask_scale_whole_bounds `{Runtime} `{Terminal}
    (question min_val max_val : value) (low high : Z) (c c' : console)
    (answer : Z) :
  as_num min_val = Some (inject_Z low) ->
  as_num max_val = Some (inject_Z high) ->
  TradingCLI.ask_scale question min_val max_val c = (Returned answer, c') ->
  (low <= answer <= high)%Z.
Proof.
  intros Hlow Hhigh. unfold TradingCLI.ask_scale, io_bind, TradingCLI.ask_number.
  destruct (TradingCLI.ask_number_loop question min_val max_val (stdin c) (stdout c))
    as [[typed | i] c1] eqn:Hrun; [ | discriminate].
  unfold io_ret. intros E. injection E as E1 E2. subst answer c1.
  destruct (ask_number_loop_returns _ _ _ _ _ _ _ Hrun)
    as (skipped & line & _ & _ & _ & low' & high' & Hlow' & Hhigh' & Hlo & Hhi).
  assert (low' = inject_Z low) as -> by congruence.
  assert (high' = inject_Z high) as -> by congruence.
  split; [now apply py_int_lower | now apply py_int_upper].
Qed.

Lemma ask_scale_whole_bounds_witness : (1 <= 4 <= 5)%Z.
Proof.
  assert (Hrun : @TradingCLI.ask_scale Sample.runtime Sample.terminal
                   (VStr "Mental state") (VNum 1) (VNum 5)
                   (Sample.typed ["9"; "4"])
                 = (Returned 4%Z,
                    {| stdin := [];
                       stdout := ["Mental state [n-n]: ";
                                  "❌ El valor debe estar entre n y n";
                                  "Mental state [n-n]: "] |}))
    by (vm_compute; reflexivity).
  exact (@ask_scale_whole_bounds Sample.runtime Sample.terminal
           (VStr "Mental state") (VNum 1) (VNum 5) 1 5 _ _ 4
           eq_refl eq_refl Hrun).
Defined.

(** ** Asking yes or no *)

Section AskYesNo.

Context `{Runtime} `{Terminal}.
Variable question : value.

Lemma ask_yes_no_loop_returns (lines : list string) :
  forall (printed : list string) (answer : bool) (c' : console),
    TradingCLI.ask_yes_no_loop question lines printed = (Returned answer, c') ->
    exists (skipped : list string) (line : string),
      lines = (skipped ++ line :: stdin c')%list /\
      Forall unrecognised skipped /\
      answer = said_yes line /\
      (said_yes line = true \/ said_no line = true).
Proof.
  induction lines as [ | line rest IH]; intros printed answer c';
    cbn [TradingCLI.ask_yes_no_loop].
  - discriminate.
  - fold (said_yes line) (said_no line).
    destruct (said_yes line) eqn:Hyes.
    + intros E. injection E as E1 E2. subst answer c'.
      exists [], line. simpl. rewrite Hyes. auto.
    + destruct (said_no line) eqn:Hno.
      * intros E. injection E as E1 E2. subst answer c'.
        exists [], line. simpl. rewrite Hyes, Hno. auto.
      * intros Hrest.
        destruct (IH _ _ _ Hrest) as (skipped & l & E & A & B & C).
        exists (line :: skipped), l. split; [simpl; now rewrite E | ].
        split; [constructor; [split | ]; assumption | ]. split; assumption.
Qed.

Lemma ask_yes_no_loop_interrupted (lines : list string) :
  forall (printed : list string) (i : interrupt) (c' : console),
    TradingCLI.ask_yes_no_loop question lines printed = (Interrupted i, c') ->
    i = EOFError /\ stdin c' = [] /\ Forall unrecognised lines.
Proof.
  induction lines as [ | line rest IH]; intros printed i c';
    cbn [TradingCLI.ask_yes_no_loop].
  - intros E. injection E as E1 E2. subst i c'. repeat split. constructor.
  - fold (said_yes line) (said_no line).
    destruct (said_yes line) eqn:Hyes; [discriminate | ].
    destruct (said_no line) eqn:Hno; [discriminate | ].
    intros Hrest. destruct (IH _ _ _ Hrest) as (A & B & C).
    repeat split; try assumption. constructor; [split | ]; assumption.
Qed.

End AskYesNo.

(** X22. [ask_yes_no] answers with the first line typed that says yes or
    no, [True] exactly when it says yes; the lines before it say neither
    and are consumed.  It can fail only by running out of input, after
    lines that all say neither. *)
Theorem ask_yes_no_first_recognised `{Runtime} `{Terminal}
    (question : value) (c c' : console) :
  (forall answer : bool,
     TradingCLI.ask_yes_no question c = (Returned answer, c') ->
     exists (skipped : list string) (line : string),
       stdin c = (skipped ++ line :: stdin c')%list /\
       Forall unrecognised skipped /\
       answer = said_yes line /\
       (said_yes line = true \/ said_no line = true)) /\
  (forall i : interrupt,
     TradingCLI.ask_yes_no question c = (Interrupted i, c') ->
     i = EOFError /\ stdin c' = [] /\ Forall unrecognised (stdin c)).
Proof.
  unfold TradingCLI.ask_yes_no. split.
  - intros answer. apply ask_yes_no_loop_returns.
  - intros i. apply ask_yes_no_loop_interrupted.
Qed.

Lemma ask_yes_no_first_recognised_witness :
  exists (skipped : list string) (line : string),
    ["maybe"; "no"; "s"] = (skipped ++ line :: ["s"])%list /\
    Forall (@unrecognised Sample.terminal) skipped /\
    false = @said_yes Sample.terminal line /\
    (@said_yes Sample.terminal line = true \/
     @said_no Sample.terminal line = true).
Proof.
  assert (Hrun : @TradingCLI.ask_yes_no Sample.runtime Sample.terminal
                   (VStr "Clear bias") (Sample.typed ["maybe"; "no"; "s"])
                 = (Returned false,
                    {| stdin := ["s"];
                       stdout := ["Clear bias (s/n): ";
                                  "❌ Por favor responde 's' o 'n'";
                                  "Clear bias (s/n): "] |}))
    by (vm_compute; reflexivity).
  exact (proj1 (@ask_yes_no_first_recognised Sample.runtime Sample.terminal
                  (VStr "Clear bias") _ _) false Hrun).
Defined.

(** ** Steps of the command line that returned *)

Lemma io_bind_returned {A B : Type} (m : IO A) (k : A -> IO B)
    (c c' : console) (b : B) :
  io_bind m k c = (Returned b, c') ->
  exists (a : A) (c1 : console), m c = (Returned a, c1) /\ k a c1 = (Returned b, c').
Proof.
  unfold io_bind. destruct (m c) as [[a | i] c1]; [eauto | discriminate].
Qed.

Lemma io_lift_returned {A : Type} (r : result A) (c c' : console) (a : A) :
  io_lift r c = (Returned a, c') -> r = Ok a /\ c' = c.
Proof.
  unfold io_lift. destruct r as [a' | e]; [ | discriminate].
  intros E. injection E as E1 E2. subst. split; reflexivity.
Qed.

Lemma io_ret_returned {A : Type} (a b : A) (c c' : console) :
  io_ret a c = (Returned b, c') -> b = a /\ c' = c.
Proof.
  unfold io_ret. intros E. injection E as E1 E2. subst. split; reflexivity.
Qed.

(** ** The statistics *)

Lemma collect_stats_returned `{Runtime} `{Terminal}
    (self self' : TradingCLI.t) (c c' : console) :
  TradingCLI.collect_stats self c = (Returned self', c') ->
  exists losses daily : Q,
    0 <= losses /\ losses <= 10 /\ 0 <= daily /\ daily <= 100 /\
    self' =
      {| TradingCLI.assistant := TradingCLI.assistant self;
         TradingCLI.answers := TradingCLI.answers self;
         TradingCLI.stats :=
           dict_set
             (dict_set (TradingCLI.stats self) "consecutive_losses"
                (SNum (inject_Z (py_int losses))))
             "daily_loss_percent" (SNum daily) |}.
Proof.
  unfold TradingCLI.collect_stats. intros E.
  apply io_bind_returned in E as (u & c1 & _ & E).
  apply io_bind_returned in E as (losses & c2 & Hlosses & E).
  apply io_bind_returned in E as (daily & c3 & Hdaily & E).
  apply io_ret_returned in E as [-> _].
  unfold TradingCLI.ask_number in Hlosses, Hdaily.
  apply ask_number_loop_returns in Hlosses
    as (s1 & l1 & _ & _ & _ & lo1 & hi1 & Hlo1 & Hhi1 & Hlow1 & Hhigh1).
  apply ask_number_loop_returns in Hdaily
    as (s2 & l2 & _ & _ & _ & lo2 & hi2 & Hlo2 & Hhi2 & Hlow2 & Hhigh2).
  simpl in Hlo1, Hhi1, Hlo2, Hhi2.
  injection Hlo1 as <-. injection Hhi1 as <-.
  injection Hlo2 as <-. injection Hhi2 as <-.
  exists losses, daily. repeat split; assumption.
Qed.

Lemma collect_stats_lookup `{Runtime} `{Terminal}
    (self self' : TradingCLI.t) (c c' : console) :
  TradingCLI.collect_stats self c = (Returned self', c') ->
  exists (losses : Z) (daily : Q),
    dict_lookup (TradingCLI.stats self') "consecutive_losses"
      = Some (SNum (inject_Z losses)) /\
    dict_lookup (TradingCLI.stats self') "daily_loss_percent"
      = Some (SNum daily).
Proof.
  intros Hrun.
  destruct (collect_stats_returned _ _ _ _ Hrun)
    as (losses & daily & _ & _ & _ & _ & ->).
  exists (py_int losses), daily. cbn [TradingCLI.stats]. split.
  - rewrite dict_lookup_set_other by discriminate. apply dict_lookup_set_same.
  - apply dict_lookup_set_same.
Qed.

(** X23. When [collect_stats] returns, the statistics hold a whole number
    of consecutive losses between 0 and 10 and a daily loss between 0 and
    100; every other statistic, the answers and the assistant are left as
    they were. *)
Theorem collect_stats_in_range `{Runtime} `{Terminal}
    (self self' : TradingCLI.t) (c c' : console) :
  TradingCLI.collect_stats self c = (Returned self', c') ->
  exists (losses : Z) (daily : Q),
    dict_lookup (TradingCLI.stats self') "consecutive_losses"
      = Some (SNum (inject_Z losses)) /\
    (0 <= losses <= 10)%Z /\
    dict_lookup (TradingCLI.stats self') "daily_loss_percent"
      = Some (SNum daily) /\
    0 <= daily /\ daily <= 100 /\
    (forall key : string,
       key <> "consecutive_losses" -> key <> "daily_loss_percent" ->
       dict_lookup (TradingCLI.stats self') key
         = dict_lookup (TradingCLI.stats self) key) /\
    TradingCLI.answers self' = TradingCLI.answers self /\
    TradingCLI.assistant self' = TradingCLI.assistant self.
Proof.
  intros Hrun.
  destruct (collect_stats_returned _ _ _ _ Hrun)
    as (losses & daily & Hlow1 & Hhigh1 & Hlow2 & Hhigh2 & ->).
  exists (py_int losses), daily.
  cbn [TradingCLI.stats TradingCLI.answers TradingCLI.assistant].
  split.
  { rewrite dict_lookup_set_other by discriminate. apply dict_lookup_set_same. }
  split.
  { split; [apply py_int_lower | apply py_int_upper]; assumption. }
  split; [apply dict_lookup_set_same | ].
  split; [assumption | ]. split; [assumption | ].
  split; [ | split; reflexivity].
  intros key Hone Htwo.
  rewrite dict_lookup_set_other by congruence.
  apply dict_lookup_set_other. congruence.
Qed.

Lemma collect_stats_in_range_witness :
  exists (losses : Z) (daily : Q),
    dict_lookup (TradingCLI.stats Sample.with_stats) "consecutive_losses"
      = Some (SNum (inject_Z losses)) /\
    (0 <= losses <= 10)%Z /\
    dict_lookup (TradingCLI.stats Sample.with_stats) "daily_loss_percent"
      = Some (SNum daily) /\
    0 <= daily /\ daily <= 100 /\
    (forall key : string,
       key <> "consecutive_losses" -> key <> "daily_loss_percent" ->
       dict_lookup (TradingCLI.stats Sample.with_stats) key
         = dict_lookup (TradingCLI.stats Sample.cli) key) /\
    TradingCLI.answers Sample.with_stats = TradingCLI.answers Sample.cli /\
    TradingCLI.assistant Sample.with_stats = TradingCLI.assistant Sample.cli.
Proof.
  assert (Hrun : @TradingCLI.collect_stats Sample.runtime Sample.terminal
                   Sample.cli Sample.typed_stats
                 = (Returned Sample.with_stats, Sample.after_stats))
    by (vm_compute; reflexivity).
  exact (@collect_stats_in_range Sample.runtime Sample.terminal
           Sample.cli Sample.with_stats Sample.typed_stats Sample.after_stats
           Hrun).
Defined.

(** ** The statistics in front of the gate *)

Lemma py_ge_raises (a : scalar) (b : value) (e : exn) :
  py_ge a b = Raise e -> e = TypeError.
Proof.
  unfold py_ge.
  destruct a as [ | c | q | s]; destruct b as [[ | c' | q' | s'] | l | d];
    simpl; try discriminate; intros [= <-]; reflexivity.
Qed.

Lemma py_lt_raises (a : scalar) (b : value) (e : exn) :
  py_lt a b = Raise e -> e = TypeError.
Proof.
  unfold py_lt.
  destruct a as [ | c | q | s]; destruct b as [[ | c' | q' | s'] | l | d];
    simpl; try discriminate; intros [= <-]; reflexivity.
Qed.

Lemma mem_item {A : Type} (d : dict A) (key : string) (v : A) :
  dict_lookup d key = Some v -> dict_item d key = Ok v.
Proof. unfold dict_item. now intros ->. Qed.

Lemma gate_raises_type_error `{Runtime} (self : HardStopEvaluator.t)
    (answers stats : dict scalar) (losses daily : scalar) (e : exn) :
  dict_lookup stats "consecutive_losses" = Some losses ->
  dict_lookup stats "daily_loss_percent" = Some daily ->
  HardStopEvaluator.evaluate self answers stats = Raise e -> e = TypeError.
Proof.
  intros Hlosses Hdaily. unfold HardStopEvaluator.evaluate.
  rewrite (mem_item _ _ _ Hlosses), (mem_item _ _ _ Hdaily).
  destruct (py_ge (dict_get stats "consecutive_losses" (SNum 0)) _)
    as [hit1 | e1] eqn:E1; cbn [bind];
    [ | intros [= <-]; exact (py_ge_raises _ _ _ E1)].
  destruct hit1; cbn [bind].
  all: destruct (py_ge (dict_get stats "daily_loss_percent" (SNum 0)) _)
         as [hit2 | e2] eqn:E2; cbn [bind];
         [ | intros [= <-]; exact (py_ge_raises _ _ _ E2)].
  all: destruct hit2; cbn [bind].
  all: destruct (py_lt (dict_get answers "sleep_quality" (SNum 0)) _)
         as [hit3 | e3] eqn:E3; cbn [bind];
         [ | intros [= <-]; exact (py_lt_raises _ _ _ E3)].
  all: destruct (py_lt (dict_get answers "mental_state" (SNum 0)) _)
         as [hit4 | e4] eqn:E4; cbn [bind];
         [ | intros [= <-]; exact (py_lt_raises _ _ _ E4)].
  all: discriminate.
Qed.

(** X24. On the statistics that [collect_stats] returns, the gate never
    fails for a missing statistic: the only error left to it is a
    [TypeError], and with the four limits and the two answers it compares
    being numbers it returns its result. *)
Theorem gate_after_collect_stats `{Runtime} `{Terminal}
    (self self' : TradingCLI.t) (c c' : console)
    (gate : HardStopEvaluator.t) (answers : dict scalar) :
  TradingCLI.collect_stats self c = (Returned self', c') ->
  (forall e : exn,
     HardStopEvaluator.evaluate gate answers (TradingCLI.stats self') = Raise e ->
     e = TypeError) /\
  (forall max_losses max_daily_loss min_sleep min_psych_score n_sleep n_mental : Q,
     as_num (ConfigLoader.get (HardStopEvaluator.config gate)
               ["hard_stops"; "max_consecutive_losses"] VNone) = Some max_losses ->
     as_num (ConfigLoader.get (HardStopEvaluator.config gate)
               ["hard_stops"; "max_daily_loss_percent"] VNone)
       = Some max_daily_loss ->
     as_num (ConfigLoader.get (HardStopEvaluator.config gate)
               ["hard_stops"; "min_sleep_hours"] VNone) = Some min_sleep ->
     as_num (ConfigLoader.get (HardStopEvaluator.config gate)
               ["hard_stops"; "psychology_min_score"] VNone)
       = Some min_psych_score ->
     scalar_num (dict_get answers "sleep_quality" (SNum 0)) = Some n_sleep ->
     scalar_num (dict_get answers "mental_state" (SNum 0)) = Some n_mental ->
     exists found : HardStopResult,
       HardStopEvaluator.evaluate gate answers (TradingCLI.stats self')
         = Ok found).
Proof.
  intros Hrun.
  destruct (collect_stats_lookup _ _ _ _ Hrun)
    as (losses & daily & Hlosses & Hdaily).
  split.
  - intros e. exact (gate_raises_type_error _ _ _ _ _ _ Hlosses Hdaily).
  - intros max_losses max_daily_loss min_sleep min_psych_score n_sleep n_mental
      A B C D E F.
    eexists.
    apply (evaluate_checks gate answers (TradingCLI.stats self')
             max_losses max_daily_loss min_sleep min_psych_score
             (inject_Z losses) daily n_sleep n_mental A B C D).
    + unfold dict_get. now rewrite Hlosses.
    + unfold dict_get. now rewrite Hdaily.
    + exact E.
    + exact F.
    + intros _. unfold dict_mem. now rewrite Hlosses.
    + intros _. unfold dict_mem. now rewrite Hdaily.
Qed.

Lemma gate_after_collect_stats_witness :
  exists found : HardStopResult,
    @HardStopEvaluator.evaluate Sample.runtime
      (HardStopEvaluator.init Sample.config) Sample.good_answers
      (TradingCLI.stats Sample.with_stats) = Ok found.
Proof.
  assert (Hrun : @TradingCLI.collect_stats Sample.runtime Sample.terminal
                   Sample.cli Sample.typed_stats
                 = (Returned Sample.with_stats, Sample.after_stats))
    by (vm_compute; reflexivity).
  exact (proj2 (@gate_after_collect_stats Sample.runtime Sample.terminal
                  Sample.cli Sample.with_stats Sample.typed_stats
                  Sample.after_stats (HardStopEvaluator.init Sample.config)
                  Sample.good_answers Hrun)
           3 5 5 3 8 4 eq_refl eq_refl eq_refl eq_refl eq_refl eq_refl).
Defined.

(** ** The answers *)

Lemma store_answer_returned (answers answers' : dict scalar) (key : value)
    (answer : scalar) (c c' : console) :
  TradingCLI.store_answer answers key answer c = (Returned answers', c') ->
  exists k : string, key = VStr k /\ answers' = dict_set answers k answer.
Proof.
  destruct key as [[ | b | q | k] | l | d]; simpl; try discriminate.
  intros E. apply io_ret_returned in E as [-> _]. eauto.
Qed.

Section Turns.

Context `{Runtime} `{Terminal}.
Variables answers answers' : dict scalar.
Variable q : value.

Let stored : Prop :=
  exists (k : string) (answer : scalar),
    py_item q "id" = Ok (VStr k) /\ answers' = dict_set answers k answer.

Lemma answer_scale_returned (c c' : console) :
  TradingCLI.answer_scale answers q c = (Returned answers', c') -> stored.
Proof.
  unfold TradingCLI.answer_scale. intros E.
  apply io_bind_returned in E as (question & c1 & _ & E).
  apply io_bind_returned in E as (min_val & c2 & _ & E).
  apply io_bind_returned in E as (max_val & c3 & _ & E).
  apply io_bind_returned in E as (answer & c4 & _ & E).
  apply io_bind_returned in E as (key & c5 & Hkey & E).
  apply io_lift_returned in Hkey as [Hkey _].
  apply store_answer_returned in E as (k & -> & ->).
  now exists k, (SNum (inject_Z answer)).
Qed.

Lemma answer_number_returned (c c' : console) :
  TradingCLI.answer_number answers q c = (Returned answers', c') -> stored.
Proof.
  unfold TradingCLI.answer_number. intros E.
  apply io_bind_returned in E as (question & c1 & _ & E).
  apply io_bind_returned in E as (min_val & c2 & _ & E).
  apply io_bind_returned in E as (max_val & c3 & _ & E).
  apply io_bind_returned in E as (answer & c4 & _ & E).
  apply io_bind_returned in E as (key & c5 & Hkey & E).
  apply io_lift_returned in Hkey as [Hkey _].
  apply store_answer_returned in E as (k & -> & ->).
  now exists k, (SNum answer).
Qed.

Lemma answer_yes_no_returned (c c' : console) :
  TradingCLI.answer_yes_no answers q c = (Returned answers', c') -> stored.
Proof.
  unfold TradingCLI.answer_yes_no. intros E.
  apply io_bind_returned in E as (question & c1 & _ & E).
  apply io_bind_returned in E as (answer & c2 & _ & E).
  apply io_bind_returned in E as (key & c3 & Hkey & E).
  apply io_lift_returned in Hkey as [Hkey _].
  apply store_answer_returned in E as (k & -> & ->).
  now exists k, (SBool answer).
Qed.

Lemma psychology_body_turn (c c' : console) :
  TradingCLI.psychology_body answers q c = (Returned answers', c') ->
  turn (asks "psychology") answers q answers'.
Proof.
  unfold TradingCLI.psychology_body. intros E.
  apply io_bind_returned in E as (kind & c1 & Hkind & E).
  apply io_lift_returned in Hkind as [Hkind ->].
  exists kind. split; [exact Hkind | ]. cbn [asks String.eqb Ascii.eqb Bool.eqb orb].
  destruct (eq_str kind "scale").
  - now apply answer_scale_returned in E.
  - apply io_bind_returned in E as (kind' & c2 & _ & E).
    destruct (eq_str kind' "number").
    + now apply answer_number_returned in E.
    + now apply answer_yes_no_returned in E.
Qed.

Lemma other_body_turn (c c' : console) (category : string) :
  String.eqb category "psychology" = false ->
  TradingCLI.other_body answers q c = (Returned answers', c') ->
  turn (asks category) answers q answers'.
Proof.
  unfold TradingCLI.other_body. intros Hother E.
  apply io_bind_returned in E as (kind & c1 & Hkind & E).
  apply io_lift_returned in Hkind as [Hkind ->].
  exists kind. split; [exact Hkind | ]. unfold asks. rewrite Hother.
  cbn [orb].
  destruct (eq_str kind "scale") eqn:Hscale; cbn [orb].
  - now apply answer_scale_returned in E.
  - apply io_bind_returned in E as (kind' & c2 & Hkind' & E).
    apply io_lift_returned in Hkind' as [Hkind' ->].
    assert (kind' = kind) as -> by congruence.
    destruct (eq_str kind "boolean").
    + now apply answer_yes_no_returned in E.
    + now apply io_ret_returned in E as [-> _].
Qed.

End Turns.

(** A loop whose turns are as above. *)
Section Loop.

Variable body : dict scalar -> value -> IO (dict scalar).
Variable asked : value -> bool.

Hypothesis body_turn :
  forall (answers answers' : dict scalar) (q : value) (c c' : console),
    body answers q c = (Returned answers', c') -> turn asked answers q answers'.

Lemma turn_keeps (answers answers' : dict scalar) (q : value) (k : string) :
  turn asked answers q answers' ->
  dict_mem answers k = true -> dict_mem answers' k = true.
Proof.
  intros (kind & _ & Hturn) Hmem. destruct (asked kind).
  - destruct Hturn as (k' & answer & _ & ->). apply dict_mem_set. now right.
  - now subst answers'.
Qed.

Lemma loop_keeps (listed : list value) :
  forall (answers answers' : dict scalar) (c c' : console),
    io_for_each listed body answers c = (Returned answers', c') ->
    forall k : string, dict_mem answers k = true -> dict_mem answers' k = true.
Proof.
  induction listed as [ | q rest IH]; intros answers answers' c c';
    cbn [io_for_each].
  - intros E. now apply io_ret_returned in E as [-> _].
  - intros E k Hmem.
    apply io_bind_returned in E as (answers1 & c1 & Hbody & E).
    apply (IH _ _ _ _ E). exact (turn_keeps _ _ _ _ (body_turn _ _ _ _ _ Hbody) Hmem).
Qed.

Lemma loop_answers_asked (listed : list value) :
  forall (answers answers' : dict scalar) (c c' : console),
    io_for_each listed body answers c = (Returned answers', c') ->
    forall q kind : value,
      In q listed -> py_item q "type" = Ok kind -> asked kind = true ->
      exists k : string,
        py_item q "id" = Ok (VStr k) /\ dict_mem answers' k = true.
Proof.
  induction listed as [ | q0 rest IH]; intros answers answers' c c';
    cbn [io_for_each].
  - intros _ q kind [].
  - intros E q kind Hin Hkind Hasked.
    apply io_bind_returned in E as (answers1 & c1 & Hbody & E).
    destruct Hin as [-> | Hin].
    + destruct (body_turn _ _ _ _ _ Hbody) as (kind' & Hkind' & Hturn).
      assert (kind' = kind) as -> by congruence.
      rewrite Hasked in Hturn. destruct Hturn as (k & answer & Hid & ->).
      exists k. split; [exact Hid | ].
      apply (loop_keeps _ _ _ _ _ E). apply dict_mem_set. now left.
    + exact (IH _ _ _ _ E q kind Hin Hkind Hasked).
Qed.

Lemma loop_only_asked (listed : list value) :
  forall (answers answers' : dict scalar) (c c' : console),
    io_for_each listed body answers c = (Returned answers', c') ->
    forall k : string,
      dict_mem answers' k = true ->
      dict_mem answers k = true \/
      exists q kind : value,
        In q listed /\ py_item q "type" = Ok kind /\ asked kind = true /\
        py_item q "id" = Ok (VStr k).
Proof.
  induction listed as [ | q0 rest IH]; intros answers answers' c c';
    cbn [io_for_each].
  - intros E k Hmem. apply io_ret_returned in E as [-> _]. now left.
  - intros E k Hmem.
    apply io_bind_returned in E as (answers1 & c1 & Hbody & E).
    destruct (IH _ _ _ _ E k Hmem) as [Hmem1 | (q & kind & Hin & Hrest)].
    + destruct (body_turn _ _ _ _ _ Hbody) as (kind & Hkind & Hturn).
      destruct (asked kind) eqn:Hasked.
      * destruct Hturn as (k' & answer & Hid & ->).
        apply dict_mem_set in Hmem1 as [<- | Hmem0]; [right | now left].
        exists q0, kind. repeat split; try assumption. now left.
      * subst answers1. now left.
    + right. exists q, kind. split; [now right | exact Hrest].
Qed.

End Loop.

Lemma questions_of_returned (questions : dict value) (category : string)
    (listed : list value) (c c' : console) :
  TradingCLI.questions_of questions category c = (Returned listed, c') ->
  (entry <- dict_item questions category ;; py_iter entry) = Ok listed /\ c' = c.
Proof.
  unfold TradingCLI.questions_of. intros E.
  apply io_bind_returned in E as (entry & c1 & Hentry & E).
  apply io_lift_returned in Hentry as [-> ->].
  apply io_lift_returned in E as [E ->]. split; [exact E | reflexivity].
Qed.

(** X25. When [collect_answers] returns, every listed question of a kind
    that is asked in its category (any kind under psychology, scales and
    booleans under the market conditions and the technical confluence) has
    an answer under its identifier; the answers held before are still
    answered; and nothing else is: a market or technical question of
    another kind, such as a number, is never asked and gets no answer of
    its own.  The statistics and the assistant are left as they were. *)
Theorem collect_answers_asked `{Runtime} `{Terminal}
    (self self' : TradingCLI.t) (c c' : console) :
  TradingCLI.collect_answers self c = (Returned self', c') ->
  (forall (category : string) (q kind : value),
     In category ["psychology"; "market_conditions"; "technical_confluence"] ->
     listed_in (TradingCLI.assistant self) category q ->
     py_item q "type" = Ok kind ->
     asks category kind = true ->
     exists k : string,
       py_item q "id" = Ok (VStr k) /\
       dict_mem (TradingCLI.answers self') k = true) /\
  (forall k : string,
     dict_mem (TradingCLI.answers self) k = true ->
     dict_mem (TradingCLI.answers self') k = true) /\
  (forall k : string,
     dict_mem (TradingCLI.answers self') k = true ->
     dict_mem (TradingCLI.answers self) k = true \/
     exists (category : string) (q kind : value),
       In category ["psychology"; "market_conditions"; "technical_confluence"] /\
       listed_in (TradingCLI.assistant self) category q /\
       py_item q "type" = Ok kind /\
       asks category kind = true /\
       py_item q "id" = Ok (VStr k)) /\
  TradingCLI.stats self' = TradingCLI.stats self /\
  TradingCLI.assistant self' = TradingCLI.assistant self.
Proof.
  unfold TradingCLI.collect_answers. intros E.
  apply io_bind_returned in E as (u1 & c1 & _ & E).
  apply io_bind_returned in E as (listed1 & c2 & Hlisted1 & E).
  apply questions_of_returned in Hlisted1 as [Hlisted1 _].
  apply io_bind_returned in E as (answers1 & c3 & Hloop1 & E).
  apply io_bind_returned in E as (u2 & c4 & _ & E).
  apply io_bind_returned in E as (listed2 & c5 & Hlisted2 & E).
  apply questions_of_returned in Hlisted2 as [Hlisted2 _].
  apply io_bind_returned in E as (answers2 & c6 & Hloop2 & E).
  apply io_bind_returned in E as (u3 & c7 & _ & E).
  apply io_bind_returned in E as (listed3 & c8 & Hlisted3 & E).
  apply questions_of_returned in Hlisted3 as [Hlisted3 _].
  apply io_bind_returned in E as (answers3 & c9 & Hloop3 & E).
  apply io_ret_returned in E as [-> _].
  cbn [TradingCLI.answers TradingCLI.stats TradingCLI.assistant].
  pose proof (fun a a' q c c' => @psychology_body_turn _ _ a a' q c c') as T1.
  pose proof (fun a a' q c c' =>
                @other_body_turn _ _ a a' q c c' "market_conditions" eq_refl) as T2.
  pose proof (fun a a' q c c' =>
                @other_body_turn _ _ a a' q c c' "technical_confluence" eq_refl)
    as T3.
  pose proof (loop_keeps _ _ T1 _ _ _ _ _ Hloop1) as K1.
  pose proof (loop_keeps _ _ T2 _ _ _ _ _ Hloop2) as K2.
  pose proof (loop_keeps _ _ T3 _ _ _ _ _ Hloop3) as K3.
  split; [ | split; [ | split; [ | split; reflexivity]]].
  - intros category q kind Hcat (listed & Hlisted & Hin) Hkind Hasked.
    destruct Hcat as [<- | [<- | [<- | []]]].
    + assert (listed = listed1) as -> by congruence.
      destruct (loop_answers_asked _ _ T1 _ _ _ _ _ Hloop1 q kind Hin Hkind Hasked)
        as (k & Hid & Hmem).
      exists k. split; [exact Hid | ]. now apply K3, K2.
    + assert (listed = listed2) as -> by congruence.
      destruct (loop_answers_asked _ _ T2 _ _ _ _ _ Hloop2 q kind Hin Hkind Hasked)
        as (k & Hid & Hmem).
      exists k. split; [exact Hid | ]. now apply K3.
    + assert (listed = listed3) as -> by congruence.
      exact (loop_answers_asked _ _ T3 _ _ _ _ _ Hloop3 q kind Hin Hkind Hasked).
  - intros k Hmem. now apply K3, K2, K1.
  - intros k Hmem.
    destruct (loop_only_asked _ _ T3 _ _ _ _ _ Hloop3 k Hmem)
      as [Hmem2 | (q & kind & Hin & Hkind & Hasked & Hid)].
    2: { right. exists "technical_confluence", q, kind.
         split; [simpl; auto | ]. split; [now exists listed3 | auto]. }
    destruct (loop_only_asked _ _ T2 _ _ _ _ _ Hloop2 k Hmem2)
      as [Hmem1 | (q & kind & Hin & Hkind & Hasked & Hid)].
    2: { right. exists "market_conditions", q, kind.
         split; [simpl; auto | ]. split; [now exists listed2 | auto]. }
    destruct (loop_only_asked _ _ T1 _ _ _ _ _ Hloop1 k Hmem1)
      as [Hmem0 | (q & kind & Hin & Hkind & Hasked & Hid)].
    2: { right. exists "psychology", q, kind.
         split; [simpl; auto | ]. split; [now exists listed1 | auto]. }
    now left.
Qed.

Lemma collect_answers_asked_witness :
  exists k : string,
    py_item (Sample.question "volatility" "Volatility" "scale"
               [("min", VNum 1); ("max", VNum 5)]) "id" = Ok (VStr k) /\
    dict_mem (TradingCLI.answers Sample.with_answers) k = true.
Proof.
  assert (Hrun : @TradingCLI.collect_answers Sample.runtime Sample.terminal
                   Sample.cli Sample.typed_answers
                 = (Returned Sample.with_answers, Sample.after_answers))
    by (vm_compute; reflexivity).
  assert (Hlisted : listed_in (TradingCLI.assistant Sample.cli)
                      "market_conditions"
                      (Sample.question "volatility" "Volatility" "scale"
                         [("min", VNum 1); ("max", VNum 5)])).
  { exists [Sample.question "clear_bias" "Clear bias" "boolean"
              [("weight", VNum 2)];
            Sample.question "volatility" "Volatility" "scale"
              [("min", VNum 1); ("max", VNum 5)]].
    split; [reflexivity | right; left; reflexivity]. }
  exact (proj1 (@collect_answers_asked Sample.runtime Sample.terminal
                  Sample.cli Sample.with_answers Sample.typed_answers
                  Sample.after_answers Hrun)
           "market_conditions" _ (VStr "scale")
           (or_intror (or_introl eq_refl)) Hlisted eq_refl eq_refl).
Defined.

(** ** The details of a trade *)

Lemma print_returned (text : string) (c c' : console) (u : unit) :
  print text c = (Returned u, c') -> stdin c' = stdin c.
Proof. unfold print. intros E. injection E as _ <-. reflexivity. Qed.

Lemma input_returned (prompt line : string) (c c' : console) :
  TradingCLI.input prompt c = (Returned line, c') ->
  stdin c = line :: stdin c'.
Proof.
  unfold TradingCLI.input. destruct (stdin c) as [ | l rest]; [discriminate | ].
  intros E. injection E as E1 E2. now subst.
Qed.

Lemma truthy_at_least_one (x : Q) : 1 <= x -> scalar_truthy (SNum x) = true.
Proof.
  intros Hx. simpl. apply negb_true_iff, not_true_iff_false.
  intros Hzero. apply Qeq_bool_iff in Hzero. lra.
Qed.

(** X26. [collect_trade_details] takes the balance from the first line
    typed that is a number between 1 and 1000000, the stop loss from the
    first line after it that is a number between 1 and 500, and the pair
    from the line typed next, stripped and in upper case; these lines and
    the rejected ones before them are what it consumes.  In the evaluation
    that [run] repeats with these details, an empty pair counts as no trade
    details at all: the decision then has no lot size.  With any other
    pair, an approved decision that is returned carries the lot size that
    [calculate_lot_size] computes from these details. *)
Theorem trade_details_lot_size `{Runtime} `{Terminal}
    (self : TradingCLI.t) (c c' : console) (trade_details : dict scalar) :
  TradingCLI.collect_trade_details self c = (Returned trade_details, c') ->
  exists (balance sl_pips : Q) (skipped skipped' : list string)
         (first second line : string),
    stdin c
      = (skipped ++ first :: skipped' ++ second :: line :: stdin c')%list /\
    Forall (rejected (VNum 1) (VNum 1000000)) skipped /\
    parse_float (str_strip first) = Some balance /\
    Forall (rejected (VNum 1) (VNum 500)) skipped' /\
    parse_float (str_strip second) = Some sl_pips /\
    trade_details =
      [("balance", SNum balance); ("sl_pips", SNum sl_pips);
       ("pair", SStr (str_upper (str_strip line)))] /\
    1 <= balance /\ balance <= 1000000 /\ 1 <= sl_pips /\ sl_pips <= 500 /\
    (str_upper (str_strip line) = EmptyString ->
     forall w : world,
       TradingCLI.evaluate_with_details self trade_details w =
       RiskAssistant.evaluate (TradingCLI.assistant self)
         (TradingCLI.answers self) (TradingCLI.stats self) SNone SNone SNone w) /\
    (str_upper (str_strip line) <> EmptyString ->
     forall (w w' : world) (d : RiskDecision),
       TradingCLI.evaluate_with_details self trade_details w = (Ok d, w') ->
       should_trade d = true ->
       exists size : Q,
         lot_size d = Some size /\
         RiskDecisionMaker.calculate_lot_size
           (RiskAssistant.decision_maker (TradingCLI.assistant self))
           (risk_percent d) (SNum balance) (SNum sl_pips)
           (SStr (str_upper (str_strip line))) = Ok size).
Proof.
  unfold TradingCLI.collect_trade_details. intros E.
  apply io_bind_returned in E as (u & c1 & Hprint & E).
  apply print_returned in Hprint.
  apply io_bind_returned in E as (balance & c2 & Hbalance & E).
  apply io_bind_returned in E as (sl_pips & c3 & Hsl & E).
  apply io_bind_returned in E as (line & c4 & Hline & E).
  apply input_returned in Hline.
  apply io_ret_returned in E as [-> ->].
  unfold TradingCLI.ask_number in Hbalance, Hsl.
  apply ask_number_loop_returns in Hbalance
    as (s1 & l1 & Hin1 & Hrej1 & Hparse1 & lo1 & hi1 & Hlo1 & Hhi1 & Hlow1 & Hhigh1).
  apply ask_number_loop_returns in Hsl
    as (s2 & l2 & Hin2 & Hrej2 & Hparse2 & lo2 & hi2 & Hlo2 & Hhi2 & Hlow2 & Hhigh2).
  simpl in Hlo1, Hhi1, Hlo2, Hhi2.
  injection Hlo1 as <-. injection Hhi1 as <-.
  injection Hlo2 as <-. injection Hhi2 as <-.
  exists balance, sl_pips, s1, s2, l1, l2, line.
  split.
  { rewrite <- Hprint, Hin1, Hin2, Hline. reflexivity. }
  split; [exact Hrej1 | ]. split; [exact Hparse1 | ].
  split; [exact Hrej2 | ]. split; [exact Hparse2 | ].
  split; [reflexivity | ].
  split; [assumption | ]. split; [assumption | ].
  split; [assumption | ]. split; [assumption | ].
  pose proof (truthy_at_least_one _ Hlow1) as Tbalance.
  pose proof (truthy_at_least_one _ Hlow2) as Tsl.
  unfold TradingCLI.evaluate_with_details.
  cbn [dict_item dict_lookup String.eqb Ascii.eqb Bool.eqb bind].
  split.
  - intros Hempty w. rewrite Hempty.
    unfold RiskAssistant.evaluate, mbind, invoke.
    pipeline_cases; try reflexivity.
    all: cbn [scalar_truthy String.eqb negb]; rewrite ?andb_false_r;
      reflexivity.
  - intros Hpair w w' d.
    assert (Tpair : scalar_truthy (SStr (str_upper (str_strip line))) = true).
    { simpl. apply negb_true_iff. now apply String.eqb_neq. }
    revert Tpair. generalize (str_upper (str_strip line)). intros pair Tpair.
    unfold RiskAssistant.evaluate, mbind, invoke.
    destruct (HardStopEvaluator.evaluate _ _ _)
      as [[[ | ] checks why] | ]; simpl negb; cbv iota; try discriminate.
    + destruct (ScoreCalculator.calculate_final_score _ _)
        as [[[final scores] records] | ]; cbv iota beta; [ | discriminate].
      destruct (RiskDecisionMaker.decide_risk _ final)
        as [[trade risk] | ]; cbv iota beta; [ | discriminate].
      rewrite Tbalance, Tsl, Tpair.
      destruct trade; cbn [andb];
        [ | intros E; injection E as <- _; discriminate].
      destruct (RiskDecisionMaker.calculate_lot_size _ risk _ _ _)
        as [lot | ] eqn:Hsize; cbv iota beta; [ | discriminate].
      intros E _. injection E as <- _. exists lot. split; [reflexivity | ].
      exact Hsize.
    + intros E. injection E as <- _. discriminate.
Qed.

(** Typed: a word, 10000, 0, 70 and usdjpy. *)
Lemma trade_details_lot_size_witness :
  exists (balance sl_pips : Q) (skipped skipped' : list string)
         (first second line : string),
    stdin Sample.typed_details
      = (skipped ++ first :: skipped' ++ second :: line
           :: stdin Sample.after_details)%list /\
    Forall (@rejected Sample.terminal (VNum 1) (VNum 1000000)) skipped /\
    @parse_float Sample.terminal (@str_strip Sample.terminal first)
      = Some balance /\
    Forall (@rejected Sample.terminal (VNum 1) (VNum 500)) skipped' /\
    @parse_float Sample.terminal (@str_strip Sample.terminal second)
      = Some sl_pips /\
    Sample.details =
      [("balance", SNum balance); ("sl_pips", SNum sl_pips);
       ("pair",
        SStr (@str_upper Sample.runtime (@str_strip Sample.terminal line)))] /\
    1 <= balance /\ balance <= 1000000 /\ 1 <= sl_pips /\ sl_pips <= 500 /\
    (@str_upper Sample.runtime (@str_strip Sample.terminal line) = EmptyString ->
     forall w : world,
       @TradingCLI.evaluate_with_details Sample.runtime Sample.ready
         Sample.details w =
       @RiskAssistant.evaluate Sample.runtime
         (TradingCLI.assistant Sample.ready)
         (TradingCLI.answers Sample.ready) (TradingCLI.stats Sample.ready)
         SNone SNone SNone w) /\
    (@str_upper Sample.runtime (@str_strip Sample.terminal line) <> EmptyString ->
     forall (w w' : world) (d : RiskDecision),
       @TradingCLI.evaluate_with_details Sample.runtime Sample.ready
         Sample.details w = (Ok d, w') ->
       should_trade d = true ->
       exists size : Q,
         lot_size d = Some size /\
         @RiskDecisionMaker.calculate_lot_size Sample.runtime
           (RiskAssistant.decision_maker (TradingCLI.assistant Sample.ready))
           (risk_percent d) (SNum balance) (SNum sl_pips)
           (SStr (@str_upper Sample.runtime (@str_strip Sample.terminal line)))
         = Ok size).
Proof.
  assert (Hrun : @TradingCLI.collect_trade_details Sample.runtime
                   Sample.terminal Sample.ready Sample.typed_details
                 = (Returned Sample.details, Sample.after_details))
    by (vm_compute; reflexivity).
  exact (@trade_details_lot_size Sample.runtime Sample.terminal Sample.ready
           Sample.typed_details Sample.after_details Sample.details Hrun).
Defined.

(** * Properties of the coach *)

(** ** Reading the entries *)

Lemma py_get_raises (v : value) (k : string) (default : value) (e : exn) :
  py_get v k default = Raise e -> e = AttributeError.
Proof.
  destruct v as [a | l | d]; simpl; try discriminate; now intros [= <-].
Qed.

Lemma decision_field_readable (e : value) (key : string) (default : value) :
  readable e -> exists found : value, decision_field e key default = Ok found.
Proof.
  intros [decision Hdecision]. unfold decision_field. rewrite Hdecision.
  simpl. eauto.
Qed.

Lemma decision_field_raises (e : value) (key : string) (default : value)
    (x : exn) :
  decision_field e key default = Raise x -> x = AttributeError /\ ~ readable e.
Proof.
  unfold decision_field.
  destruct (py_get e "decision" (VDict [])) as [decision | x'] eqn:Hdecision;
    cbn [bind].
  - intros Hfield. split; [exact (py_get_raises _ _ _ _ Hfield) | ].
    intros [found Hfound]. rewrite Hdecision in Hfound.
    injection Hfound as ->. discriminate.
  - intros [= <-]. split; [exact (py_get_raises _ _ _ _ Hdecision) | ].
    intros [found Hfound]. congruence.
Qed.

(** Counting, in a loop, the entries whose field of the decision meets a
    test. *)
Section Counting.

Variable key : string.
Variable default : value.
Variable test : value -> bool.

Let meets (e : value) : bool :=
  match decision_field e key default with
  | Ok found => test found
  | Raise _ => false
  end.

Lemma count_loop (entries : list value) :
  forall count : nat,
    Forall readable entries ->
    for_each entries
      (fun count e =>
         decision <- py_get e "decision" (VDict []) ;;
         found <- py_get decision key default ;;
         Ok (if test found then S count else count))
      count
    = Ok (count + length (filter meets entries))%nat.
Proof.
  induction entries as [ | e rest IH]; intros count Hall; cbn [for_each].
  - simpl. now rewrite Nat.add_0_r.
  - apply Forall_cons_iff in Hall as [[decision Hdecision] Hrest].
    assert (Hmeets : meets e = test (dict_get decision key default)).
    { unfold meets, decision_field. now rewrite Hdecision. }
    cbn [filter]. rewrite Hmeets, Hdecision. cbn [bind py_get].
    destruct (test (dict_get decision key default)); rewrite (IH _ Hrest);
      cbn [length]; f_equal; lia.
Qed.

Lemma count_loop_raises (entries : list value) :
  forall (count : nat) (x : exn),
    for_each entries
      (fun count e =>
         decision <- py_get e "decision" (VDict []) ;;
         found <- py_get decision key default ;;
         Ok (if test found then S count else count))
      count
    = Raise x ->
    x = AttributeError /\ ~ Forall readable entries.
Proof.
  induction entries as [ | e rest IH]; intros count x; cbn [for_each].
  - discriminate.
  - destruct (decision_field e key default) as [found | x'] eqn:Hfield.
    + unfold decision_field in Hfield.
      destruct (py_get e "decision" (VDict [])) as [decision | ];
        cbn [bind] in *; [ | discriminate].
      rewrite Hfield. cbn [bind]. intros Hrest.
      destruct (IH _ _ Hrest) as [-> Hnot]. split; [reflexivity | ].
      intros Hall. apply Hnot. now apply Forall_cons_iff in Hall.
    + destruct (decision_field_raises _ _ _ _ Hfield) as [-> Hnot].
      unfold decision_field in Hfield.
      destruct (py_get e "decision" (VDict [])) as [decision | ];
        cbn [bind] in *.
      * rewrite Hfield. cbn [bind]. intros [= <-]. split; [reflexivity | ].
        intros Hall. apply Hnot. now apply Forall_cons_iff in Hall.
      * intros [= <-]. split; [congruence | ].
        intros Hall. apply Hnot. now apply Forall_cons_iff in Hall.
Qed.

(** The same for the loop that keeps the entries. *)
Lemma keep_loop (entries : list value) :
  forall kept : list value,
    Forall readable entries ->
    for_each entries
      (fun kept e =>
         decision <- py_get e "decision" (VDict []) ;;
         found <- py_get decision key default ;;
         Ok (if test found then append kept e else kept))
      kept
    = Ok (kept ++ filter meets entries)%list.
Proof.
  induction entries as [ | e rest IH]; intros kept Hall; cbn [for_each].
  - simpl. now rewrite app_nil_r.
  - apply Forall_cons_iff in Hall as [[decision Hdecision] Hrest].
    assert (Hmeets : meets e = test (dict_get decision key default)).
    { unfold meets, decision_field. now rewrite Hdecision. }
    cbn [filter]. rewrite Hmeets, Hdecision. cbn [bind py_get].
    destruct (test (dict_get decision key default)); rewrite (IH _ Hrest);
      [unfold append; now rewrite <- app_assoc | reflexivity].
Qed.

Lemma keep_loop_raises (entries : list value) :
  forall (kept : list value) (x : exn),
    for_each entries
      (fun kept e =>
         decision <- py_get e "decision" (VDict []) ;;
         found <- py_get decision key default ;;
         Ok (if test found then append kept e else kept))
      kept
    = Raise x ->
    x = AttributeError /\ ~ Forall readable entries.
Proof.
  induction entries as [ | e rest IH]; intros kept x; cbn [for_each].
  - discriminate.
  - destruct (decision_field e key default) as [found | x'] eqn:Hfield.
    + unfold decision_field in Hfield.
      destruct (py_get e "decision" (VDict [])) as [decision | ];
        cbn [bind] in *; [ | discriminate].
      rewrite Hfield. cbn [bind]. intros Hrest.
      destruct (IH _ _ Hrest) as [-> Hnot]. split; [reflexivity | ].
      intros Hall. apply Hnot. now apply Forall_cons_iff in Hall.
    + destruct (decision_field_raises _ _ _ _ Hfield) as [-> Hnot].
      unfold decision_field in Hfield.
      destruct (py_get e "decision" (VDict [])) as [decision | ];
        cbn [bind] in *.
      * rewrite Hfield. cbn [bind]. intros [= <-]. split; [reflexivity | ].
        intros Hall. apply Hnot. now apply Forall_cons_iff in Hall.
      * intros [= <-]. split; [congruence | ].
        intros Hall. apply Hnot. now apply Forall_cons_iff in Hall.
Qed.

End Counting.

(** ** Shares of the entries, in whole numbers *)

Lemma Qltb_decides (a b : Q) (t : bool) : (a < b <-> t = true) -> Qltb a b = t.
Proof.
  intros Hiff. destruct t.
  - apply Qltb_lt, Hiff. reflexivity.
  - apply Qltb_ge. apply Qnot_lt_le. intros Hlt. apply Hiff in Hlt.
    discriminate.
Qed.

Lemma nat_lt_Q (a b : nat) :
  (a < b)%nat <-> inject_Z (Z.of_nat a) < inject_Z (Z.of_nat b).
Proof. rewrite <- Zlt_Qlt. apply Nat2Z.inj_lt. Qed.

Lemma nat_mul_Q (k n : nat) :
  inject_Z (Z.of_nat (k * n)) == inject_Z (Z.of_nat k) * inject_Z (Z.of_nat n).
Proof. rewrite Nat2Z.inj_mul, inject_Z_mult. reflexivity. Qed.

Lemma nat_pos_Q (n : nat) : (0 < n)%nat -> 0 < inject_Z (Z.of_nat n).
Proof. intros Hn. apply (nat_lt_Q 0 n). exact Hn. Qed.

Lemma count_div (c n : nat) :
  (0 < n)%nat ->
  py_div (inject_Z (Z.of_nat c)) (inject_Z (Z.of_nat n))
  = Ok (inject_Z (Z.of_nat c) / inject_Z (Z.of_nat n)).
Proof.
  intros Hn. unfold py_div.
  destruct (Qeq_bool (inject_Z (Z.of_nat n)) 0) eqn:E; [ | reflexivity].
  apply Qeq_bool_iff in E. pose proof (nat_pos_Q n Hn). lra.
Qed.

Lemma share_above_80 (c n : nat) :
  (0 < n)%nat ->
  Qltb 80 (inject_Z (Z.of_nat c) / inject_Z (Z.of_nat n) * 100)
  = (4 * n <? 5 * c)%nat.
Proof.
  intros Hn. apply Qltb_decides. rewrite Nat.ltb_lt, nat_lt_Q, !nat_mul_Q.
  pose proof (nat_pos_Q n Hn) as Hpos.
  set (C := inject_Z (Z.of_nat c)) in *. set (N := inject_Z (Z.of_nat n)) in *.
  change (inject_Z (Z.of_nat 4)) with 4. change (inject_Z (Z.of_nat 5)) with 5.
  rewrite <- (Qmult_lt_r _ _ N Hpos).
  assert (E : C / N * 100 * N == 100 * C) by (field; lra).
  rewrite E. split; intros; lra.
Qed.

Lemma share_below_20 (c n : nat) :
  (0 < n)%nat ->
  Qltb (inject_Z (Z.of_nat c) / inject_Z (Z.of_nat n) * 100) 20
  = (5 * c <? n)%nat.
Proof.
  intros Hn. apply Qltb_decides. rewrite Nat.ltb_lt, nat_lt_Q, !nat_mul_Q.
  pose proof (nat_pos_Q n Hn) as Hpos.
  set (C := inject_Z (Z.of_nat c)) in *. set (N := inject_Z (Z.of_nat n)) in *.
  change (inject_Z (Z.of_nat 5)) with 5.
  rewrite <- (Qmult_lt_r _ _ N Hpos).
  assert (E : C / N * 100 * N == 100 * C) by (field; lra).
  rewrite E. split; intros; lra.
Qed.

Lemma share_above_three_tenths (f n : nat) :
  Qltb (inject_Z (Z.of_nat n) * (3 # 10)) (inject_Z (Z.of_nat f))
  = (3 * n <? 10 * f)%nat.
Proof.
  apply Qltb_decides. rewrite Nat.ltb_lt, nat_lt_Q, !nat_mul_Q.
  set (F := inject_Z (Z.of_nat f)). set (N := inject_Z (Z.of_nat n)).
  change (inject_Z (Z.of_nat 3)) with 3. change (inject_Z (Z.of_nat 10)) with 10.
  split; intros; lra.
Qed.

(** X27. The coach comments on the risk taken only from five traded
    entries on, whatever the entries are.  From five readable entries on,
    it warns exactly when more than four in five of them record a risk of 3
    percent, and calls the trader conservative exactly when fewer than one
    in five do; otherwise, and never both, it says nothing.  The analysis
    can fail only with an [AttributeError], on five or more entries of
    which one cannot be read. *)
Theorem coach_risk_taking_shares (self : TradingCoach.t) :
  let entries := @get_entries (TradingCoach.journal self) 10 (Some true) in
  let n := length entries in
  let c := length (filter takes_3_percent entries) in
  ((n < 5)%nat -> TradingCoach.analyze_risk_taking_pattern self = Ok None) /\
  ((5 <= n)%nat -> Forall readable entries ->
   TradingCoach.analyze_risk_taking_pattern self =
   Ok (if (4 * n <? 5 * c)%nat then Some TradingCoach.risk_warning
       else if (5 * c <? n)%nat then Some TradingCoach.conservative_hint
       else None)) /\
  (forall x : exn,
     TradingCoach.analyze_risk_taking_pattern self = Raise x ->
     x = AttributeError /\ (5 <= n)%nat /\ ~ Forall readable entries).
Proof.
  intros entries n c. unfold TradingCoach.analyze_risk_taking_pattern.
  fold entries. fold n.
  split; [ | split].
  - intros Hfew. apply Nat.ltb_lt in Hfew. now rewrite Hfew.
  - intros Hmany Hall.
    assert (Hguard : (n <? 5)%nat = false) by (apply Nat.ltb_ge; exact Hmany).
    rewrite Hguard.
    rewrite (count_loop "risk_percent" VNone (fun risk => eq_num risk 3)
               entries 0 Hall).
    cbn [bind Nat.add]. fold takes_3_percent. fold c.
    rewrite count_div by lia. cbn [bind].
    rewrite share_above_80, share_below_20 by lia.
    destruct (4 * n <? 5 * c)%nat; [reflexivity | ].
    destruct (5 * c <? n)%nat; reflexivity.
  - intros x. destruct (n <? 5)%nat eqn:Hguard; [discriminate | ].
    apply Nat.ltb_ge in Hguard.
    destruct (for_each entries _ 0%nat) as [count | x'] eqn:Hloop; cbn [bind].
    + rewrite count_div by lia. cbn [bind].
      destruct (Qltb 80 _); [discriminate | ].
      destruct (Qltb _ 20); discriminate.
    + intros [= <-].
      destruct (count_loop_raises _ _ _ _ _ _ Hloop) as [-> Hnot]. auto.
Qed.

Lemma coach_risk_taking_shares_witness :
  TradingCoach.analyze_risk_taking_pattern Sample.coach =
  Ok (Some TradingCoach.risk_warning).
Proof.
  assert (Hmany : (5 <= length Sample.entries)%nat) by (simpl; lia).
  assert (Hall : Forall readable Sample.entries).
  { repeat constructor; eexists; reflexivity. }
  exact (proj1 (proj2 (coach_risk_taking_shares Sample.coach)) Hmany Hall).
Defined.

(** X28. The coach comments on the hard stops only from five entries on,
    whatever the entries are.  From five readable entries on, it does so
    exactly when more than three in ten of them record that the hard stops
    failed, an entry that does not say counting as passed.  The analysis can
    fail only with an [AttributeError], on five or more entries of which one
    cannot be read. *)
Theorem coach_hard_stop_shares (self : TradingCoach.t) :
  let entries := @get_entries (TradingCoach.journal self) 10 None in
  let n := length entries in
  let f := length (filter gate_failed entries) in
  ((n < 5)%nat -> TradingCoach.analyze_hard_stop_triggers self = Ok None) /\
  ((5 <= n)%nat -> Forall readable entries ->
   TradingCoach.analyze_hard_stop_triggers self =
   Ok (if (3 * n <? 10 * f)%nat then Some TradingCoach.hard_stops_frequent
       else None)) /\
  (forall x : exn,
     TradingCoach.analyze_hard_stop_triggers self = Raise x ->
     x = AttributeError /\ (5 <= n)%nat /\ ~ Forall readable entries).
Proof.
  intros entries n f. unfold TradingCoach.analyze_hard_stop_triggers.
  fold entries. fold n.
  split; [ | split].
  - intros Hfew. apply Nat.ltb_lt in Hfew. now rewrite Hfew.
  - intros Hmany Hall.
    assert (Hguard : (n <? 5)%nat = false) by (apply Nat.ltb_ge; exact Hmany).
    rewrite Hguard.
    rewrite (keep_loop "hard_stops_passed" (VBool true)
               (fun passed => negb (truthy passed)) entries [] Hall).
    cbn [bind app]. fold gate_failed. fold f.
    rewrite share_above_three_tenths.
    destruct (3 * n <? 10 * f)%nat; reflexivity.
  - intros x. destruct (n <? 5)%nat eqn:Hguard; [discriminate | ].
    apply Nat.ltb_ge in Hguard.
    destruct (for_each entries _ []) as [kept | x'] eqn:Hloop; cbn [bind].
    + destruct (Qltb _ _); discriminate.
    + intros [= <-].
      destruct (keep_loop_raises _ _ _ _ _ _ Hloop) as [-> Hnot]. auto.
Qed.

Lemma coach_hard_stop_shares_witness :
  TradingCoach.analyze_hard_stop_triggers Sample.coach = Ok None.
Proof.
  assert (Hmany : (5 <= length Sample.entries)%nat) by (simpl; lia).
  assert (Hall : Forall readable Sample.entries).
  { repeat constructor; eexists; reflexivity. }
  exact (proj1 (proj2 (coach_hard_stop_shares Sample.coach)) Hmany Hall).
Defined.

(** ** Sums *)

Lemma to_num_numeric (v : value) (x : Q) : as_num v = Some x -> to_num v = Ok x.
Proof. unfold to_num. now intros ->. Qed.

Lemma to_num_ok (v : value) (x : Q) : to_num v = Ok x -> as_num v = Some x.
Proof.
  unfold to_num. destruct (as_num v) as [y | ]; [ | discriminate].
  now intros [= ->].
Qed.

Lemma to_num_raises (v : value) (e : exn) :
  to_num v = Raise e -> e = TypeError /\ ~ numeric v.
Proof.
  unfold to_num. destruct (as_num v) as [x | ] eqn:E; [discriminate | ].
  intros [= <-]. split; [reflexivity | ]. intros [x Hx]. congruence.
Qed.

Lemma sum_loop (values : list value) :
  forall acc : Q,
    Forall numeric values ->
    exists q : Q,
      for_each values (fun total v => x <- to_num v ;; Ok (total + x)) acc = Ok q /\
      q == acc + total values.
Proof.
  induction values as [ | v rest IH]; intros acc Hall; cbn [for_each].
  - exists acc. split; [reflexivity | simpl; lra].
  - apply Forall_cons_iff in Hall as [[x Hx] Hrest].
    rewrite (to_num_numeric _ _ Hx). cbn [bind].
    destruct (IH (acc + x) Hrest) as (q & Hq & Heq).
    exists q. split; [exact Hq | ]. simpl. rewrite Hx. lra.
Qed.

Lemma sum_loop_ok (values : list value) :
  forall acc q : Q,
    for_each values (fun total v => x <- to_num v ;; Ok (total + x)) acc = Ok q ->
    Forall numeric values.
Proof.
  induction values as [ | v rest IH]; intros acc q; cbn [for_each].
  - constructor.
  - destruct (to_num v) as [x | e] eqn:Hv; cbn [bind]; [ | discriminate].
    intros Hrest. constructor; [ | exact (IH _ _ Hrest)].
    exists x. exact (to_num_ok _ _ Hv).
Qed.

Lemma sum_loop_raises (values : list value) :
  forall (acc : Q) (e : exn),
    for_each values (fun total v => x <- to_num v ;; Ok (total + x)) acc = Raise e ->
    e = TypeError.
Proof.
  induction values as [ | v rest IH]; intros acc e; cbn [for_each].
  - discriminate.
  - destruct (to_num v) as [x | e'] eqn:Hv; cbn [bind].
    + apply IH.
    + intros [= <-]. exact (proj1 (to_num_raises _ _ Hv)).
Qed.

(** [sum] either adds up numbers or fails on a value that is none. *)
Lemma py_sum_cases (values : list value) :
  (Forall numeric values /\
   exists q : Q, py_sum values = Ok q /\ q == total values) \/
  (~ Forall numeric values /\ py_sum values = Raise TypeError).
Proof.
  unfold py_sum.
  destruct (for_each values _ 0) as [q | e] eqn:Hsum.
  - left. pose proof (sum_loop_ok _ _ _ Hsum) as Hall. split; [exact Hall | ].
    destruct (sum_loop values 0 Hall) as (q' & Hq' & Heq).
    rewrite Hsum in Hq'. injection Hq' as <-.
    exists q. split; [reflexivity | lra].
  - right. rewrite (sum_loop_raises _ _ _ Hsum). split; [ | reflexivity].
    intros Hall. destruct (sum_loop values 0 Hall) as (q' & Hq' & _).
    congruence.
Qed.

(** ** The trend of the scores *)

Lemma scores_loop (entries : list value) :
  forall scores : list value,
    Forall readable entries ->
    for_each entries
      (fun scores e =>
         decision <- py_get e "decision" (VDict []) ;;
         score <- py_get decision "final_score" (VNum 0) ;;
         Ok (append scores score))
      scores
    = Ok (scores ++ map score_of entries)%list.
Proof.
  induction entries as [ | e rest IH]; intros scores Hall; cbn [for_each].
  - simpl. now rewrite app_nil_r.
  - apply Forall_cons_iff in Hall as [[decision Hdecision] Hrest].
    assert (Hscore : score_of e = dict_get decision "final_score" (VNum 0)).
    { unfold score_of, decision_field. now rewrite Hdecision. }
    cbn [map]. rewrite Hscore, Hdecision. cbn [bind py_get].
    rewrite (IH _ Hrest). unfold append. now rewrite <- app_assoc.
Qed.

Lemma scores_loop_ok (entries : list value) :
  forall scores found : list value,
    for_each entries
      (fun scores e =>
         decision <- py_get e "decision" (VDict []) ;;
         score <- py_get decision "final_score" (VNum 0) ;;
         Ok (append scores score))
      scores
    = Ok found ->
    Forall readable entries.
Proof.
  induction entries as [ | e rest IH]; intros scores found; cbn [for_each].
  - constructor.
  - destruct (py_get e "decision" (VDict [])) as [decision | ] eqn:Hdecision;
      cbn [bind]; [ | discriminate].
    destruct (py_get decision "final_score" (VNum 0)) as [score | ] eqn:Hscore;
      cbn [bind]; [ | discriminate].
    intros Hrest. constructor; [ | exact (IH _ _ Hrest)].
    destruct decision as [a | l | d]; simpl in Hscore; try discriminate.
    now exists d.
Qed.

Lemma scores_loop_raises (entries : list value) :
  forall (scores : list value) (x : exn),
    for_each entries
      (fun scores e =>
         decision <- py_get e "decision" (VDict []) ;;
         score <- py_get decision "final_score" (VNum 0) ;;
         Ok (append scores score))
      scores
    = Raise x ->
    x = AttributeError.
Proof.
  induction entries as [ | e rest IH]; intros scores x; cbn [for_each].
  - discriminate.
  - destruct (py_get e "decision" (VDict [])) as [decision | ] eqn:Hdecision;
      cbn [bind]; [ | intros [= <-]; exact (py_get_raises _ _ _ _ Hdecision)].
    destruct (py_get decision "final_score" (VNum 0)) as [score | ] eqn:Hscore;
      cbn [bind]; [ | intros [= <-]; exact (py_get_raises _ _ _ _ Hscore)].
    apply IH.
Qed.

Lemma scores_loop_cases (entries : list value) (scores : list value) :
  (Forall readable entries /\
   for_each entries
     (fun scores e =>
        decision <- py_get e "decision" (VDict []) ;;
        score <- py_get decision "final_score" (VNum 0) ;;
        Ok (append scores score))
     scores
   = Ok (scores ++ map score_of entries)%list) \/
  (~ Forall readable entries /\
   for_each entries
     (fun scores e =>
        decision <- py_get e "decision" (VDict []) ;;
        score <- py_get decision "final_score" (VNum 0) ;;
        Ok (append scores score))
     scores
   = Raise AttributeError).
Proof.
  destruct (for_each entries _ scores) as [found | x] eqn:Hloop.
  - left. pose proof (scores_loop_ok _ _ _ Hloop) as Hall.
    split; [exact Hall | ].
    rewrite <- Hloop. exact (scores_loop entries scores Hall).
  - right. rewrite (scores_loop_raises _ _ _ Hloop). split; [ | reflexivity].
    intros Hall. pose proof (scores_loop entries scores Hall) as Hok.
    congruence.
Qed.

(** X29. The trend of the scores looks at the two ends of the journal
    only.  On fewer than five entries the coach says nothing.  From five
    entries on, it fails with an [AttributeError] when an entry cannot be
    read; it returns only when every entry can be read and the first three
    and the last three scores are numbers, and then with one of its two
    messages or with none; and two journals of readable entries whose first
    three scores agree and whose last three scores agree get the same
    answer, or the same failure, whatever stands in between. *)
Theorem coach_score_trend_ends (self self' : TradingCoach.t) :
  let entries := @get_entries (TradingCoach.journal self) 10 None in
  let entries' := @get_entries (TradingCoach.journal self') 10 None in
  let scores := map score_of entries in
  let scores' := map score_of entries' in
  ((length entries < 5)%nat ->
   TradingCoach.analyze_score_trend self = Ok None) /\
  ((5 <= length entries)%nat -> ~ Forall readable entries ->
   TradingCoach.analyze_score_trend self = Raise AttributeError) /\
  (forall said : option string,
     (5 <= length entries)%nat ->
     TradingCoach.analyze_score_trend self = Ok said ->
     Forall readable entries /\
     Forall numeric (last_n 3 scores) /\
     Forall numeric (firstn 3 scores) /\
     (said = Some TradingCoach.scores_falling \/
      said = Some TradingCoach.scores_improving \/
      said = None)) /\
  ((5 <= length entries)%nat -> (5 <= length entries')%nat ->
   Forall readable entries -> Forall readable entries' ->
   firstn 3 scores' = firstn 3 scores ->
   last_n 3 scores' = last_n 3 scores ->
   TradingCoach.analyze_score_trend self'
     = TradingCoach.analyze_score_trend self).
Proof.
  intros entries entries' scores scores'.
  unfold TradingCoach.analyze_score_trend. fold entries. fold entries'.
  split; [ | split; [ | split]].
  - intros Hfew. apply Nat.ltb_lt in Hfew. now rewrite Hfew.
  - intros Hmany Hnot.
    assert (Hguard : (length entries <? 5)%nat = false)
      by (apply Nat.ltb_ge; exact Hmany).
    rewrite Hguard.
    destruct (scores_loop_cases entries []) as [[Hall _] | [_ Hloop]];
      [contradiction | ].
    now rewrite Hloop.
  - intros said Hmany.
    assert (Hguard : (length entries <? 5)%nat = false)
      by (apply Nat.ltb_ge; exact Hmany).
    rewrite Hguard.
    destruct (scores_loop_cases entries []) as [[Hall Hloop] | [_ Hloop]];
      rewrite Hloop; cbn [bind app]; [ | discriminate].
    fold scores.
    destruct (py_sum_cases (last_n 3 scores))
      as [[Hrecent (r & -> & _)] | [_ ->]]; cbn [bind]; [ | discriminate].
    destruct (py_sum_cases (firstn 3 scores))
      as [[Hold (o & -> & _)] | [_ ->]]; cbn [bind]; [ | discriminate].
    intros Hsaid. repeat split; try assumption.
    destruct (Qltb (r / 3) (o / 3 - 10)); [left; congruence | ].
    destruct (Qltb (o / 3 + 10) (r / 3)); right; [left | right]; congruence.
  - intros Hmany Hmany' Hall Hall' Hfirst Hlast.
    assert (Hguard : (length entries <? 5)%nat = false)
      by (apply Nat.ltb_ge; exact Hmany).
    assert (Hguard' : (length entries' <? 5)%nat = false)
      by (apply Nat.ltb_ge; exact Hmany').
    rewrite Hguard, Hguard'.
    rewrite (scores_loop entries [] Hall), (scores_loop entries' [] Hall').
    cbn [bind app]. fold scores. fold scores'.
    now rewrite Hfirst, Hlast.
Qed.

Lemma coach_score_trend_ends_witness :
  TradingCoach.analyze_score_trend Sample.coach_longer
    = TradingCoach.analyze_score_trend Sample.coach.
Proof.
  assert (Hmany : (5 <= length Sample.entries)%nat) by (simpl; lia).
  assert (Hmany' : (5 <= length Sample.entries_longer)%nat) by (simpl; lia).
  assert (Hall : Forall readable Sample.entries).
  { repeat constructor; eexists; reflexivity. }
  assert (Hall' : Forall readable Sample.entries_longer).
  { repeat constructor; eexists; reflexivity. }
  assert (Hfirst : firstn 3 (map score_of Sample.entries_longer)
                   = firstn 3 (map score_of Sample.entries))
    by reflexivity.
  assert (Hlast : last_n 3 (map score_of Sample.entries_longer)
                  = last_n 3 (map score_of Sample.entries))
    by reflexivity.
  exact (proj2 (proj2 (proj2 (coach_score_trend_ends Sample.coach
                                Sample.coach_longer)))
           Hmany Hmany' Hall Hall' Hfirst Hlast).
Defined.

(** ** The state of mind *)

Lemma size_succ (n : nat) :
  inject_Z (Z.of_nat (S n)) == inject_Z (Z.of_nat n) + 1.
Proof.
  rewrite Nat2Z.inj_succ. unfold Z.succ. rewrite inject_Z_plus. reflexivity.
Qed.

Lemma total_at_least (values : list value) (low : Q) :
  (forall v : value,
     In v values -> exists x : Q, as_num v = Some x /\ low <= x) ->
  low * inject_Z (Z.of_nat (length values)) <= total values.
Proof.
  induction values as [ | v rest IH]; intros Hall.
  - change (low * 0 <= 0). lra.
  - destruct (Hall v (or_introl eq_refl)) as (x & Hx & Hlow).
    assert (Hrest : low * inject_Z (Z.of_nat (length rest)) <= total rest).
    { apply IH. intros w Hw. apply Hall. now right. }
    cbn [length total]. rewrite Hx, size_succ. lra.
Qed.

Lemma total_below (values : list value) (high : Q) :
  values <> [] ->
  (forall v : value,
     In v values -> exists x : Q, as_num v = Some x /\ x < high) ->
  total values < high * inject_Z (Z.of_nat (length values)).
Proof.
  induction values as [ | v rest IH]; intros Hsome Hall; [contradiction | ].
  destruct (Hall v (or_introl eq_refl)) as (x & Hx & Hhigh).
  cbn [length total]. rewrite Hx, size_succ.
  destruct rest as [ | w rest'].
  - change (x + 0 < high * (0 + 1)). lra.
  - assert (Hrest : total (w :: rest')
                    < high * inject_Z (Z.of_nat (length (w :: rest')))).
    { apply IH; [discriminate | ]. intros u Hu. apply Hall. now right. }
    lra.
Qed.

Lemma all_numeric (values : list value) (P : Q -> Prop) :
  (forall v : value, In v values -> exists x : Q, as_num v = Some x /\ P x) ->
  Forall numeric values.
Proof.
  intros Hall. apply Forall_forall. intros v Hv.
  destruct (Hall v Hv) as (x & Hx & _). now exists x.
Qed.

Lemma state_loop (items : list (string * value)) :
  forall psych_scores : list value,
    for_each items
      (fun psych_scores answer =>
         if str_in (fst answer) ["mental_state"; "emotional_control"]
         then Ok (append psych_scores (snd answer))
         else Ok psych_scores)
      psych_scores
    = Ok (psych_scores ++
          map snd
            (filter (fun answer =>
                       str_in (fst answer)
                         ["mental_state"; "emotional_control"])
               items))%list.
Proof.
  induction items as [ | answer rest IH]; intros psych_scores; cbn [for_each].
  - simpl. now rewrite app_nil_r.
  - cbn [filter].
    destruct (str_in (fst answer) ["mental_state"; "emotional_control"]);
      cbn [bind]; rewrite IH; [ | reflexivity].
    unfold append. cbn [map]. now rewrite <- app_assoc.
Qed.

Lemma states_loop (entries : list value) :
  forall psych_scores : list value,
    Forall answers_readable entries ->
    for_each entries
      (fun psych_scores entry =>
         answers <- py_get entry "answers" (VDict []) ;;
         items <- py_items answers ;;
         for_each items
           (fun psych_scores answer =>
              if str_in (fst answer) ["mental_state"; "emotional_control"]
              then Ok (append psych_scores (snd answer))
              else Ok psych_scores)
           psych_scores)
      psych_scores
    = Ok (psych_scores ++ flat_map state_of_mind entries)%list.
Proof.
  induction entries as [ | e rest IH]; intros psych_scores Hall;
    cbn [for_each].
  - simpl. now rewrite app_nil_r.
  - apply Forall_cons_iff in Hall as [[items Hitems] Hrest].
    assert (Hstate : state_of_mind e =
                     map snd
                       (filter (fun answer =>
                                  str_in (fst answer)
                                    ["mental_state"; "emotional_control"])
                          items)).
    { unfold state_of_mind. now rewrite Hitems. }
    unfold answer_items in Hitems.
    destruct (py_get e "answers" (VDict [])) as [answers | ];
      cbn [bind] in Hitems; [ | discriminate].
    cbn [bind]. rewrite Hitems. cbn [bind]. rewrite state_loop. cbn [bind].
    rewrite (IH _ Hrest). cbn [flat_map]. rewrite Hstate.
    now rewrite <- app_assoc.
Qed.

(** X30. The coach comments on the state of mind only from three entries
    on, whatever the entries are.  From three entries with readable answers
    on, what counts are the answers named [mental_state] or
    [emotional_control]: with none of them it says nothing; if all of them
    are below 3 it reports a low state of mind; if all are from 3 to below
    3.5 it reports an irregular one; and if all are at least 3.5, as with
    answers of 4 and 5, it says nothing. *)
Theorem coach_psychology_bounds (self : TradingCoach.t) :
  let entries := @get_entries (TradingCoach.journal self) 7 None in
  let scores := flat_map state_of_mind entries in
  ((length entries < 3)%nat ->
   TradingCoach.analyze_psychology_pattern self = Ok None) /\
  ((3 <= length entries)%nat -> Forall answers_readable entries ->
   (scores = [] -> TradingCoach.analyze_psychology_pattern self = Ok None) /\
   (scores <> [] ->
    (forall v : value,
       In v scores -> exists x : Q, as_num v = Some x /\ x < 3) ->
    TradingCoach.analyze_psychology_pattern self
      = Ok (Some TradingCoach.low_state)) /\
   (scores <> [] ->
    (forall v : value,
       In v scores -> exists x : Q, as_num v = Some x /\ 3 <= x /\ x < 7 # 2) ->
    TradingCoach.analyze_psychology_pattern self
      = Ok (Some TradingCoach.irregular_state)) /\
   ((forall v : value,
       In v scores -> exists x : Q, as_num v = Some x /\ 7 # 2 <= x) ->
    TradingCoach.analyze_psychology_pattern self = Ok None)).
Proof.
  intros entries scores. unfold TradingCoach.analyze_psychology_pattern.
  fold entries. split.
  - intros Hfew. apply Nat.ltb_lt in Hfew. now rewrite Hfew.
  - intros Hmany Hall.
    assert (Hguard : (length entries <? 3)%nat = false)
      by (apply Nat.ltb_ge; exact Hmany).
    rewrite Hguard, (states_loop entries [] Hall). cbn [bind app].
    fold scores.
    assert (Hmean : forall P : Q -> Prop,
              scores <> [] ->
              (forall v : value,
                 In v scores -> exists x : Q, as_num v = Some x /\ P x) ->
              exists q : Q,
                q == total scores /\
                0 < inject_Z (Z.of_nat (length scores)) /\
                match scores with
                | [] => Ok None
                | _ :: _ =>
                    total <- py_sum scores ;;
                    avg_psych <- py_div total
                                   (inject_Z (Z.of_nat (length scores))) ;;
                    if Qltb avg_psych 3
                    then Ok (Some TradingCoach.low_state)
                    else if Qltb avg_psych (7 # 2)
                         then Ok (Some TradingCoach.irregular_state)
                         else Ok None
                end
                = (let avg_psych := q / inject_Z (Z.of_nat (length scores)) in
                   if Qltb avg_psych 3
                   then Ok (Some TradingCoach.low_state)
                   else if Qltb avg_psych (7 # 2)
                        then Ok (Some TradingCoach.irregular_state)
                        else Ok None)).
    { intros P Hsome HP.
      destruct (py_sum_cases scores) as [[_ (q & Hq & Eq)] | [Hnot _]];
        [ | exfalso; apply Hnot; exact (all_numeric _ _ HP)].
      assert (Hsize : 0 < inject_Z (Z.of_nat (length scores))).
      { apply nat_pos_Q. destruct scores; [contradiction | simpl; lia]. }
      exists q. split; [exact Eq | ]. split; [exact Hsize | ].
      destruct scores as [ | v rest]; [contradiction | ].
      rewrite Hq. cbn [bind]. rewrite (py_div_positive _ _ Hsize).
      reflexivity. }
    split; [ | split; [ | split]].
    + intros Hnone. now rewrite Hnone.
    + intros Hsome Hlow.
      destruct (Hmean _ Hsome Hlow) as (q & Eq & Hsize & ->). cbv zeta.
      pose proof (total_below scores 3 Hsome Hlow) as Hbelow.
      assert (H3 : Qltb (q / inject_Z (Z.of_nat (length scores))) 3 = true).
      { apply Qltb_lt. apply Qlt_shift_div_r; [exact Hsize | lra]. }
      now rewrite H3.
    + intros Hsome Hmid.
      destruct (Hmean _ Hsome Hmid) as (q & Eq & Hsize & ->). cbv zeta.
      assert (Hlow : forall v : value,
                In v scores -> exists x : Q, as_num v = Some x /\ 3 <= x).
      { intros v Hv. destruct (Hmid v Hv) as (x & Hx & Hlo & _). eauto. }
      assert (Hhigh : forall v : value,
                In v scores -> exists x : Q, as_num v = Some x /\ x < 7 # 2).
      { intros v Hv. destruct (Hmid v Hv) as (x & Hx & _ & Hhi). eauto. }
      pose proof (total_at_least scores 3 Hlow) as Hleast.
      pose proof (total_below scores (7 # 2) Hsome Hhigh) as Hbelow.
      assert (H3 : Qltb (q / inject_Z (Z.of_nat (length scores))) 3 = false).
      { apply Qltb_ge. apply Qle_shift_div_l; [exact Hsize | lra]. }
      assert (H35 : Qltb (q / inject_Z (Z.of_nat (length scores))) (7 # 2)
                    = true).
      { apply Qltb_lt. apply Qlt_shift_div_r; [exact Hsize | lra]. }
      now rewrite H3, H35.
    + intros Hhigh. destruct scores as [ | v rest] eqn:Hscores; [reflexivity | ].
      assert (Hsome : v :: rest <> []) by discriminate.
      destruct (Hmean _ Hsome Hhigh) as (q & Eq & Hsize & ->). cbv zeta.
      pose proof (total_at_least (v :: rest) (7 # 2) Hhigh) as Hleast.
      assert (H35 : Qltb (q / inject_Z (Z.of_nat (length (v :: rest)))) (7 # 2)
                    = false).
      { apply Qltb_ge. apply Qle_shift_div_l; [exact Hsize | lra]. }
      assert (H3 : Qltb (q / inject_Z (Z.of_nat (length (v :: rest)))) 3
                   = false).
      { apply Qltb_ge. apply Qle_shift_div_l; [exact Hsize | lra]. }
      now rewrite H3, H35.
Qed.

Lemma coach_psychology_bounds_witness :
  TradingCoach.analyze_psychology_pattern Sample.coach = Ok None.
Proof.
  assert (Hmany : (3 <= length Sample.entries)%nat) by (simpl; lia).
  assert (Hall : Forall answers_readable Sample.entries).
  { repeat constructor; eexists; reflexivity. }
  assert (Hhigh : forall v : value,
            In v (flat_map state_of_mind Sample.entries) ->
            exists x : Q, as_num v = Some x /\ 7 # 2 <= x).
  { intros v Hv. simpl in Hv.
    repeat (destruct Hv as [<- | Hv];
            [eexists; split; [reflexivity | discriminate] | ]).
    contradiction. }
  exact (proj2 (proj2 (proj2 (proj2 (coach_psychology_bounds Sample.coach)
                                Hmany Hall)))
           Hhigh).
Defined.
